(** * simul8r-client: the simulation client wrapper (src/clientWrapper.js)

    A shallow embedding of the client wrapper around the remote simulation
    web service, and the properties of its request sequencing, input
    validation, status handling and response normalisation.

    Layout:
    - [Js]       the fragment of the JavaScript runtime the wrapper relies on
                 (values, string conversion, truthiness, JSON);
    - [Net]      the HTTP transport ([request]) as an oracle, the event log
                 and promises;
    - [Client]   the functions of clientWrapper.js;
    - [Scenario] concrete services to run them against;
    - the properties, and the theorems at work on the scenarios. *)

From Stdlib Require Import ZArith List String Ascii Bool Lia.
From Stdlib Require Import Decimal DecimalString DecimalZ.
From Stdlib Require DecimalPos DecimalFacts.
Import ListNotations.

Local Open Scope string_scope.
Local Open Scope Z_scope.

Set Warnings "-register-all".

(* ===================================================================== *)
(** * The JavaScript values the wrapper handles *)
(* ===================================================================== *)

Module Js.

(** Numbers.  Integer-valued numbers are carried as [Z]; the model is exact
    on the safe integers, which is where simulation ids, agent indexes and
    HTTP status codes live.  A finite number that is not an integer is
    carried by its sign, its significant decimal digits [d1..dk] and the
    position [pt] of the decimal point: it denotes 0.d1..dk * 10^pt, with
    [k > pt].  IEEE rounding is not modelled. *)
Inductive number :=
| NInt (z : Z)
| NFrac (neg : bool) (digits : string) (pt : Z)
| NNaN
| NInf (neg : bool).

(** Values: the primitives, arrays and plain objects of JSON, and [Error]
    objects.  An object is the list of its own enumerable properties in
    insertion order. *)
Inductive value :=
| VUndefined
| VNull
| VBool (b : bool)
| VNum (n : number)
| VStr (s : string)
| VArr (elems : list value)
| VObj (fields : list (string * value))
| VError (name : string) (message : string).

Definition VInt (z : Z) : value := VNum (NInt z).

(** ** Number::toString *)

Definition string_of_Z (z : Z) : string := NilZero.string_of_int (Z.to_int z).

Fixpoint zeros (n : nat) : string :=
  match n with
  | O => ""
  | S n' => String "0" (zeros n')
  end.

Fixpoint take (n : nat) (s : string) : string :=
  match n, s with
  | S n', String c s' => String c (take n' s')
  | _, _ => ""
  end.

Fixpoint drop (n : nat) (s : string) : string :=
  match n, s with
  | S n', String _ s' => drop n' s'
  | _, _ => s
  end.

(** The exponent notation of Number::toString: [d.ddd e+-x]. *)
Definition exponent_form (digits : string) (pt : Z) : string :=
  let e := pt - 1 in
  let mant := match digits with
              | String d EmptyString => String d ""
              | String d rest => String d ("." ++ rest)
              | EmptyString => ""
              end in
  mant ++ "e" ++ (if 0 <=? e then "+" else "-") ++ string_of_Z (Z.abs e).

Definition frac_to_string (neg : bool) (digits : string) (pt : Z) : string :=
  (if neg then "-" else "") ++
  (if (0 <? pt) && (pt <=? 21) then
     take (Z.to_nat pt) digits ++ "." ++ drop (Z.to_nat pt) digits
   else if (-6 <? pt) && (pt <=? 0) then
     "0." ++ zeros (Z.to_nat (- pt)) ++ digits
   else exponent_form digits pt).

Definition number_to_string (n : number) : string :=
  match n with
  | NInt z => string_of_Z z
  | NFrac neg digits pt => frac_to_string neg digits pt
  | NNaN => "NaN"
  | NInf neg => if neg then "-Infinity" else "Infinity"
  end.

(** ** ToString

    [Array.prototype.toString] joins the elements with commas, rendering
    [undefined] and [null] elements as the empty string; a plain object
    renders as ["[object Object]"]; an [Error] as [name: message].  The
    function is total: where JavaScript would throw instead (an object whose
    own [toString] is not callable) it still answers, so what is stated of
    every value holds of the wrapper only where no such object is converted;
    [convertible], below, names the values on which the two agree. *)
Fixpoint to_string (v : value) : string :=
  match v with
  | VUndefined => "undefined"
  | VNull => "null"
  | VBool true => "true"
  | VBool false => "false"
  | VNum n => number_to_string n
  | VStr s => s
  | VArr elems =>
      let elem_string (e : value) : string :=
        match e with
        | VUndefined | VNull => ""
        | _ => to_string e
        end in
      (fix join (l : list value) : string :=
         match l with
         | [] => ""
         | [e] => elem_string e
         | e :: rest => elem_string e ++ "," ++ join rest
         end) elems
  | VObj _ => "[object Object]"
  | VError name message =>
      if String.eqb name "" then message
      else if String.eqb message "" then name
      else name ++ ": " ++ message
  end.

(** [a + b] where the left operand is a string: string concatenation. *)
Definition str_plus (s : string) (v : value) : string := s ++ to_string v.

(** ** ToBoolean, [!v], [a || b] *)
Definition truthy (v : value) : bool :=
  match v with
  | VUndefined | VNull => false
  | VBool b => b
  | VNum (NInt z) => negb (z =? 0)
  | VNum NNaN => false
  | VNum _ => true
  | VStr s => negb (String.eqb s "")
  | VArr _ | VObj _ | VError _ _ => true
  end.

Definition js_not (v : value) : bool := negb (truthy v).

Definition js_or (a b : value) : value := if truthy a then a else b.

(** [Number.isInteger(v)]: [v] is a number and its value is an integer. *)
Definition Number_isInteger (v : value) : bool :=
  match v with
  | VNum (NInt _) => true
  | _ => false
  end.

(** [Number.isSafeInteger(v)]: an integer of magnitude at most 2^53 - 1.
    These are the integers a JavaScript number carries exactly and that
    Number::toString writes out in full decimal. *)
Definition Number_isSafeInteger (v : value) : bool :=
  match v with
  | VNum (NInt z) => Z.abs z <? 2 ^ 53
  | _ => false
  end.

(** The values whose conversion to a string, by ToString and by [+] against
    a string, is the one [to_string] gives.  Left out are the numbers
    beyond the safe integers and the fractions, which JavaScript rounds and
    writes in exponent notation from 1e21 on, and the objects with an own
    property [toString]: no value of this type is callable, so converting
    such an object throws a TypeError (the inherited [valueOf] returns the
    object itself).  An array converts its elements in turn. *)
Fixpoint convertible (v : value) : bool :=
  match v with
  | VNum (NInt z) => Z.abs z <? 2 ^ 53
  | VNum (NFrac _ _ _) => false
  | VNum _ => true
  | VArr elems => forallb convertible elems
  | VObj fields =>
      negb (existsb (fun kv => String.eqb (fst kv) "toString") fields)
  | VUndefined | VNull | VBool _ | VStr _ | VError _ _ => true
  end.

(** [v == null]: true of [null] and [undefined] only. *)
Definition loose_eq_null (v : value) : bool :=
  match v with
  | VUndefined | VNull => true
  | _ => false
  end.

(** [v == 'undefined']: loose equality with the seven-letter string.  A
    string compares by content; an array or object is first converted with
    ToPrimitive, which yields its string rendering; a number or boolean is
    compared with ToNumber('undefined'), which is NaN and equal to
    nothing; [undefined] and [null] loosely equal only each other. *)
Definition loose_eq_undefined_word (v : value) : bool :=
  match v with
  | VStr s => String.eqb s "undefined"
  | VArr _ | VObj _ | VError _ _ => String.eqb (to_string v) "undefined"
  | VUndefined | VNull | VBool _ | VNum _ => false
  end.

(** ** Property access and objects

    [get_field v k] is [v.k] for a property name [k] that no built-in
    prototype defines (the wrapper reads [simulationId], [simulationData]
    and [NumAgents] only): the own property of a plain object, [undefined]
    on any other object or primitive, and a TypeError ([None]) on
    [undefined] and [null]. *)
Fixpoint lookup (k : string) (fields : list (string * value)) : option value :=
  match fields with
  | [] => None
  | (k', v) :: rest => if String.eqb k k' then Some v else lookup k rest
  end.

Definition get_field (v : value) (k : string) : option value :=
  match v with
  | VUndefined | VNull => None
  | VObj fields =>
      match lookup k fields with
      | Some x => Some x
      | None => Some VUndefined
      end
  | _ => Some VUndefined
  end.

Definition is_digit (c : ascii) : bool :=
  let n := N_of_ascii c in (48 <=? n)%N && (n <=? 57)%N.

Fixpoint all_digits (s : string) : bool :=
  match s with
  | "" => true
  | String c s' => is_digit c && all_digits s'
  end.

(** The value of a string of decimal digits. *)
Definition digits_value (s : string) : Z :=
  match NilEmpty.uint_of_string s with
  | Some u => Z.of_uint u
  | None => 0
  end.

(** An array index is a canonical numeral below 2^32 - 1; such property
    names are enumerated first, in ascending order. *)
Definition array_index (k : string) : option Z :=
  if negb (String.eqb k "") && all_digits k
     && String.eqb (string_of_Z (digits_value k)) k
     && (digits_value k <? 4294967295)
  then Some (digits_value k) else None.

Fixpoint insert_index (i : Z) (k : string) (v : value)
         (fields : list (string * value)) : list (string * value) :=
  match fields with
  | [] => [(k, v)]
  | (k', v') :: rest =>
      match array_index k' with
      | Some j => if j <? i then (k', v') :: insert_index i k v rest
                  else (k, v) :: fields
      | None => (k, v) :: fields
      end
  end.

Fixpoint replace_field (k : string) (v : value)
         (fields : list (string * value)) : list (string * value) :=
  match fields with
  | [] => []
  | (k', v') :: rest =>
      if String.eqb k k' then (k', v) :: rest
      else (k', v') :: replace_field k v rest
  end.

(** [o[k] = v] on the property list of a plain object. *)
Definition set_field (fields : list (string * value)) (k : string) (v : value)
  : list (string * value) :=
  match lookup k fields with
  | Some _ => replace_field k v fields
  | None =>
      match array_index k with
      | Some i => insert_index i k v fields
      | None => fields ++ [(k, v)]
      end
  end.

(** ** JSON.stringify *)

Definition hex_digit (n : N) : ascii :=
  if (n <? 10)%N then ascii_of_N (48 + n) else ascii_of_N (87 + n).

Definition dquote : ascii := ascii_of_N 34.

(** QuoteJSONString on one character of a byte string. *)
Definition quote_char (c : ascii) : string :=
  let n := N_of_ascii c in
  if (n =? 34)%N then String "\" (String dquote "")
  else if (n =? 92)%N then "\\"
  else if (n =? 8)%N then "\b"
  else if (n =? 12)%N then "\f"
  else if (n =? 10)%N then "\n"
  else if (n =? 13)%N then "\r"
  else if (n =? 9)%N then "\t"
  else if (n <? 32)%N then
    "\u00" ++ String (hex_digit (n / 16)) (String (hex_digit (n mod 16)) "")
  else String c "".

Fixpoint quote_body (s : string) : string :=
  match s with
  | "" => ""
  | String c s' => quote_char c ++ quote_body s'
  end.

Definition quote (s : string) : string :=
  String dquote (quote_body s ++ String dquote "").

(** SerializeJSONProperty: [None] is the [undefined] that JSON.stringify
    yields for [undefined]; inside an array it is written [null], inside an
    object the property is left out.  Non-finite numbers are written
    [null]; an [Error] has no enumerable property of its own. *)
Fixpoint stringify (v : value) : option string :=
  match v with
  | VUndefined => None
  | VNull => Some "null"
  | VBool true => Some "true"
  | VBool false => Some "false"
  | VNum (NInt z) => Some (string_of_Z z)
  | VNum (NFrac neg digits pt) => Some (frac_to_string neg digits pt)
  | VNum NNaN | VNum (NInf _) => Some "null"
  | VStr s => Some (quote s)
  | VArr elems =>
      let item (e : value) : string :=
        match stringify e with
        | Some s => s
        | None => "null"
        end in
      Some ("[" ++
            (fix items (l : list value) : string :=
               match l with
               | [] => ""
               | [e] => item e
               | e :: rest => item e ++ "," ++ items rest
               end) elems ++ "]")
  | VObj fields =>
      Some ("{" ++
            (fix members (l : list (string * value)) (first : bool) : string :=
               match l with
               | [] => ""
               | (k, x) :: rest =>
                   match stringify x with
                   | None => members rest first
                   | Some s =>
                       (if first then "" else ",") ++ quote k ++ ":" ++ s
                       ++ members rest false
                   end
               end) fields true ++ "}")
  | VError _ _ => Some "{}"
  end.

Definition JSON_stringify (v : value) : value :=
  match stringify v with
  | Some s => VStr s
  | None => VUndefined
  end.

(** ** JSON.parse: lexical part *)

Definition is_ws (c : ascii) : bool :=
  let n := N_of_ascii c in
  (n =? 32)%N || (n =? 9)%N || (n =? 10)%N || (n =? 13)%N.

Fixpoint skip_ws (s : string) : string :=
  match s with
  | String c s' => if is_ws c then skip_ws s' else s
  | "" => ""
  end.

(** What follows the character [c] at the head of [s], if [s] starts
    with it. *)
Definition starts_with (c : ascii) (s : string) : option string :=
  match s with
  | String x rest => if Ascii.eqb x c then Some rest else None
  | "" => None
  end.

(** The longest prefix of decimal digits, and what follows it. *)
Fixpoint span_digits (s : string) : string * string :=
  match s with
  | String c s' =>
      if is_digit c then
        let '(ds, rest) := span_digits s' in (String c ds, rest)
      else ("", s)
  | "" => ("", "")
  end.

Fixpoint strip_trailing_zeros (s : string) : string :=
  match s with
  | "" => ""
  | String c s' =>
      match strip_trailing_zeros s' with
      | "" => if Ascii.eqb c "0" then "" else String c ""
      | t => String c t
      end
  end.

(** The number denoted by sign, integer digits, fraction digits and
    exponent of a JSON numeral, taken exactly: the rounding of JSON.parse
    to the nearest double, which leaves the safe integers as they are, is
    not modelled, and -0 is 0. *)
Definition make_number (neg : bool) (int_ds frac_ds : string) (e : Z) : number :=
  let D := digits_value (int_ds ++ frac_ds) in
  let sh := e - Z.of_nat (String.length frac_ds) in
  let sign := if neg then -1 else 1 in
  if D =? 0 then NInt 0
  else if 0 <=? sh then NInt (sign * D * 10 ^ sh)
  else if D mod 10 ^ (- sh) =? 0 then NInt (sign * (D / 10 ^ (- sh)))
  else NFrac neg (strip_trailing_zeros (string_of_Z D))
             (Z.of_nat (String.length (string_of_Z D)) + sh).

(** A JSON numeral: an optional minus sign; an integer part that is either
    the single digit zero or starts with a non-zero digit; an optional
    fraction (a point and at least one digit); an optional exponent (e or E,
    an optional sign, at least one digit). *)
Definition parse_int_part (s : string) : option (string * string) :=
  match s with
  | String c s' =>
      if Ascii.eqb c "0" then Some ("0", s')
      else if is_digit c then Some (span_digits s)
      else None
  | "" => None
  end.

Definition parse_frac_part (s : string) : option (string * string) :=
  match starts_with "." s with
  | Some s' =>
      match span_digits s' with
      | ("", _) => None
      | (ds, rest) => Some (ds, rest)
      end
  | None => Some ("", s)
  end.

Definition parse_exp_digits (neg : bool) (s : string) : option (Z * string) :=
  match span_digits s with
  | ("", _) => None
  | (ds, rest) =>
      Some ((if neg then - digits_value ds else digits_value ds), rest)
  end.

Definition parse_exp_part (s : string) : option (Z * string) :=
  match s with
  | String c s' =>
      if Ascii.eqb c "e" || Ascii.eqb c "E" then
        match starts_with "+" s', starts_with "-" s' with
        | Some s'', _ => parse_exp_digits false s''
        | None, Some s'' => parse_exp_digits true s''
        | None, None => parse_exp_digits false s'
        end
      else Some (0, s)
  | "" => Some (0, s)
  end.

Definition parse_number (s : string) : option (number * string) :=
  let '(neg, s1) := match starts_with "-" s with
                    | Some s' => (true, s')
                    | None => (false, s)
                    end in
  match parse_int_part s1 with
  | None => None
  | Some (int_ds, s2) =>
      match parse_frac_part s2 with
      | None => None
      | Some (frac_ds, s3) =>
          match parse_exp_part s3 with
          | None => None
          | Some (e, s4) => Some (make_number neg int_ds frac_ds e, s4)
          end
      end
  end.

(** String literals.  A [\uXXXX] escape denotes a UTF-16 code unit; strings
    are byte strings here, so the decoded code points are written in UTF-8
    (a high surrogate followed by a low one is one code point). *)
Inductive str_item :=
| Byte (c : ascii)
| Unit16 (u : N).

Definition hex_value (c : ascii) : option N :=
  let n := N_of_ascii c in
  if (48 <=? n)%N && (n <=? 57)%N then Some (n - 48)%N
  else if (65 <=? n)%N && (n <=? 70)%N then Some (n - 55)%N
  else if (97 <=? n)%N && (n <=? 102)%N then Some (n - 87)%N
  else None.

Definition hex4 (a b c d : ascii) : option N :=
  match hex_value a, hex_value b, hex_value c, hex_value d with
  | Some x, Some y, Some z, Some w => Some (((x * 16 + y) * 16 + z) * 16 + w)%N
  | _, _, _, _ => None
  end.

Definition push_item (i : str_item) (r : option (list str_item * string))
  : option (list str_item * string) :=
  match r with
  | Some (items, rest) => Some (i :: items, rest)
  | None => None
  end.

(** The items of a string literal after its opening quote, up to and
    including the closing quote. *)
Fixpoint parse_string_items (s : string) : option (list str_item * string) :=
  match s with
  | "" => None
  | String c rest =>
      let n := N_of_ascii c in
      if (n =? 34)%N then Some ([], rest)
      else if (n =? 92)%N then
        match rest with
        | String e rest1 =>
            let m := N_of_ascii e in
            if (m =? 34)%N || (m =? 92)%N || (m =? 47)%N
            then push_item (Byte e) (parse_string_items rest1)
            else if (m =? 98)%N
            then push_item (Byte (ascii_of_N 8)) (parse_string_items rest1)
            else if (m =? 102)%N
            then push_item (Byte (ascii_of_N 12)) (parse_string_items rest1)
            else if (m =? 110)%N
            then push_item (Byte (ascii_of_N 10)) (parse_string_items rest1)
            else if (m =? 114)%N
            then push_item (Byte (ascii_of_N 13)) (parse_string_items rest1)
            else if (m =? 116)%N
            then push_item (Byte (ascii_of_N 9)) (parse_string_items rest1)
            else if (m =? 117)%N then
              match rest1 with
              | String h1 (String h2 (String h3 (String h4 rest2))) =>
                  match hex4 h1 h2 h3 h4 with
                  | Some u => push_item (Unit16 u) (parse_string_items rest2)
                  | None => None
                  end
              | _ => None
              end
            else None
        | "" => None
        end
      else if (n <? 32)%N then None
      else push_item (Byte c) (parse_string_items rest)
  end.

Definition utf8 (cp : N) : string :=
  let b (n : N) : ascii := ascii_of_N n in
  (if cp <? 128 then String (b cp) ""
   else if cp <? 2048 then
     String (b (192 + cp / 64)) (String (b (128 + cp mod 64)) "")
   else if cp <? 65536 then
     String (b (224 + cp / 4096))
       (String (b (128 + (cp / 64) mod 64)) (String (b (128 + cp mod 64)) ""))
   else
     String (b (240 + cp / 262144))
       (String (b (128 + (cp / 4096) mod 64))
          (String (b (128 + (cp / 64) mod 64))
             (String (b (128 + cp mod 64)) ""))))%N.

Definition is_high_surrogate (u : N) : bool := (55296 <=? u)%N && (u <=? 56319)%N.
Definition is_low_surrogate (u : N) : bool := (56320 <=? u)%N && (u <=? 57343)%N.

Fixpoint encode_items (items : list str_item) : string :=
  match items with
  | [] => ""
  | Byte c :: rest => String c (encode_items rest)
  | Unit16 hi :: rest =>
      match rest with
      | Unit16 lo :: rest' =>
          if is_high_surrogate hi && is_low_surrogate lo
          then utf8 (65536 + (hi - 55296) * 1024 + (lo - 56320)) ++ encode_items rest'
          else utf8 hi ++ encode_items rest
      | _ => utf8 hi ++ encode_items rest
      end
  end.

Definition parse_string (s : string) : option (string * string) :=
  match parse_string_items s with
  | Some (items, rest) => Some (encode_items items, rest)
  | None => None
  end.

(** A keyword ([true], [false], [null]) at the head of the input. *)
Definition parse_word (w : string) (v : value) (s : string)
  : option (value * string) :=
  if String.prefix w s then Some (v, drop (String.length w) s) else None.

(** ** JSON.parse: values

    Recursive descent on the text, with a budget bounding the number of
    nested calls; [JSON_parse] gives a budget the text cannot exhaust
    (lemma [JSON_parse_budget]).  [parse_elements] and [parse_members]
    start where a value, respectively a member, is expected. *)
Fixpoint parse_value (fuel : nat) (s : string) : option (value * string) :=
  match fuel with
  | O => None
  | S fuel' =>
      match s with
      | "" => None
      | String c rest =>
          let n := N_of_ascii c in
          if (n =? 123)%N then
            match starts_with "}" (skip_ws rest) with
            | Some rest' => Some (VObj [], rest')
            | None => parse_members fuel' [] (skip_ws rest)
            end
          else if (n =? 91)%N then
            match starts_with "]" (skip_ws rest) with
            | Some rest' => Some (VArr [], rest')
            | None => parse_elements fuel' [] (skip_ws rest)
            end
          else if (n =? 34)%N then
            match parse_string rest with
            | Some (str, rest') => Some (VStr str, rest')
            | None => None
            end
          else if (n =? 116)%N then parse_word "true" (VBool true) s
          else if (n =? 102)%N then parse_word "false" (VBool false) s
          else if (n =? 110)%N then parse_word "null" VNull s
          else
            match parse_number s with
            | Some (num, rest') => Some (VNum num, rest')
            | None => None
            end
      end
  end

with parse_elements (fuel : nat) (acc : list value) (s : string)
  : option (value * string) :=
  match fuel with
  | O => None
  | S fuel' =>
      match parse_value fuel' s with
      | None => None
      | Some (v, r) =>
          match starts_with "," (skip_ws r), starts_with "]" (skip_ws r) with
          | Some r', _ => parse_elements fuel' (acc ++ [v]) (skip_ws r')
          | None, Some r' => Some (VArr (acc ++ [v]), r')
          | None, None => None
          end
      end
  end

with parse_members (fuel : nat) (acc : list (string * value)) (s : string)
  : option (value * string) :=
  match fuel with
  | O => None
  | S fuel' =>
      match starts_with dquote s with
      | None => None
      | Some s1 =>
          match parse_string s1 with
          | None => None
          | Some (k, s2) =>
              match starts_with ":" (skip_ws s2) with
              | None => None
              | Some s3 =>
                  match parse_value fuel' (skip_ws s3) with
                  | None => None
                  | Some (v, r) =>
                      match starts_with "," (skip_ws r),
                            starts_with "}" (skip_ws r) with
                      | Some r', _ =>
                          parse_members fuel' (set_field acc k v) (skip_ws r')
                      | None, Some r' => Some (VObj (set_field acc k v), r')
                      | None, None => None
                      end
                  end
              end
          end
      end
  end.

(** [JSON.parse(text)]: [None] is the SyntaxError it throws. *)
Definition JSON_parse (text : string) : option value :=
  match parse_value (2 * String.length text + 2) (skip_ws text) with
  | Some (v, rest) =>
      match skip_ws rest with
      | "" => Some v
      | _ => None
      end
  | None => None
  end.

(** ** parseInt

    [parseInt(v)] with no radix: the string rendering of [v], leading
    white space skipped, an optional sign, a [0x] prefix selecting base 16,
    then the longest run of digits; NaN when there is none.  The digits are
    summed in [Z]: the result is the one of JavaScript on the safe
    integers, and is not rounded beyond them. *)
Fixpoint span_hex (s : string) : list N * string :=
  match s with
  | String c s' =>
      match hex_value c with
      | Some d => let '(ds, rest) := span_hex s' in (d :: ds, rest)
      | None => ([], s)
      end
  | "" => ([], "")
  end.

Definition is_str_ws (c : ascii) : bool :=
  let n := N_of_ascii c in
  (n =? 32)%N || ((9 <=? n)%N && (n <=? 13)%N).

(** The white space beyond ASCII, in the UTF-8 bytes strings are held in:
    U+00A0 on two bytes; on three bytes U+1680, U+2000 to U+200A, U+2028,
    U+2029, U+202F, U+205F, U+3000 and U+FEFF. *)
Definition is_str_ws2 (c1 c2 : ascii) : bool :=
  (N_of_ascii c1 =? 194)%N && (N_of_ascii c2 =? 160)%N.

Definition is_str_ws3 (c1 c2 c3 : ascii) : bool :=
  let a := N_of_ascii c1 in
  let b := N_of_ascii c2 in
  let c := N_of_ascii c3 in
  ((a =? 225) && (b =? 154) && (c =? 128))%N
  || ((a =? 226) && (b =? 128)
      && (((128 <=? c) && (c <=? 138)) || (c =? 168) || (c =? 169) || (c =? 175)))%N
  || ((a =? 226) && (b =? 129) && (c =? 159))%N
  || ((a =? 227) && (b =? 128) && (c =? 128))%N
  || ((a =? 239) && (b =? 187) && (c =? 191))%N.

Fixpoint skip_str_ws (s : string) : string :=
  match s with
  | String c1 s1 =>
      if is_str_ws c1 then skip_str_ws s1
      else
        match s1 with
        | String c2 s2 =>
            if is_str_ws2 c1 c2 then skip_str_ws s2
            else
              match s2 with
              | String c3 s3 =>
                  if is_str_ws3 c1 c2 c3 then skip_str_ws s3 else s
              | "" => s
              end
        | "" => s
        end
  | "" => ""
  end.

Definition parse_int_digits (s : string) : option Z :=
  match s with
  | String "0" (String x s') =>
      if Ascii.eqb x "x" || Ascii.eqb x "X" then
        match fst (span_hex s') with
        | [] => None
        | ds => Some (fold_left (fun acc d => acc * 16 + Z.of_N d) ds 0)
        end
      else Some (digits_value (fst (span_digits s)))
  | _ =>
      match fst (span_digits s) with
      | "" => None
      | ds => Some (digits_value ds)
      end
  end.

(** What parseInt returns is an integer or NaN ([None]). *)
Definition int_or_nan := option Z.

Definition num_of (r : int_or_nan) : number :=
  match r with
  | Some z => NInt z
  | None => NNaN
  end.

Definition parseInt (v : value) : int_or_nan :=
  let s := skip_str_ws (to_string v) in
  let '(neg, s1) := match s with
                    | String "-" s' => (true, s')
                    | String "+" s' => (false, s')
                    | _ => (false, s)
                    end in
  match parse_int_digits s1 with
  | Some z => Some (if neg then - z else z)
  | None => None
  end.

(** [n - 1] on the result of parseInt: NaN stays NaN. *)
Definition minus_one (r : int_or_nan) : int_or_nan :=
  match r with
  | Some z => Some (z - 1)
  | None => None
  end.

End Js.

(* ===================================================================== *)
(** * The transport, the event log and promises *)
(* ===================================================================== *)

Module Net.
Import Js.

(** ** What [request] sends and what it hands to the callback *)

Inductive method := GET | POST | PUT.

(** The options object passed to [request.get], [request.post] and
    [request.put]: [url], and where given [body] and [json]. *)
Record request := mkRequest {
  meth : method;
  url : string;
  body : option value;
  json : bool
}.

(** The [response] argument of the callback, when there is one, is an
    [http.IncomingMessage]; the wrapper reads its [statusCode] only. *)
Record incoming := mkIncoming { statusCode : Z }.

(** The arguments [(error, response, body)] of the callback: [response] is
    [undefined] ([None]) when the transport failed. *)
Record reply := mkReply {
  error : value;
  response : option incoming;
  rbody : value
}.

(** [response == n] for a number [n].  [undefined] is loosely equal to
    [null] and [undefined] only.  An [IncomingMessage] is an object: it is
    compared through ToPrimitive, which yields ["[object Object]"], and
    that string converts to NaN, equal to no number. *)
Definition response_loose_eq (r : option incoming) (n : Z) : bool :=
  match r with
  | None => false
  | Some _ => false
  end.

(** ** The event log

    What a run does to the outside, in order: the requests it sends, the
    process environment variables it sets, the exceptions that escape a
    transport callback (the promise concerned then stays pending), and, as
    ghost events, the entry into each function of the wrapper.  Console
    output is diagnostic and is not recorded. *)
Inductive op :=
| CreateSimulation
| StartSimulation
| GetAgentStatus
| PerformAgentAction
| SimulateStep
| SimulateAgentAction
| ExecuteActionArray
| Init.

Inductive event :=
| Invoked (f : op) (args : list value)
| EnvSet (name : string) (val : string)
| Sent (r : request)
| Uncaught (e : value).

Definition world := list event.

Fixpoint requests (w : world) : list request :=
  match w with
  | [] => []
  | Sent r :: w' => r :: requests w'
  | _ :: w' => requests w'
  end.

Definition op_eqb (f g : op) : bool :=
  match f, g with
  | CreateSimulation, CreateSimulation
  | StartSimulation, StartSimulation
  | GetAgentStatus, GetAgentStatus
  | PerformAgentAction, PerformAgentAction
  | SimulateStep, SimulateStep
  | SimulateAgentAction, SimulateAgentAction
  | ExecuteActionArray, ExecuteActionArray
  | Init, Init => true
  | _, _ => false
  end.

(** The calls of [f] in a log, each with its arguments, in order. *)
Fixpoint invocations (f : op) (w : world) : list (list value) :=
  match w with
  | [] => []
  | Invoked g args :: w' =>
      if op_eqb f g then args :: invocations f w' else invocations f w'
  | _ :: w' => invocations f w'
  end.

(** The calls of [g] that one entry into [f] with [args] accounts for. *)
Definition one_call (g f : op) (args : list value) : list (list value) :=
  if op_eqb g f then [args] else [].

(** The environment variables a log sets, in order. *)
Fixpoint env_sets (w : world) : list (string * string) :=
  match w with
  | [] => []
  | EnvSet name val :: w' => (name, val) :: env_sets w'
  | _ :: w' => env_sets w'
  end.

(** The exceptions that escaped a transport callback, in order. *)
Fixpoint escaped (w : world) : list value :=
  match w with
  | [] => []
  | Uncaught e :: w' => e :: escaped w'
  | _ :: w' => escaped w'
  end.

(** The remote service: its reply to a request, given the requests it has
    received before.  Any sequence of replies is the behaviour of some
    such function. *)
Definition service := list request -> request -> reply.

(** ** State passing *)

Definition St (S A : Type) : Type := S -> A * S.

Definition ret {S A : Type} (a : A) : St S A := fun s => (a, s).

Definition bind {S A B : Type} (m : St S A) (k : A -> St S B) : St S B :=
  fun s => let (a, s') := m s in k a s'.

Declare Scope st_scope.
Delimit Scope st_scope with st.
Notation "x <- m ;; k" := (bind m (fun x => k))
  (at level 61, m at next level, right associativity) : st_scope.
Notation "m ;; k" := (bind m (fun _ => k))
  (at level 61, right associativity) : st_scope.
Local Open Scope st_scope.

Definition when {S : Type} (b : bool) (m : St S unit) : St S unit :=
  if b then m else ret tt.

(** ** Promises *)

Inductive outcome :=
| Fulfilled (v : value)
| Rejected (e : value)
| Pending.

(** How a function body or a handler completes: it returns a plain value,
    returns a promise, or throws. *)
Inductive completion :=
| Return (v : value)
| ReturnPromise (o : outcome)
| Throw (e : value).

(** The promise a [then] or [catch] yields for a handler's completion, and
    what [await] makes of a returned value. *)
Definition settle (c : completion) : outcome :=
  match c with
  | Return v => Fulfilled v
  | ReturnPromise o => o
  | Throw e => Rejected e
  end.

Section Chaining.
Context {S : Type}.

(** [p.then(f)] *)
Definition then_ (p : St S outcome) (f : value -> St S completion)
  : St S outcome :=
  o <- p ;;
  match o with
  | Fulfilled v => c <- f v ;; ret (settle c)
  | Rejected e => ret (Rejected e)
  | Pending => ret Pending
  end.

(** [p.catch(g)] *)
Definition catch_ (p : St S outcome) (g : value -> St S completion)
  : St S outcome :=
  o <- p ;;
  match o with
  | Rejected e => c <- g e ;; ret (settle c)
  | Fulfilled v => ret (Fulfilled v)
  | Pending => ret Pending
  end.
End Chaining.

(** [new Promise(executor)]: the executor runs at once, on the world and on
    the state of the promise being built (its slot: [None] while pending).
    [resolve] and [reject] settle the slot; on a settled promise they do
    nothing.  The bodies the wrapper resolves with are plain values.  The
    executors of the wrapper throw only when a string conversion does, and
    [to_string] never does: the rejection of the promise by an executor
    that throws is therefore not part of the model. *)
Definition slot := option outcome.
Definition io (A : Type) : Type := St world A.
Definition exec (A : Type) : Type := St (world * slot) A.

Definition lift {A : Type} (m : io A) : exec A :=
  fun s => let (a, w') := m (fst s) in (a, (w', snd s)).

Definition resolve (v : value) : exec unit :=
  fun s => (tt, (fst s, match snd s with
                        | None => Some (Fulfilled v)
                        | Some o => Some o
                        end)).

Definition reject (e : value) : exec unit :=
  fun s => (tt, (fst s, match snd s with
                        | None => Some (Rejected e)
                        | Some o => Some o
                        end)).

Definition new_Promise {A : Type} (executor : exec A) : io outcome :=
  fun w =>
    let (_, s) := executor (w, None) in
    (match snd s with
     | Some o => o
     | None => Pending
     end, fst s).

Definition emit (e : event) : io unit := fun w => (tt, (w ++ [e])%list).

Section Transport.
Variable server : service.

(** One exchange with the service. *)
Definition exchange (r : request) : io reply :=
  fun w => (server (requests w) r, (w ++ [Sent r])%list).

(** [request.get/post/put(options, callback)] inside an executor.  The
    request leaves when the call is made; the callback runs on the reply.
    An exception thrown by the callback ([Some e]) is caught by nobody.

    The callback is run here, at the call; in the program it runs later,
    after the handlers already registered on a promise that was settled
    before the request was made.  The functions of the wrapper do nothing
    after such a settlement that the event log records, so the log is the
    same. *)
Definition request_ (r : request) (callback : reply -> exec (option value))
  : exec unit :=
  rep <- lift (exchange r) ;;
  thrown <- callback rep ;;
  match thrown with
  | Some e => lift (emit (Uncaught e))
  | None => ret tt
  end.
End Transport.

End Net.

(* ===================================================================== *)
(** * clientWrapper.js *)
(* ===================================================================== *)

Module Client.
Import Js Net.
Local Open Scope st_scope.

(** SameValueZero, which [Array.prototype.includes] compares with.  Objects
    are the same only when they are one object; no argument is one of the
    elements searched here, which are strings. *)
Definition number_eqb (a b : number) : bool :=
  match a, b with
  | NInt x, NInt y => x =? y
  | NFrac n1 d1 p1, NFrac n2 d2 p2 =>
      Bool.eqb n1 n2 && String.eqb d1 d2 && (p1 =? p2)
  | NNaN, NNaN => true
  | NInf n1, NInf n2 => Bool.eqb n1 n2
  | _, _ => false
  end.

Definition same_value_zero (a b : value) : bool :=
  match a, b with
  | VUndefined, VUndefined => true
  | VNull, VNull => true
  | VBool x, VBool y => Bool.eqb x y
  | VNum x, VNum y => number_eqb x y
  | VStr x, VStr y => String.eqb x y
  | _, _ => false
  end.

Definition includes (l : list value) (v : value) : bool :=
  existsb (fun x => same_value_zero x v) l.

(** [const AgentAction = { moveForward: "moveForward", ... }] *)
Definition AgentAction : list (string * value) :=
  [ ("moveForward", VStr "moveForward");
    ("turnLeft", VStr "turnLeft");
    ("turnRight", VStr "turnRight");
    ("pickUp", VStr "pickUp");
    ("drop", VStr "drop");
    ("idle", VStr "idle") ].

Definition Object_values (o : list (string * value)) : list value :=
  map snd o.

Definition TypeError (message : string) : value := VError "TypeError" message.

(** Reading [statusCode] of an absent response.  The message is worded by
    the engine and differs between its versions; what the wrapper fixes is
    that a TypeError is thrown. *)
Definition no_statusCode : value :=
  TypeError "Cannot read property 'statusCode' of undefined".

(** What a transport callback may leave in the log: nothing, or the
    TypeError of reading [statusCode] on an absent response. *)
Definition quiet (tail : world) : Prop :=
  tail = [] \/ tail = [Uncaught no_statusCode].

(** What escapes the callback that reads [statusCode] unguarded. *)
Definition thrown (rep : reply) : list value :=
  match response rep with
  | None => [no_statusCode]
  | Some _ => []
  end.

(** [response && p(response)] as a condition. *)
Definition present_and (r : option incoming) (p : incoming -> bool) : bool :=
  match r with
  | Some m => p m
  | None => false
  end.

(** A callback or handler that runs to its end returns [undefined]. *)
Definition done : exec (option value) := ret None.
Definition finished : exec completion := ret (Return VUndefined).

(** [getObject(data)]: [JSON.parse] converts its argument to a string
    first; whatever it throws is caught and [data] returned. *)
Definition getObject (data : value) : value :=
  match JSON_parse (to_string data) with
  | Some v => v
  | None => data
  end.

(** The values [getObject] leaves alone whatever they hold: plain objects,
    [undefined], [null], booleans, integers, NaN and the infinities. *)
Definition is_stable (d : value) : bool :=
  match d with
  | VObj _ | VUndefined | VNull | VBool _ => true
  | VNum (NInt _) | VNum NNaN | VNum (NInf _) => true
  | _ => false
  end.

(** The three characters of the JSON text of the string 5. *)
Definition quoted_five : string :=
  String dquote (String "5" (String dquote "")).

(** The JSON text of the object whose property [a] is 1. *)
Definition json_a1 : string :=
  "{" ++ String dquote ("a" ++ String dquote ":1}").

Section Wrapper.
(** [process.env.SIMULATION_SERVER], and the service that answers. *)
Variable hostname : value.
Variable server : service.

Definition apiBase : string := str_plus "https://" hostname ++ "/api/".

Definition tls_off : io unit := emit (EnvSet "NODE_TLS_REJECT_UNAUTHORIZED" "0").

Definition createSimulation (env : value) : io outcome :=
  emit (Invoked CreateSimulation [env]) ;;
  tls_off ;;
  let createUrl := apiBase ++ "simulations/create" in
  let createBody := VObj [("env_name", env)] in
  let postInput := mkRequest POST createUrl (Some createBody) true in
  new_Promise
    (request_ server postInput (fun rep =>
       if present_and (response rep)
            (fun r => (statusCode r =? 201) || (statusCode r =? 200))
       then resolve (rbody rep) ;; done
       else reject (js_or (error rep) (rbody rep)) ;; done)).

Definition startSimulation (simulation : value) : io outcome :=
  emit (Invoked StartSimulation [simulation]) ;;
  tls_off ;;
  let startUrl := str_plus (apiBase ++ "simulations/") simulation ++ "/start" in
  new_Promise
    (request_ server (mkRequest PUT startUrl None false) (fun rep =>
       match response rep with
       | None => ret (Some no_statusCode)
       | Some r =>
           if statusCode r =? 200
           then resolve (rbody rep) ;; done
           else reject (rbody rep) ;; done
       end)).

Definition getAgentStatus (simulation agent : value) : io outcome :=
  emit (Invoked GetAgentStatus [simulation; agent]) ;;
  tls_off ;;
  let statusUrl :=
    str_plus (str_plus (apiBase ++ "simulations/") simulation ++ "/agents/")
             agent ++ "/status" in
  new_Promise
    (request_ server (mkRequest GET statusUrl None false) (fun rep =>
       match response rep with
       | None => ret (Some no_statusCode)
       | Some r =>
           if statusCode r =? 200
           then resolve (rbody rep) ;; done
           else reject (js_or (error rep) (rbody rep)) ;; done
       end)).

(** The four checks of [performAgentAction] reject and go on: none
    returns.  [msg || 'null'] is written as in the source; the message is
    never empty, so it is the message. *)
Definition invalid (what : string) (v : value) : value :=
  js_or (VStr (str_plus what v)) (VStr "null").

Definition performAgentAction (simulation agent action agentMode : value)
  : io outcome :=
  emit (Invoked PerformAgentAction [simulation; agent; action; agentMode]) ;;
  new_Promise
    (when (js_not simulation || negb (Number_isInteger simulation))
          (reject (invalid "Invalid Simulation ID " simulation)) ;;
     when (loose_eq_undefined_word agent || negb (Number_isInteger agent))
          (reject (invalid "Invalid Agent ID " agent)) ;;
     when (js_not action || negb (includes (Object_values AgentAction) action))
          (reject (invalid "Invalid action " action)) ;;
     when (loose_eq_null agentMode)
          (reject (invalid "Invalid action " agentMode)) ;;
     let actionUrl :=
       str_plus (str_plus (apiBase ++ "simulations/") simulation ++ "/agents/")
                agent ++ "/action" in
     let postBody := VObj [("action", action); ("mode", agentMode)] in
     let postInput := mkRequest POST actionUrl (Some postBody) true in
     request_ server postInput (fun rep =>
       if present_and (response rep)
            (fun r => (statusCode r =? 201) || (statusCode r =? 200))
       then resolve (rbody rep) ;; done
       else if response_loose_eq (response rep) 400
       then reject (VError "Error"
                      (str_plus (str_plus "400 - Invalid actionid or simulationid "
                                          action ++ ", ") simulation)) ;; done
       else if response_loose_eq (response rep) 415
       then reject (VError "Error" "415 - no JSON specified") ;; done
       else
         match response rep with
         | None => ret (Some no_statusCode)
         | Some r =>
             let msg := str_plus (string_of_Z (statusCode r) ++ " Error : ")
                                 (error rep) in
             reject (VStr msg) ;; done
         end)).

Definition simulateStep (simulation : value) : io outcome :=
  emit (Invoked SimulateStep [simulation]) ;;
  new_Promise
    (when (js_not simulation || negb (Number_isInteger simulation))
          (reject (invalid "Invalid Simulation ID " simulation)) ;;
     let stepUrl := str_plus (apiBase ++ "simulations/") simulation ++ "/step" in
     let postBody := VObj [] in
     let postInput := mkRequest PUT stepUrl (Some postBody) true in
     request_ server postInput (fun rep =>
       if present_and (response rep) (fun r => statusCode r =? 200)
       then resolve (rbody rep) ;; done
       else
         match response rep with
         | None => ret (Some no_statusCode)
         | Some r =>
             let msg := str_plus (string_of_Z (statusCode r) ++ " Error : ")
                                 (error rep) in
             reject (VStr msg) ;; done
         end)).

(** The handlers call [resolve] and [reject] of the promise that
    [simulateAgentAction] builds, and return nothing. *)
Definition simulateAgentAction (simulation agent action agentMode : value)
  : io outcome :=
  emit (Invoked SimulateAgentAction [simulation; agent; action; agentMode]) ;;
  new_Promise
    (catch_
       (then_ (lift (performAgentAction simulation agent action agentMode))
          (fun actionOut =>
             p <- catch_
                    (then_ (lift (simulateStep simulation))
                       (fun stepOut =>
                          q <- catch_
                                 (then_ (lift (getAgentStatus simulation agent))
                                    (fun agentStatus =>
                                       resolve agentStatus ;; finished))
                                 (fun statusError =>
                                    reject statusError ;; finished) ;;
                          ret (ReturnPromise q)))
                    (fun stepError => reject stepError ;; finished) ;;
             ret (ReturnPromise p)))
       (fun actionError => reject actionError ;; finished)).

(** The inner function [performAction] of [executeActionArray], on the
    counter [index] it shares with it.  Each call that goes on advances
    [index]; [budget] bounds the calls, and [executeActionArray] gives as
    many as the list has elements. *)
Fixpoint performAction (simulation agent : value) (actions : list value)
         (mode : value) (budget : nat) (index : nat) : io completion :=
  if (index <? List.length actions)%nat then
    match budget with
    | O => ret (ReturnPromise Pending)
    | S budget' =>
        p <- then_ (simulateAgentAction simulation agent
                      (nth index actions VUndefined) mode)
                   (fun _ => performAction simulation agent actions mode
                               budget' (S index)) ;;
        ret (ReturnPromise p)
    end
  else ret (Return VUndefined).

Definition executeActionArray (simulation agent : value)
           (actions : list value) (mode : value) : io completion :=
  emit (Invoked ExecuteActionArray [simulation; agent; VArr actions; mode]) ;;
  performAction simulation agent actions mode (List.length actions) 0.

Definition no_property (k : string) : value :=
  TypeError ("Cannot read property '" ++ k ++ "' of undefined").

(** [init(env)].  The property reads that can throw are those on
    [createResponse] and on [createResponse.simulationData]. *)
Definition init (env : value) : io outcome :=
  emit (Invoked Init [env]) ;;
  new_Promise
    (catch_
       (then_ (lift (createSimulation (VStr "HW1")))
          (fun createResponse =>
             match get_field createResponse "simulationId" with
             | None => ret (Throw (no_property "simulationId"))
             | Some simulationId =>
                 p <- catch_
                        (then_ (lift (startSimulation simulationId))
                           (fun startResponse =>
                              match get_field createResponse "simulationData" with
                              | None => ret (Throw (no_property "simulationData"))
                              | Some simulationData =>
                              match get_field simulationData "NumAgents" with
                              | None => ret (Throw (no_property "NumAgents"))
                              | Some numAgents =>
                                  let agents := parseInt numAgents in
                                  let response :=
                                    [ ("simulationId", simulationId);
                                      ("agents", VNum (num_of agents));
                                      ("createResponse", getObject createResponse);
                                      ("startResponse", getObject startResponse) ] in
                                  q <- catch_
                                         (then_
                                            (lift (getAgentStatus simulationId
                                                     (VNum (num_of (minus_one agents)))))
                                            (fun status =>
                                               resolve
                                                 (VObj (set_field response "agentStatus"
                                                          (getObject status))) ;;
                                               finished))
                                         (fun error =>
                                            reject
                                              (VStr (str_plus "Error getting agent status"
                                                       (JSON_stringify error))) ;;
                                            finished) ;;
                                  ret (ReturnPromise q)
                              end
                              end))
                        (fun error =>
                           reject (VStr (str_plus "Error starting agent "
                                           (JSON_stringify error))) ;;
                           finished) ;;
                 ret (ReturnPromise p)
             end))
       (fun error =>
          reject (VStr (str_plus "Error creating Simulation "
                          (JSON_stringify error))) ;;
          finished)).

(** ** The request each operation sends, by name *)

Definition create_request (env : value) : request :=
  mkRequest POST (apiBase ++ "simulations/create")
            (Some (VObj [("env_name", env)])) true.

Definition start_request (simulation : value) : request :=
  mkRequest PUT (str_plus (apiBase ++ "simulations/") simulation ++ "/start")
            None false.

Definition status_request (simulation agent : value) : request :=
  mkRequest GET
    (str_plus (str_plus (apiBase ++ "simulations/") simulation ++ "/agents/")
              agent ++ "/status")
    None false.

Definition action_request (simulation agent action mode : value) : request :=
  mkRequest POST
    (str_plus (str_plus (apiBase ++ "simulations/") simulation ++ "/agents/")
              agent ++ "/action")
    (Some (VObj [("action", action); ("mode", mode)])) true.

Definition step_request (simulation : value) : request :=
  mkRequest PUT (str_plus (apiBase ++ "simulations/") simulation ++ "/step")
            (Some (VObj [])) true.

(** ** The action sequence, as the specification words it

    One cycle per action, in order, each awaited before the next; the
    first cycle that does not succeed ends the run with its outcome; an
    empty list succeeds at once. *)
Fixpoint run_cycles (simulation agent mode : value) (actions : list value)
  : io outcome :=
  match actions with
  | [] => ret (Fulfilled VUndefined)
  | x :: rest =>
      o <- simulateAgentAction simulation agent x mode ;;
      match o with
      | Fulfilled _ => run_cycles simulation agent mode rest
      | Rejected e => ret (Rejected e)
      | Pending => ret Pending
      end
  end.

(** The world after the cycles of [actions] have all succeeded, if they
    all do. *)
Fixpoint all_succeed (simulation agent mode : value) (actions : list value)
         (w : world) : option world :=
  match actions with
  | [] => Some w
  | x :: rest =>
      match simulateAgentAction simulation agent x mode w with
      | (Fulfilled _, w') => all_succeed simulation agent mode rest w'
      | _ => None
      end
  end.

(** The three requests of one whole action cycle, in order. *)
Definition cycle_requests (simulation agent action mode : value)
  : list request :=
  [ action_request simulation agent action mode;
    step_request simulation;
    status_request simulation agent ].

(** The request addresses a resource under [simulations/] of the API
    base. *)
Definition under_api (r : request) : bool :=
  String.prefix (apiBase ++ "simulations/") (url r).

End Wrapper.

End Client.

(* ===================================================================== *)
(** * Scenarios: concrete services to run the wrapper against *)
(* ===================================================================== *)

Module Scenario.
Import Js Net Client.

Definition host : value := VStr "sim.example".

(** Answers every request with the same status and body, without error. *)
Definition answering (status : Z) (payload : value) : service :=
  fun _ _ => mkReply VNull (Some (mkIncoming status)) payload.

(** Cannot be reached: the callback gets an error and no response. *)
Definition unreachable : service :=
  fun _ _ => mkReply (VError "Error" "connect ECONNREFUSED") None VUndefined.

(** Answers the first [n] requests with status 200 and the later ones with
    status 500. *)
Definition failing_after (n : nat) : service :=
  fun history _ =>
    if (List.length history <? n)%nat
    then mkReply VNull (Some (mkIncoming 200)) (VStr "ok")
    else mkReply VNull (Some (mkIncoming 500)) (VStr "no").

(** Creates simulation 7 with three agents (status 201), then answers every
    request with status 200 and an empty JSON object as text. *)
Definition established : service :=
  fun history _ =>
    match history with
    | [] =>
        mkReply VNull (Some (mkIncoming 201))
          (VObj [ ("simulationId", VInt 7);
                  ("simulationData", VObj [("NumAgents", VStr "3")]) ])
    | _ => mkReply VNull (Some (mkIncoming 200)) (VStr "{}")
    end.

(** As [established], but the number of agents is no numeral. *)
Definition uncounted : service :=
  fun history _ =>
    match history with
    | [] =>
        mkReply VNull (Some (mkIncoming 201))
          (VObj [ ("simulationId", VInt 7);
                  ("simulationData", VObj [("NumAgents", VStr "many")]) ])
    | _ => mkReply VNull (Some (mkIncoming 200)) (VStr "{}")
    end.

End Scenario.

(* ===================================================================== *)
(** * Properties *)
(* ===================================================================== *)

Import Js Net Client.

(** ** Logs and state passing *)

Lemma requests_app (w1 w2 : world) :
  requests (w1 ++ w2)%list = (requests w1 ++ requests w2)%list.
Proof.
  induction w1 as [|e w1 IH]; simpl; [reflexivity|].
  destruct e; simpl; rewrite IH; reflexivity.
Qed.

Lemma invocations_app (f : op) (w1 w2 : world) :
  invocations f (w1 ++ w2)%list = (invocations f w1 ++ invocations f w2)%list.
Proof.
  induction w1 as [|e w1 IH]; simpl; [reflexivity|].
  destruct e as [g args| | |]; simpl; rewrite ?IH; try reflexivity.
  destruct (op_eqb f g); simpl; rewrite ?IH; reflexivity.
Qed.

Lemma bind_run {S A B : Type} (m : St S A) (k : A -> St S B) (s : S) :
  bind m k s = k (fst (m s)) (snd (m s)).
Proof. unfold bind. destruct (m s); reflexivity. Qed.

Lemma lift_run {A : Type} (m : io A) (s : world * slot) :
  lift m s = (fst (m (fst s)), (snd (m (fst s)), snd s)).
Proof. unfold lift. destruct (m (fst s)); reflexivity. Qed.

Lemma quiet_requests (tail : world) : quiet tail -> requests tail = [].
Proof. intros [-> | ->]; reflexivity. Qed.

Lemma quiet_invocations (f : op) (tail : world) :
  quiet tail -> invocations f tail = [].
Proof. intros [-> | ->]; reflexivity. Qed.

Arguments str_plus : simpl never.
Arguments apiBase : simpl never.
Arguments string_of_Z : simpl never.
Arguments createSimulation : simpl never.
Arguments startSimulation : simpl never.
Arguments getAgentStatus : simpl never.
Arguments performAgentAction : simpl never.
Arguments simulateStep : simpl never.
Arguments simulateAgentAction : simpl never.
Arguments includes : simpl never.
Arguments getObject : simpl never.
Arguments JSON_stringify : simpl never.
Arguments parseInt : simpl never.
Arguments get_field : simpl never.
Arguments set_field : simpl never.

Ltac run_io :=
  repeat (rewrite ?bind_run, ?lift_run; cbn).

(** Names the reply to the request in the goal. *)
Ltac name_reply rep :=
  repeat match goal with
         | |- context [?srv ?h ?r] =>
             match type of (srv h r) with
             | reply => progress change (srv h r) with rep
             end
         end.

Ltac close_log :=
  eexists; split;
  [rewrite <- ?app_assoc; simpl; reflexivity | unfold quiet; auto].

Section Leaves.
Variable hostname : value.
Variable server : service.

(** *** The log of each leaf operation: its entry, then one request *)

Lemma createSimulation_log env w :
  snd (createSimulation hostname server env w)
  = (w ++ [Invoked CreateSimulation [env];
           EnvSet "NODE_TLS_REJECT_UNAUTHORIZED" "0";
           Sent (create_request hostname env)])%list.
Proof.
  unfold createSimulation, tls_off, new_Promise, request_, exchange, emit, done.
  run_io. destruct (present_and _ _); run_io;
    rewrite <- !app_assoc; reflexivity.
Qed.

Lemma startSimulation_log simulation w :
  exists tail,
    snd (startSimulation hostname server simulation w)
    = (w ++ [Invoked StartSimulation [simulation];
             EnvSet "NODE_TLS_REJECT_UNAUTHORIZED" "0";
             Sent (start_request hostname simulation)] ++ tail)%list
    /\ quiet tail.
Proof.
  unfold startSimulation, tls_off, new_Promise, request_, exchange, emit, done.
  run_io. destruct (response _); [destruct (statusCode _ =? 200)|];
    run_io; close_log.
Qed.

Lemma getAgentStatus_log simulation agent w :
  exists tail,
    snd (getAgentStatus hostname server simulation agent w)
    = (w ++ [Invoked GetAgentStatus [simulation; agent];
             EnvSet "NODE_TLS_REJECT_UNAUTHORIZED" "0";
             Sent (status_request hostname simulation agent)] ++ tail)%list
    /\ quiet tail.
Proof.
  unfold getAgentStatus, tls_off, new_Promise, request_, exchange, emit, done.
  run_io. destruct (response _); [destruct (statusCode _ =? 200)|];
    run_io; close_log.
Qed.

Lemma performAgentAction_log simulation agent action mode w :
  exists tail,
    snd (performAgentAction hostname server simulation agent action mode w)
    = (w ++ [Invoked PerformAgentAction [simulation; agent; action; mode];
             Sent (action_request hostname simulation agent action mode)]
         ++ tail)%list
    /\ quiet tail.
Proof.
  unfold performAgentAction, new_Promise, request_, exchange, emit, when, done.
  run_io.
  destruct (js_not simulation || _), (loose_eq_undefined_word agent || _),
    (js_not action || _), (loose_eq_null mode); run_io.
  all: destruct (present_and _ _); run_io; try close_log.
  all: destruct (response _); run_io; close_log.
Qed.

Lemma simulateStep_log simulation w :
  exists tail,
    snd (simulateStep hostname server simulation w)
    = (w ++ [Invoked SimulateStep [simulation];
             Sent (step_request hostname simulation)] ++ tail)%list
    /\ quiet tail.
Proof.
  unfold simulateStep, new_Promise, request_, exchange, emit, when, done.
  run_io.
  destruct (js_not simulation || _); run_io.
  all: destruct (present_and _ _); run_io; try close_log.
  all: destruct (response _); run_io; close_log.
Qed.

End Leaves.

Section Operations.
Variable hostname : value.
Variable server : service.

(** *** Which calls each leaf operation adds to the log *)

Lemma createSimulation_calls g env w :
  invocations g (snd (createSimulation hostname server env w))
  = (invocations g w ++ one_call g CreateSimulation [env])%list.
Proof.
  rewrite createSimulation_log, invocations_app. unfold one_call. simpl.
  destruct (op_eqb g CreateSimulation); reflexivity.
Qed.

Lemma startSimulation_calls g simulation w :
  invocations g (snd (startSimulation hostname server simulation w))
  = (invocations g w ++ one_call g StartSimulation [simulation])%list.
Proof.
  destruct (startSimulation_log hostname server simulation w) as (tail & -> & Ht).
  rewrite !invocations_app, (quiet_invocations g tail Ht). unfold one_call. simpl.
  destruct (op_eqb g StartSimulation); reflexivity.
Qed.

Lemma getAgentStatus_calls g simulation agent w :
  invocations g (snd (getAgentStatus hostname server simulation agent w))
  = (invocations g w ++ one_call g GetAgentStatus [simulation; agent])%list.
Proof.
  destruct (getAgentStatus_log hostname server simulation agent w) as (tail & -> & Ht).
  rewrite !invocations_app, (quiet_invocations g tail Ht). unfold one_call. simpl.
  destruct (op_eqb g GetAgentStatus); reflexivity.
Qed.

Lemma performAgentAction_calls g simulation agent action mode w :
  invocations g (snd (performAgentAction hostname server simulation agent action mode w))
  = (invocations g w
       ++ one_call g PerformAgentAction [simulation; agent; action; mode])%list.
Proof.
  destruct (performAgentAction_log hostname server simulation agent action mode w)
    as (tail & -> & Ht).
  rewrite !invocations_app, (quiet_invocations g tail Ht). unfold one_call. simpl.
  destruct (op_eqb g PerformAgentAction); reflexivity.
Qed.

Lemma simulateStep_calls g simulation w :
  invocations g (snd (simulateStep hostname server simulation w))
  = (invocations g w ++ one_call g SimulateStep [simulation])%list.
Proof.
  destruct (simulateStep_log hostname server simulation w) as (tail & -> & Ht).
  rewrite !invocations_app, (quiet_invocations g tail Ht). unfold one_call. simpl.
  destruct (op_eqb g SimulateStep); reflexivity.
Qed.

(** *** The action cycle, stage by stage *)

Lemma simulateAgentAction_run s a act m w :
  let w0 := (w ++ [Invoked SimulateAgentAction [s; a; act; m]])%list in
  let r1 := performAgentAction hostname server s a act m w0 in
  let r2 := simulateStep hostname server s (snd r1) in
  let r3 := getAgentStatus hostname server s a (snd r2) in
  simulateAgentAction hostname server s a act m w
  = match fst r1 with
    | Fulfilled _ =>
        match fst r2 with
        | Fulfilled _ => r3
        | o2 => (o2, snd r2)
        end
    | o1 => (o1, snd r1)
    end.
Proof.
  intros w0 r1 r2 r3.
  unfold simulateAgentAction, new_Promise, catch_, then_, finished, emit.
  run_io. fold w0. fold r1.
  destruct (fst r1) as [v1|e1|]; simpl; try reflexivity.
  run_io. fold r2.
  destruct (fst r2) as [v2|e2|]; simpl; try reflexivity.
  run_io. fold r3.
  destruct r3 as [o3 w3]; simpl. destruct o3; reflexivity.
Qed.

(** C1.  The action cycle is a strict three-stage pipeline.  One call of
    [simulateAgentAction] enters [performAgentAction] exactly once; only when
    that promise is fulfilled does it enter [simulateStep], and only when
    that one is fulfilled too does it enter [getAgentStatus], whose outcome is
    then the outcome of the cycle.  When a stage is not fulfilled the cycle
    ends with that stage's own outcome (its rejection error) in the world
    that stage left, and the later stages are not entered. *)
Theorem simulateAgentAction_strict_pipeline s a act m w :
  let w0 := (w ++ [Invoked SimulateAgentAction [s; a; act; m]])%list in
  let r1 := performAgentAction hostname server s a act m w0 in
  let r2 := simulateStep hostname server s (snd r1) in
  let r3 := getAgentStatus hostname server s a (snd r2) in
  let r := simulateAgentAction hostname server s a act m w in
  invocations PerformAgentAction (snd r)
  = (invocations PerformAgentAction w ++ [[s; a; act; m]])%list
  /\ match fst r1 with
     | Fulfilled _ =>
         invocations SimulateStep (snd r)
         = (invocations SimulateStep w ++ [[s]])%list
         /\ match fst r2 with
            | Fulfilled _ =>
                r = r3
                /\ invocations GetAgentStatus (snd r)
                   = (invocations GetAgentStatus w ++ [[s; a]])%list
            | o2 =>
                r = (o2, snd r2)
                /\ invocations GetAgentStatus (snd r) = invocations GetAgentStatus w
            end
     | o1 =>
         r = (o1, snd r1)
         /\ invocations SimulateStep (snd r) = invocations SimulateStep w
         /\ invocations GetAgentStatus (snd r) = invocations GetAgentStatus w
     end.
Proof.
  intros w0 r1 r2 r3 r.
  assert (Hr : r = match fst r1 with
                   | Fulfilled _ =>
                       match fst r2 with
                       | Fulfilled _ => r3
                       | o2 => (o2, snd r2)
                       end
                   | o1 => (o1, snd r1)
                   end) by apply simulateAgentAction_run.
  assert (H1 : forall g, invocations g (snd r1)
               = (invocations g w ++ one_call g SimulateAgentAction [s; a; act; m]
                    ++ one_call g PerformAgentAction [s; a; act; m])%list).
  { intros g. unfold r1. rewrite performAgentAction_calls. unfold w0.
    rewrite invocations_app. simpl. unfold one_call.
    destruct (op_eqb g SimulateAgentAction); rewrite <- app_assoc; reflexivity. }
  assert (H2 : forall g, invocations g (snd r2)
               = (invocations g (snd r1) ++ one_call g SimulateStep [s])%list)
    by (intros g; apply simulateStep_calls).
  assert (H3 : forall g, invocations g (snd r3)
               = (invocations g (snd r2) ++ one_call g GetAgentStatus [s; a])%list)
    by (intros g; apply getAgentStatus_calls).
  destruct (fst r1) as [v1|e1|]; [destruct (fst r2) as [v2|e2|] |..];
    rewrite Hr; cbn [fst snd];
    rewrite ?H3, ?H2, ?H1; cbn; rewrite ?app_nil_r; auto.
Qed.

Lemma string_app_assoc (a b c : string) : ((a ++ b) ++ c = a ++ (b ++ c))%string.
Proof. induction a as [|x a IH]; simpl; [reflexivity | rewrite IH; reflexivity]. Qed.

Lemma requests_entry (w : world) (f : op) (args : list value) :
  requests (w ++ [Invoked f args])%list = requests w.
Proof. rewrite requests_app. simpl. apply app_nil_r. Qed.

Lemma requests_entry_env (w : world) (f : op) (args : list value) (k v : string) :
  requests ((w ++ [Invoked f args]) ++ [EnvSet k v])%list = requests w.
Proof. rewrite !requests_app. simpl. rewrite !app_nil_r. reflexivity. Qed.

(** C10.  The simulation id 0 is refused: [performAgentAction] and
    [simulateStep] both reject it as an invalid simulation id, whatever the
    other arguments and whatever the service answers. *)
Theorem simulation_id_zero_rejected agent action mode w :
  fst (performAgentAction hostname server (VInt 0) agent action mode w)
  = Rejected (VStr "Invalid Simulation ID 0")
  /\ fst (simulateStep hostname server (VInt 0) w)
     = Rejected (VStr "Invalid Simulation ID 0").
Proof.
  split.
  - unfold performAgentAction, new_Promise, request_, exchange, emit, when, done.
    run_io.
    destruct (loose_eq_undefined_word agent || _), (js_not action || _),
      (loose_eq_null mode); run_io.
    all: destruct (present_and _ _); run_io; try reflexivity.
    all: destruct (response _); run_io; reflexivity.
  - unfold simulateStep, new_Promise, request_, exchange, emit, when, done.
    run_io.
    destruct (present_and _ _); run_io; try reflexivity.
    destruct (response _); run_io; reflexivity.
Qed.

Lemma startSimulation_outcome simulation w :
  let rep := server (requests w) (start_request hostname simulation) in
  fst (startSimulation hostname server simulation w)
  = match response rep with
    | None => Pending
    | Some r => if statusCode r =? 200 then Fulfilled (rbody rep)
                else Rejected (rbody rep)
    end.
Proof.
  intros rep.
  unfold startSimulation, tls_off, new_Promise, request_, exchange, emit, done.
  run_io. rewrite requests_entry_env. name_reply rep.
  destruct (response _); [destruct (statusCode _ =? 200)|]; run_io; reflexivity.
Qed.

Lemma createSimulation_outcome env w :
  let rep := server (requests w) (create_request hostname env) in
  fst (createSimulation hostname server env w)
  = if present_and (response rep)
         (fun r => (statusCode r =? 201) || (statusCode r =? 200))
    then Fulfilled (rbody rep)
    else Rejected (js_or (error rep) (rbody rep)).
Proof.
  intros rep.
  unfold createSimulation, tls_off, new_Promise, request_, exchange, emit, done.
  run_io. rewrite requests_entry_env. name_reply rep.
  destruct (present_and _ _); run_io; reflexivity.
Qed.

(** C4.  [startSimulation] is fulfilled exactly when a response arrives with
    status 200; with any other status it is rejected with the body; and
    [createSimulation] is fulfilled on the status 201 that [startSimulation]
    refuses. *)
Theorem startSimulation_resolves_only_on_200 simulation env w :
  let rep := server (requests w) (start_request hostname simulation) in
  let rep' := server (requests w) (create_request hostname env) in
  ((exists v, fst (startSimulation hostname server simulation w) = Fulfilled v)
   <-> (exists r, response rep = Some r /\ statusCode r = 200))
  /\ (forall r, response rep = Some r -> statusCode r <> 200 ->
        fst (startSimulation hostname server simulation w) = Rejected (rbody rep))
  /\ (forall r, response rep' = Some r -> statusCode r = 201 ->
        fst (createSimulation hostname server env w) = Fulfilled (rbody rep')).
Proof.
  intros rep rep'.
  rewrite startSimulation_outcome, createSimulation_outcome.
  fold rep rep'. repeat split.
  - intros [v Hv]. destruct (response rep) as [r|]; [|discriminate].
    exists r. split; [reflexivity|].
    destruct (statusCode r =? 200) eqn:E; [lia | discriminate].
  - intros (r & -> & Hr). exists (rbody rep). rewrite Hr. reflexivity.
  - intros r -> Hr. destruct (statusCode r =? 200) eqn:E; [lia | reflexivity].
  - intros r -> Hr. simpl. rewrite Hr. reflexivity.
Qed.

Lemma includes_AgentAction act :
  includes (Object_values AgentAction) act = true
  <-> In act (Object_values AgentAction).
Proof.
  unfold includes, Object_values, AgentAction.
  cbn [map snd existsb In]. split.
  - intros H.
    destruct act; cbn [same_value_zero] in H; try discriminate H.
    repeat (apply orb_prop in H; destruct H as [H|H];
            [apply String.eqb_eq in H; subst; tauto|]).
    discriminate H.
  - intros H.
    repeat (destruct H as [H|H]; [subst; reflexivity|]). contradiction.
Qed.

Lemma performAgentAction_requests s a act mode w :
  requests (snd (performAgentAction hostname server s a act mode w))
  = (requests w ++ [action_request hostname s a act mode])%list.
Proof.
  destruct (performAgentAction_log hostname server s a act mode w) as (tail & -> & Ht).
  rewrite !requests_app, (quiet_requests tail Ht). simpl.
  rewrite ?app_nil_r. reflexivity.
Qed.

Lemma performAgentAction_outcome_valid s a act mode w :
  js_not s || negb (Number_isInteger s) = false ->
  loose_eq_undefined_word a || negb (Number_isInteger a) = false ->
  js_not act || negb (includes (Object_values AgentAction) act) = false ->
  loose_eq_null mode = false ->
  let rep := server (requests w) (action_request hostname s a act mode) in
  fst (performAgentAction hostname server s a act mode w)
  = match response rep with
    | None => Pending
    | Some m =>
        if (statusCode m =? 201) || (statusCode m =? 200)
        then Fulfilled (rbody rep)
        else Rejected (VStr (string_of_Z (statusCode m) ++ " Error : "
                               ++ to_string (error rep)))
    end.
Proof.
  intros H1 H2 H3 H4 rep.
  unfold performAgentAction. rewrite H1, H2, H3, H4.
  unfold new_Promise, request_, exchange, emit, when, done.
  run_io. rewrite requests_entry. name_reply rep.
  destruct (response rep) as [m|]; simpl.
  - destruct ((statusCode m =? 201) || (statusCode m =? 200)); run_io;
      [reflexivity|].
    unfold str_plus. rewrite string_app_assoc. reflexivity.
  - run_io. reflexivity.
Qed.

Lemma performAgentAction_outcome_invalid s a act mode w :
  (js_not s || negb (Number_isInteger s))
  || (loose_eq_undefined_word a || negb (Number_isInteger a))
  || (js_not act || negb (includes (Object_values AgentAction) act))
  || loose_eq_null mode = true ->
  exists e, fst (performAgentAction hostname server s a act mode w) = Rejected e.
Proof.
  intros H.
  unfold performAgentAction, new_Promise, request_, exchange, emit, when, done.
  run_io.
  destruct (js_not s || _), (loose_eq_undefined_word a || _),
    (js_not act || _), (loose_eq_null mode); try discriminate H; run_io.
  all: destruct (present_and _ _); run_io; try (eexists; reflexivity).
  all: destruct (response _); run_io; eexists; reflexivity.
Qed.

(** C3, as the code has it.  When the simulation id or the agent id is not
    an integer, or the action is none of the six, or the mode is null or
    undefined, [performAgentAction] rejects; but the checks do not return,
    and the request is sent all the same. *)
Theorem performAgentAction_invalid_rejects_yet_sends s a act mode w :
  Number_isInteger s = false \/ Number_isInteger a = false
  \/ ~ In act (Object_values AgentAction) \/ mode = VNull \/ mode = VUndefined ->
  (exists e, fst (performAgentAction hostname server s a act mode w) = Rejected e)
  /\ requests (snd (performAgentAction hostname server s a act mode w))
     = (requests w ++ [action_request hostname s a act mode])%list.
Proof.
  intros H. split; [|apply performAgentAction_requests].
  apply performAgentAction_outcome_invalid.
  destruct H as [H|[H|[H|[H|H]]]].
  - rewrite H. simpl. rewrite orb_true_r. reflexivity.
  - rewrite H. simpl. rewrite !orb_true_r. reflexivity.
  - destruct (includes (Object_values AgentAction) act) eqn:E.
    + apply includes_AgentAction in E. contradiction.
    + simpl. rewrite !orb_true_r. reflexivity.
  - subst mode. simpl. apply orb_true_r.
  - subst mode. simpl. apply orb_true_r.
Qed.

(** The four checks pass on a non-zero integer simulation id, an integer
    agent id, one of the six actions and a mode that is not null nor
    undefined. *)
Lemma checks_pass s a act mode :
  s <> 0 -> In (VStr act) (Object_values AgentAction) ->
  mode <> VNull -> mode <> VUndefined ->
  js_not (VInt s) || negb (Number_isInteger (VInt s)) = false
  /\ loose_eq_undefined_word (VInt a) || negb (Number_isInteger (VInt a)) = false
  /\ js_not (VStr act) || negb (includes (Object_values AgentAction) (VStr act))
     = false
  /\ loose_eq_null mode = false.
Proof.
  intros Hs Hact Hn Hu. repeat split.
  - unfold js_not. cbn. destruct (s =? 0) eqn:E; [lia | reflexivity].
  - assert (Hi : includes (Object_values AgentAction) (VStr act) = true)
      by (apply includes_AgentAction; exact Hact).
    rewrite Hi. simpl in Hact.
    repeat (destruct Hact as [Hact|Hact]; [inversion Hact; subst; reflexivity|]).
    contradiction.
  - destruct mode; try reflexivity; congruence.
Qed.

(** C5, amended.  With a simulation id that is a safe integer other than 0,
    an agent id that is a safe integer, one of the six actions and a mode
    that is neither null nor undefined, [performAgentAction] sends exactly
    one request: a POST to simulations/{id}/agents/{agentId}/action under
    the API base, the ids in decimal, flagged as JSON, whose body is the
    object with exactly [action] and [mode]; and the promise is fulfilled
    with the response body on status 200 or 201. *)
Theorem performAgentAction_valid_request s a act mode w :
  Number_isSafeInteger (VInt s) = true -> s <> 0 ->
  Number_isSafeInteger (VInt a) = true ->
  In (VStr act) (Object_values AgentAction) ->
  mode <> VNull -> mode <> VUndefined ->
  let req := mkRequest POST
               (apiBase hostname ++ "simulations/" ++ string_of_Z s ++ "/agents/"
                  ++ string_of_Z a ++ "/action")
               (Some (VObj [("action", VStr act); ("mode", mode)])) true in
  let rep := server (requests w) req in
  let r := performAgentAction hostname server (VInt s) (VInt a) (VStr act) mode w in
  requests (snd r) = (requests w ++ [req])%list
  /\ (forall m, response rep = Some m ->
                statusCode m = 200 \/ statusCode m = 201 ->
                fst r = Fulfilled (rbody rep)).
Proof.
  intros _ Hs _ Hact Hn Hu req rep r.
  assert (Hreq : action_request hostname (VInt s) (VInt a) (VStr act) mode = req).
  { unfold action_request, req, str_plus. simpl.
    rewrite !string_app_assoc. reflexivity. }
  split.
  - unfold r. rewrite performAgentAction_requests, Hreq. reflexivity.
  - intros m Hm Hst. unfold r.
    destruct (checks_pass s a act mode Hs Hact Hn Hu) as (H1 & H2 & H3 & H4).
    rewrite (performAgentAction_outcome_valid _ _ _ _ w H1 H2 H3 H4), Hreq.
    fold rep. rewrite Hm.
    destruct Hst as [-> | ->]; reflexivity.
Qed.

(** C6, as the code has it.  On valid input, a response with any status
    other than 200 and 201, 400 and 415 included, rejects with the one
    generic string made of the status code and the transport error; the
    named 400 and 415 errors are never produced. *)
Theorem performAgentAction_failure_is_generic s a act mode w m :
  s <> 0 -> In (VStr act) (Object_values AgentAction) ->
  mode <> VNull -> mode <> VUndefined ->
  let rep := server (requests w)
               (action_request hostname (VInt s) (VInt a) (VStr act) mode) in
  response rep = Some m -> statusCode m <> 200 -> statusCode m <> 201 ->
  fst (performAgentAction hostname server (VInt s) (VInt a) (VStr act) mode w)
  = Rejected (VStr (string_of_Z (statusCode m) ++ " Error : "
                      ++ to_string (error rep))).
Proof.
  intros Hs Hact Hn Hu rep Hm H200 H201.
  destruct (checks_pass s a act mode Hs Hact Hn Hu) as (H1 & H2 & H3 & H4).
  rewrite (performAgentAction_outcome_valid _ _ _ _ w H1 H2 H3 H4).
  fold rep. rewrite Hm.
  destruct (statusCode m =? 201) eqn:E1; [lia|].
  destruct (statusCode m =? 200) eqn:E2; [lia|]. reflexivity.
Qed.

(** Without a response (the transport failed), the callback reads
    [statusCode] of [undefined]: on valid input the promise never settles
    and the TypeError escapes. *)
Lemma performAgentAction_no_response s a act mode w :
  s <> 0 -> In (VStr act) (Object_values AgentAction) ->
  mode <> VNull -> mode <> VUndefined ->
  response (server (requests w)
              (action_request hostname (VInt s) (VInt a) (VStr act) mode)) = None ->
  fst (performAgentAction hostname server (VInt s) (VInt a) (VStr act) mode w)
  = Pending.
Proof.
  intros Hs Hact Hn Hu Hm.
  destruct (checks_pass s a act mode Hs Hact Hn Hu) as (H1 & H2 & H3 & H4).
  rewrite (performAgentAction_outcome_valid _ _ _ _ w H1 H2 H3 H4), Hm.
  reflexivity.
Qed.

(** *** The action sequence *)

Lemma simulateAgentAction_calls s a x m w :
  invocations SimulateAgentAction (snd (simulateAgentAction hostname server s a x m w))
  = (invocations SimulateAgentAction w ++ [[s; a; x; m]])%list.
Proof.
  rewrite simulateAgentAction_run.
  set (w0 := (w ++ [Invoked SimulateAgentAction [s; a; x; m]])%list).
  set (r1 := performAgentAction hostname server s a x m w0).
  set (r2 := simulateStep hostname server s (snd r1)).
  assert (H0 : invocations SimulateAgentAction w0
               = (invocations SimulateAgentAction w ++ [[s; a; x; m]])%list)
    by (unfold w0; rewrite invocations_app; reflexivity).
  assert (H1 : invocations SimulateAgentAction (snd r1)
               = invocations SimulateAgentAction w0)
    by (unfold r1; rewrite performAgentAction_calls; apply app_nil_r).
  assert (H2 : invocations SimulateAgentAction (snd r2)
               = invocations SimulateAgentAction (snd r1))
    by (unfold r2; rewrite simulateStep_calls; apply app_nil_r).
  destruct (fst r1); [destruct (fst r2)|..]; cbn [snd];
    rewrite ?getAgentStatus_calls, ?H2, ?H1, ?H0; cbn; rewrite ?app_nil_r;
    reflexivity.
Qed.

Lemma skipn_nth_cons (l : list value) (i : nat) :
  (i < List.length l)%nat ->
  skipn i l = nth i l VUndefined :: skipn (S i) l.
Proof.
  revert i. induction l as [|x l IH]; intros i Hi; simpl in Hi; [lia|].
  destruct i as [|i]; [reflexivity|].
  simpl. apply IH. lia.
Qed.

Lemma performAction_run s a actions m :
  forall budget index w,
    (index + budget = List.length actions)%nat ->
    let r := performAction hostname server s a actions m budget index w in
    (settle (fst r), snd r) = run_cycles hostname server s a m (skipn index actions) w
    /\ ((index < List.length actions)%nat -> exists o, fst r = ReturnPromise o)
    /\ ((List.length actions <= index)%nat -> fst r = Return VUndefined).
Proof.
  induction budget as [|budget IH]; intros index w Hlen r; subst r.
  - assert (index = List.length actions) by lia. subst index.
    unfold performAction. rewrite Nat.ltb_irrefl, skipn_all.
    split; [|split]; [reflexivity | intros; lia | intros; reflexivity].
  - assert (Hlt : (index < List.length actions)%nat) by lia.
    cbn [performAction].
    destruct (Nat.ltb_spec index (List.length actions)) as [_|Hge]; [|lia].
    rewrite (skipn_nth_cons actions index Hlt). cbn [run_cycles].
    pose proof (fun w1 => IH (S index) w1 ltac:(lia)) as IH'. clear IH.
    cbv zeta in IH'.
    remember (skipn (S index) actions) as rest eqn:Hrest. clear Hrest.
    remember (performAction hostname server s a actions m budget (S index))
      as next eqn:Hnext. clear Hnext.
    unfold then_. run_io.
    destruct (simulateAgentAction hostname server s a (nth index actions VUndefined) m w)
      as [o w1]; cbn [fst snd].
    destruct o as [v|e|]; run_io.
    + destruct (IH' w1) as (Hrun & _).
      rewrite <- Hrun.
      split; [|split]; [reflexivity | intros; eexists; reflexivity | intros; lia].
    + split; [|split]; [reflexivity | intros; eexists; reflexivity | intros; lia].
    + split; [|split]; [reflexivity | intros; eexists; reflexivity | intros; lia].
Qed.

Lemma executeActionArray_run s a actions m w :
  let w0 := (w ++ [Invoked ExecuteActionArray [s; a; VArr actions; m]])%list in
  let r := executeActionArray hostname server s a actions m w in
  (settle (fst r), snd r) = run_cycles hostname server s a m actions w0
  /\ (actions <> [] -> exists o, fst r = ReturnPromise o)
  /\ (actions = [] -> r = (Return VUndefined, w0)).
Proof.
  intros w0 r. subst r. unfold executeActionArray, emit. run_io. fold w0.
  destruct (performAction_run s a actions m (List.length actions) 0%nat w0
              ltac:(lia)) as (Hrun & Hp & Hu).
  cbn [skipn] in Hrun. repeat split.
  - exact Hrun.
  - intros Hne. apply Hp. destruct actions; [congruence | simpl; lia].
  - intros ->. reflexivity.
Qed.

Lemma run_cycles_all_succeed s a m actions :
  forall w w1,
    all_succeed hostname server s a m actions w = Some w1 ->
    run_cycles hostname server s a m actions w = (Fulfilled VUndefined, w1)
    /\ invocations SimulateAgentAction w1
       = (invocations SimulateAgentAction w
            ++ map (fun x => [s; a; x; m]) actions)%list.
Proof.
  induction actions as [|x rest IH]; intros w w1 H; cbn [all_succeed] in H.
  - inversion H; subst. split; [reflexivity | cbn; rewrite app_nil_r; reflexivity].
  - cbn [run_cycles]. run_io.
    pose proof (simulateAgentAction_calls s a x m w) as Hc.
    destruct (simulateAgentAction hostname server s a x m w) as [o w']; cbn [fst snd] in *.
    destruct o as [v|e|]; try discriminate H.
    destruct (IH w' w1 H) as (Hr & Hi). split; [exact Hr|].
    rewrite Hi, Hc, <- app_assoc. reflexivity.
Qed.

Lemma run_cycles_first_failure s a m pre x post :
  forall w w1,
    all_succeed hostname server s a m pre w = Some w1 ->
    (forall v, fst (simulateAgentAction hostname server s a x m w1) <> Fulfilled v) ->
    run_cycles hostname server s a m (pre ++ x :: post) w
    = simulateAgentAction hostname server s a x m w1.
Proof.
  induction pre as [|y pre IH]; intros w w1 H Hx; cbn [all_succeed] in H.
  - inversion H; subst. cbn [app run_cycles]. run_io.
    destruct (simulateAgentAction hostname server s a x m w1) as [o w']; cbn [fst snd] in *.
    destruct o as [v|e|]; [exfalso; apply (Hx v); reflexivity | reflexivity..].
  - cbn [app run_cycles]. run_io.
    destruct (simulateAgentAction hostname server s a y m w) as [o w']; cbn [fst snd].
    destruct o as [v|e|]; try discriminate H.
    apply IH; assumption.
Qed.

(** C2.  [executeActionArray] runs one action cycle per element, in list
    order, each awaited before the next starts: awaited, it is the run of
    [run_cycles].  When every cycle succeeds it succeeds, having entered
    [simulateAgentAction] once per element in order.  When the cycle of an
    element is the first not to succeed, its outcome is the outcome of the
    whole, and no later element is attempted.  On the empty list it
    completes at once, having entered no cycle and changed nothing but the
    record of its own call. *)
Theorem executeActionArray_sequential s a actions m w :
  let w0 := (w ++ [Invoked ExecuteActionArray [s; a; VArr actions; m]])%list in
  let r := executeActionArray hostname server s a actions m w in
  (settle (fst r), snd r) = run_cycles hostname server s a m actions w0
  /\ (forall w1,
        all_succeed hostname server s a m actions w0 = Some w1 ->
        settle (fst r) = Fulfilled VUndefined /\ snd r = w1
        /\ invocations SimulateAgentAction (snd r)
           = (invocations SimulateAgentAction w
                ++ map (fun x => [s; a; x; m]) actions)%list)
  /\ (forall pre x post w1,
        actions = (pre ++ x :: post)%list ->
        all_succeed hostname server s a m pre w0 = Some w1 ->
        (forall v, fst (simulateAgentAction hostname server s a x m w1) <> Fulfilled v) ->
        (settle (fst r), snd r) = simulateAgentAction hostname server s a x m w1
        /\ invocations SimulateAgentAction (snd r)
           = (invocations SimulateAgentAction w
                ++ map (fun x => [s; a; x; m]) (pre ++ [x]))%list)
  /\ (actions = [] -> r = (Return VUndefined, w0)).
Proof.
  intros w0 r.
  destruct (executeActionArray_run s a actions m w) as (Hrun & _ & Hnil).
  fold w0 r in Hrun, Hnil.
  assert (H0 : invocations SimulateAgentAction w0 = invocations SimulateAgentAction w)
    by (unfold w0; rewrite invocations_app; apply app_nil_r).
  split; [exact Hrun|]. split; [|split; [|exact Hnil]].
  - intros w1 Hall.
    destruct (run_cycles_all_succeed s a m actions w0 w1 Hall) as (Hr & Hi).
    rewrite Hr in Hrun.
    assert (Hf : settle (fst r) = Fulfilled VUndefined)
      by (apply (f_equal fst) in Hrun; exact Hrun).
    assert (Hs : snd r = w1) by (apply (f_equal snd) in Hrun; exact Hrun).
    split; [exact Hf|]. split; [exact Hs|].
    rewrite Hs, Hi, H0. reflexivity.
  - intros pre x post w1 Hact Hall Hx.
    assert (Hr : (settle (fst r), snd r)
                 = simulateAgentAction hostname server s a x m w1).
    { rewrite Hrun, Hact. apply run_cycles_first_failure; assumption. }
    split; [exact Hr|].
    apply (f_equal snd) in Hr. cbn [snd] in Hr.
    rewrite Hr, simulateAgentAction_calls.
    destruct (run_cycles_all_succeed s a m pre w0 w1 Hall) as (_ & Hi).
    rewrite Hi, H0, map_app, <- app_assoc. reflexivity.
Qed.

(** C9.  [executeActionArray] never yields an agent status.  On the empty
    list it returns [undefined] itself, not a promise; on a non-empty list
    whose cycles all succeed it returns a promise fulfilled with
    [undefined]. *)
Theorem executeActionArray_discards_status s a actions m w :
  let w0 := (w ++ [Invoked ExecuteActionArray [s; a; VArr actions; m]])%list in
  fst (executeActionArray hostname server s a [] m w) = Return VUndefined
  /\ (forall w1,
        actions <> [] ->
        all_succeed hostname server s a m actions w0 = Some w1 ->
        fst (executeActionArray hostname server s a actions m w)
        = ReturnPromise (Fulfilled VUndefined)).
Proof.
  intros w0. split; [reflexivity|].
  intros w1 Hne Hall.
  destruct (executeActionArray_run s a actions m w) as (Hrun & Hp & _).
  fold w0 in Hrun.
  destruct (Hp Hne) as [o Ho].
  destruct (run_cycles_all_succeed s a m actions w0 w1 Hall) as (Hr & _).
  rewrite Hr, Ho in Hrun. cbn [settle] in Hrun.
  apply (f_equal fst) in Hrun. cbn [fst] in Hrun.
  rewrite Ho, Hrun. reflexivity.
Qed.

(** *** Establishment *)

Lemma init_run env w :
  let w0 := (w ++ [Invoked Init [env]])%list in
  let r1 := createSimulation hostname server (VStr "HW1") w0 in
  init hostname server env w
  = match fst r1 with
    | Fulfilled created =>
        match get_field created "simulationId" with
        | None =>
            (Rejected (VStr (str_plus "Error creating Simulation "
                               (JSON_stringify (no_property "simulationId")))),
             snd r1)
        | Some simulationId =>
            let r2 := startSimulation hostname server simulationId (snd r1) in
            match fst r2 with
            | Fulfilled started =>
                match get_field created "simulationData" with
                | None =>
                    (Rejected (VStr (str_plus "Error starting agent "
                                       (JSON_stringify (no_property "simulationData")))),
                     snd r2)
                | Some data =>
                    match get_field data "NumAgents" with
                    | None =>
                        (Rejected (VStr (str_plus "Error starting agent "
                                           (JSON_stringify (no_property "NumAgents")))),
                         snd r2)
                    | Some numAgents =>
                        let agents := parseInt numAgents in
                        let r3 := getAgentStatus hostname server simulationId
                                    (VNum (num_of (minus_one agents))) (snd r2) in
                        (match fst r3 with
                         | Fulfilled status =>
                             Fulfilled
                               (VObj (set_field
                                        [ ("simulationId", simulationId);
                                          ("agents", VNum (num_of agents));
                                          ("createResponse", getObject created);
                                          ("startResponse", getObject started) ]
                                        "agentStatus" (getObject status)))
                         | Rejected e =>
                             Rejected (VStr (str_plus "Error getting agent status"
                                               (JSON_stringify e)))
                         | Pending => Pending
                         end, snd r3)
                    end
                end
            | Rejected e =>
                (Rejected (VStr (str_plus "Error starting agent " (JSON_stringify e))),
                 snd r2)
            | Pending => (Pending, snd r2)
            end
        end
    | Rejected e =>
        (Rejected (VStr (str_plus "Error creating Simulation " (JSON_stringify e))),
         snd r1)
    | Pending => (Pending, snd r1)
    end.
Proof.
  intros w0 r1.
  unfold init, new_Promise, catch_, then_, finished, emit.
  run_io. fold w0. fold r1.
  destruct (fst r1) as [created|e1|]; cbn; try reflexivity.
  destruct (get_field created "simulationId") as [simulationId|]; run_io;
    [|reflexivity].
  destruct (fst (startSimulation hostname server simulationId (snd r1)))
    as [started|e2|]; cbn; try reflexivity.
  destruct (get_field created "simulationData") as [data|]; run_io;
    [|reflexivity].
  destruct (get_field data "NumAgents") as [numAgents|]; run_io;
    [|reflexivity].
  destruct (getAgentStatus hostname server simulationId
              (VNum (num_of (minus_one (parseInt numAgents))))
              (snd (startSimulation hostname server simulationId (snd r1))))
    as [o3 w3]; cbn.
  destruct o3; reflexivity.
Qed.

(** C7.  Whatever [env] is, [init] creates the simulation named by the
    literal HW1, once.  When creation is fulfilled it starts the simulation
    whose id creation returned; when that is fulfilled it asks the status of
    agent [NumAgents - 1] of that simulation, and is fulfilled with the
    assembled result.  When a stage is rejected, [init] is rejected with a
    message that names the stage and carries the stage's error, in the
    world that stage left: the later stages are not entered. *)
Theorem init_three_stages env w :
  let w0 := (w ++ [Invoked Init [env]])%list in
  let r := init hostname server env w in
  let r1 := createSimulation hostname server (VStr "HW1") w0 in
  invocations CreateSimulation (snd r)
  = (invocations CreateSimulation w ++ [[VStr "HW1"]])%list
  /\ match fst r1 with
     | Fulfilled created =>
         forall simulationId,
           get_field created "simulationId" = Some simulationId ->
           let r2 := startSimulation hostname server simulationId (snd r1) in
           invocations StartSimulation (snd r)
           = (invocations StartSimulation w ++ [[simulationId]])%list
           /\ match fst r2 with
              | Fulfilled started =>
                  forall data numAgents,
                    get_field created "simulationData" = Some data ->
                    get_field data "NumAgents" = Some numAgents ->
                    let agents := parseInt numAgents in
                    let last := VNum (num_of (minus_one agents)) in
                    let r3 := getAgentStatus hostname server simulationId last
                                (snd r2) in
                    invocations GetAgentStatus (snd r)
                    = (invocations GetAgentStatus w ++ [[simulationId; last]])%list
                    /\ snd r = snd r3
                    /\ fst r
                       = match fst r3 with
                         | Fulfilled status =>
                             Fulfilled
                               (VObj [ ("simulationId", simulationId);
                                       ("agents", VNum (num_of agents));
                                       ("createResponse", getObject created);
                                       ("startResponse", getObject started);
                                       ("agentStatus", getObject status) ])
                         | Rejected e =>
                             Rejected (VStr ("Error getting agent status"
                                               ++ to_string (JSON_stringify e)))
                         | Pending => Pending
                         end
              | Rejected e =>
                  r = (Rejected (VStr ("Error starting agent "
                                         ++ to_string (JSON_stringify e))), snd r2)
                  /\ invocations GetAgentStatus (snd r) = invocations GetAgentStatus w
              | Pending =>
                  r = (Pending, snd r2)
                  /\ invocations GetAgentStatus (snd r) = invocations GetAgentStatus w
              end
     | Rejected e =>
         r = (Rejected (VStr ("Error creating Simulation "
                                ++ to_string (JSON_stringify e))), snd r1)
         /\ invocations StartSimulation (snd r) = invocations StartSimulation w
         /\ invocations GetAgentStatus (snd r) = invocations GetAgentStatus w
     | Pending =>
         r = (Pending, snd r1)
         /\ invocations StartSimulation (snd r) = invocations StartSimulation w
         /\ invocations GetAgentStatus (snd r) = invocations GetAgentStatus w
     end.
Proof.
  intros w0 r r1.
  pose proof (init_run env w) as Hr. cbv zeta in Hr. fold w0 r r1 in Hr.
  assert (H1 : forall g, invocations g (snd r1)
               = (invocations g w ++ one_call g Init [env]
                    ++ one_call g CreateSimulation [VStr "HW1"])%list).
  { intros g. unfold r1. rewrite createSimulation_calls. unfold w0.
    rewrite invocations_app. cbn. fold (one_call g Init [env]).
    rewrite <- app_assoc. reflexivity. }
  assert (H2 : forall g sid,
             invocations g (snd (startSimulation hostname server sid (snd r1)))
             = (invocations g (snd r1) ++ one_call g StartSimulation [sid])%list)
    by (intros; apply startSimulation_calls).
  assert (H3 : forall g sid ag w',
             invocations g (snd (getAgentStatus hostname server sid ag w'))
             = (invocations g w' ++ one_call g GetAgentStatus [sid; ag])%list)
    by (intros; apply getAgentStatus_calls).
  split.
  - rewrite Hr.
    destruct (fst r1) as [created|e1|]; cbn [snd];
      [|rewrite H1; cbn; rewrite ?app_nil_r; reflexivity..].
    destruct (get_field created "simulationId") as [sid|]; cbn [snd];
      [|rewrite H1; cbn; rewrite ?app_nil_r; reflexivity].
    destruct (fst (startSimulation hostname server sid (snd r1))); cbn [snd];
      [|rewrite H2, H1; cbn; rewrite ?app_nil_r; reflexivity..].
    destruct (get_field created "simulationData") as [data|]; cbn [snd];
      [|rewrite H2, H1; cbn; rewrite ?app_nil_r; reflexivity].
    destruct (get_field data "NumAgents") as [n|]; cbn [snd];
      [|rewrite H2, H1; cbn; rewrite ?app_nil_r; reflexivity].
    rewrite H3, H2, H1; cbn; rewrite ?app_nil_r; reflexivity.
  - destruct (fst r1) as [created|e1|].
    + intros sid Hsid r2. rewrite Hsid in Hr. fold r2 in Hr.
      split.
      * rewrite Hr.
        destruct (fst r2); cbn [snd];
          [|unfold r2; rewrite H2, H1; cbn; rewrite ?app_nil_r; reflexivity..].
        destruct (get_field created "simulationData") as [data|]; cbn [snd];
          [|unfold r2; rewrite H2, H1; cbn; rewrite ?app_nil_r; reflexivity].
        destruct (get_field data "NumAgents") as [n|]; cbn [snd];
          [|unfold r2; rewrite H2, H1; cbn; rewrite ?app_nil_r; reflexivity].
        unfold r2. rewrite H3, H2, H1; cbn; rewrite ?app_nil_r; reflexivity.
      * destruct (fst r2) as [started|e2|].
        -- intros data n Hdata Hn agents last r3.
           rewrite Hdata, Hn in Hr. fold agents last r3 in Hr.
           rewrite Hr. cbn [fst snd]. split; [|split; [reflexivity|]].
           ++ unfold r3, r2. rewrite H3, H2, H1; cbn; rewrite ?app_nil_r.
              reflexivity.
           ++ destruct (fst r3); reflexivity.
        -- rewrite Hr. split; [reflexivity|]. cbn [snd].
           unfold r2. rewrite H2, H1; cbn; rewrite ?app_nil_r; reflexivity.
        -- rewrite Hr. split; [reflexivity|]. cbn [snd].
           unfold r2. rewrite H2, H1; cbn; rewrite ?app_nil_r; reflexivity.
    + rewrite Hr. split; [reflexivity|]. cbn [snd].
      rewrite !H1; cbn; rewrite ?app_nil_r; split; reflexivity.
    + rewrite Hr. split; [reflexivity|]. cbn [snd].
      rewrite !H1; cbn; rewrite ?app_nil_r; split; reflexivity.
Qed.

End Operations.

(** ** The budget of JSON.parse is enough

    Every parser consumes input, and a parse that succeeds with some budget
    succeeds with twice the number of characters it consumes. *)

Section Budget.
Local Open Scope nat_scope.

Lemma starts_with_inv (c : ascii) (s t : string) :
  starts_with c s = Some t -> s = String c t.
Proof.
  destruct s as [|x s]; cbn; [discriminate|].
  destruct (Ascii.eqb_spec x c); [intros [= ->]; subst; reflexivity | discriminate].
Qed.

Lemma skip_ws_length (s : string) : String.length (skip_ws s) <= String.length s.
Proof.
  induction s as [|c s IH]; cbn; [lia|].
  destruct (is_ws c); cbn; lia.
Qed.

Lemma push_item_inv i r items rest :
  push_item i r = Some (items, rest) ->
  exists items', r = Some (items', rest) /\ items = i :: items'.
Proof.
  destruct r as [[items' rest']|]; cbn; [|discriminate].
  intros [= <- <-]. eauto.
Qed.

Lemma parse_string_items_length (s : string) :
  forall items rest,
    parse_string_items s = Some (items, rest) -> String.length rest < String.length s.
Proof.
  induction s as [s IH] using (well_founded_induction
                                 (Wf_nat.well_founded_ltof _ String.length)).
  unfold Wf_nat.ltof in IH.
  intros items rest H. destruct s as [|c s1]; cbn in H; [discriminate|].
  destruct (N_of_ascii c =? 34)%N.
  { inversion H; subst. cbn. lia. }
  destruct (N_of_ascii c =? 92)%N.
  - destruct s1 as [|e s2]; [discriminate|].
    repeat match type of H with
           | (if ?b then _ else _) = _ => destruct b
           | push_item _ _ = _ =>
               apply push_item_inv in H; destruct H as (items' & H & _);
               apply IH in H; cbn in *; lia
           end.
    + destruct s2 as [|h1 [|h2 [|h3 [|h4 s3]]]]; try discriminate.
      destruct (hex4 h1 h2 h3 h4); [|discriminate].
      apply push_item_inv in H; destruct H as (items' & H & _).
      apply IH in H; cbn in *; lia.
    + discriminate.
  - destruct (N_of_ascii c <? 32)%N; [discriminate|].
    apply push_item_inv in H; destruct H as (items' & H & _).
    apply IH in H; cbn in *; lia.
Qed.

Lemma parse_string_length s str rest :
  parse_string s = Some (str, rest) -> String.length rest < String.length s.
Proof.
  unfold parse_string.
  destruct (parse_string_items s) as [[items r]|] eqn:E; [|discriminate].
  intros [= _ <-]. eapply parse_string_items_length; eassumption.
Qed.

Lemma span_digits_length (s : string) :
  String.length (snd (span_digits s)) <= String.length s
  /\ (String.length (fst (span_digits s)) + String.length (snd (span_digits s)) = String.length s)%nat.
Proof.
  induction s as [|c s IH]; cbn; [lia|].
  destruct (is_digit c); cbn; [|lia].
  destruct (span_digits s) as [ds rest]; cbn in *. lia.
Qed.

Lemma parse_number_length s n rest :
  parse_number s = Some (n, rest) -> String.length rest < String.length s.
Proof.
  unfold parse_number.
  assert (Hs : exists neg s1, (match starts_with "-" s with
                               | Some s' => (true, s')
                               | None => (false, s)
                               end) = (neg, s1) /\ String.length s1 <= String.length s).
  { destruct (starts_with "-" s) as [s'|] eqn:E.
    - apply starts_with_inv in E. subst. do 2 eexists. split; [reflexivity|cbn; lia].
    - do 2 eexists. split; [reflexivity|lia]. }
  destruct Hs as (neg & s1 & -> & Hs1).
  destruct (parse_int_part s1) as [[int_ds s2]|] eqn:Ei; [|discriminate].
  assert (H2 : String.length s2 < String.length s1).
  { unfold parse_int_part in Ei. destruct s1 as [|c s1']; [discriminate|].
    destruct (Ascii.eqb c "0").
    - inversion Ei; subst. cbn. lia.
    - destruct (is_digit c) eqn:Ed; [|discriminate].
      inversion Ei as [Hsp]. cbn in Hsp. rewrite Ed in Hsp.
      pose proof (span_digits_length s1') as [Hl _].
      destruct (span_digits s1') as [ds r]; cbn in *. inversion Hsp; subst.
      lia. }
  destruct (parse_frac_part s2) as [[frac_ds s3]|] eqn:Ef; [|discriminate].
  assert (H3 : String.length s3 <= String.length s2).
  { unfold parse_frac_part in Ef.
    destruct (starts_with "." s2) as [s'|] eqn:E.
    - apply starts_with_inv in E. subst s2.
      pose proof (span_digits_length s') as [Hl _].
      destruct (span_digits s') as [ds r]; cbn in *.
      destruct ds; [discriminate|]. inversion Ef; subst. lia.
    - inversion Ef; subst. lia. }
  destruct (parse_exp_part s3) as [[e s4]|] eqn:Ee; [|discriminate].
  assert (H4 : String.length s4 <= String.length s3).
  { assert (Hd : forall b t z r, parse_exp_digits b t = Some (z, r) -> String.length r <= String.length t).
    { intros b t z r Hp. unfold parse_exp_digits in Hp.
      pose proof (span_digits_length t) as [Hl _].
      destruct (span_digits t) as [ds r']; cbn in *.
      destruct ds; [discriminate|]. inversion Hp; subst. lia. }
    unfold parse_exp_part in Ee. destruct s3 as [|c s3']; [inversion Ee; subst; lia|].
    destruct (Ascii.eqb c "e" || Ascii.eqb c "E"); [|inversion Ee; subst; lia].
    destruct (starts_with "+" s3') as [t|] eqn:E1.
    - apply starts_with_inv in E1. subst. apply Hd in Ee. cbn in *. lia.
    - destruct (starts_with "-" s3') as [t|] eqn:E2.
      + apply starts_with_inv in E2. subst. apply Hd in Ee. cbn in *. lia.
      + apply Hd in Ee. cbn. lia. }
  intros [= _ <-]. lia.
Qed.

Lemma drop_prefix_length (w s : string) :
  String.prefix w s = true -> (String.length (drop (String.length w) s) + String.length w = String.length s)%nat.
Proof.
  revert s. induction w as [|c w IH]; intros s H.
  - destruct s; cbn; lia.
  - destruct s as [|d s]; cbn in H; [discriminate|].
    destruct (ascii_dec c d); [|discriminate]. cbn. rewrite <- (IH s H). lia.
Qed.

Lemma parse_word_length w v s v' rest :
  w <> "" -> parse_word w v s = Some (v', rest) -> String.length rest < String.length s.
Proof.
  intros Hw. unfold parse_word.
  destruct (String.prefix w s) eqn:E; [|discriminate].
  intros [= _ <-]. pose proof (drop_prefix_length w s E).
  destruct w; [congruence|]. cbn in *. lia.
Qed.

Lemma starts_with_length c s t : starts_with c s = Some t -> String.length s = S (String.length t).
Proof. intros H. apply starts_with_inv in H. subst. reflexivity. Qed.

Ltac spend f :=
  destruct f as [|f]; [cbn [String.length] in *; lia|].

Lemma parse_budget (fuel : nat) :
  (forall s v rest,
      parse_value fuel s = Some (v, rest) ->
      String.length rest < String.length s
      /\ forall f, 2 * (String.length s - String.length rest) <= f -> parse_value f s = Some (v, rest))
  /\ (forall acc s v rest,
         parse_elements fuel acc s = Some (v, rest) ->
         String.length rest < String.length s
         /\ forall f, 2 * (String.length s - String.length rest) <= f ->
                      parse_elements f acc s = Some (v, rest))
  /\ (forall acc s v rest,
         parse_members fuel acc s = Some (v, rest) ->
         String.length rest < String.length s
         /\ forall f, 2 * (String.length s - String.length rest) <= f ->
                      parse_members f acc s = Some (v, rest)).
Proof.
  induction fuel as [|fuel (IHv & IHe & IHm)];
    [repeat split; intros; discriminate|].
  split; [|split].
  - (* a value *)
    intros s v rest H. cbn [parse_value] in H.
    destruct s as [|c s0]; [discriminate|].
    pose proof (skip_ws_length s0) as Hws.
    destruct (N_of_ascii c =? 123)%N eqn:E1.
    { destruct (starts_with "}" (skip_ws s0)) as [r|] eqn:Es.
      - pose proof (starts_with_length _ _ _ Es) as Hr.
        injection H as <- <-. split; [cbn; lia|].
        intros f Hf. spend f. cbn [parse_value]. rewrite E1, Es. reflexivity.
      - destruct (IHm _ _ _ _ H) as [Hl Hk]. split; [cbn; lia|].
        intros f Hf. spend f. cbn [parse_value]. rewrite E1, Es.
        apply Hk. cbn [String.length] in Hf. lia. }
    destruct (N_of_ascii c =? 91)%N eqn:E2.
    { destruct (starts_with "]" (skip_ws s0)) as [r|] eqn:Es.
      - pose proof (starts_with_length _ _ _ Es) as Hr.
        injection H as <- <-. split; [cbn; lia|].
        intros f Hf. spend f. cbn [parse_value]. rewrite E1, E2, Es. reflexivity.
      - destruct (IHe _ _ _ _ H) as [Hl Hk]. split; [cbn; lia|].
        intros f Hf. spend f. cbn [parse_value]. rewrite E1, E2, Es.
        apply Hk. cbn [String.length] in Hf. lia. }
    destruct (N_of_ascii c =? 34)%N eqn:E3.
    { destruct (parse_string s0) as [[str r]|] eqn:Ep; [|discriminate].
      pose proof (parse_string_length _ _ _ Ep) as Hr.
      injection H as <- <-. split; [cbn; lia|].
      intros f Hf. spend f. cbn [parse_value]. rewrite E1, E2, E3, Ep. reflexivity. }
    destruct (N_of_ascii c =? 116)%N eqn:E4.
    { pose proof (parse_word_length "true" _ _ _ _ ltac:(discriminate) H) as Hr.
      split; [exact Hr|].
      intros f Hf. spend f. cbn [parse_value]. rewrite E1, E2, E3, E4. exact H. }
    destruct (N_of_ascii c =? 102)%N eqn:E5.
    { pose proof (parse_word_length "false" _ _ _ _ ltac:(discriminate) H) as Hr.
      split; [exact Hr|].
      intros f Hf. spend f. cbn [parse_value]. rewrite E1, E2, E3, E4, E5. exact H. }
    destruct (N_of_ascii c =? 110)%N eqn:E6.
    { pose proof (parse_word_length "null" _ _ _ _ ltac:(discriminate) H) as Hr.
      split; [exact Hr|].
      intros f Hf. spend f. cbn [parse_value].
      rewrite E1, E2, E3, E4, E5, E6. exact H. }
    destruct (parse_number (String c s0)) as [[num r]|] eqn:Ep; [|discriminate].
    pose proof (parse_number_length _ _ _ Ep) as Hr.
    injection H as <- <-. split; [exact Hr|].
    intros f Hf. spend f. cbn [parse_value].
    rewrite E1, E2, E3, E4, E5, E6, Ep. reflexivity.
  - (* the elements of an array *)
    intros acc s v rest H. cbn [parse_elements] in H.
    destruct (parse_value fuel s) as [[v1 r1]|] eqn:Ev; [|discriminate].
    destruct (IHv _ _ _ Ev) as [Hl1 Hk1].
    pose proof (skip_ws_length r1) as Hws.
    destruct (starts_with "," (skip_ws r1)) as [r'|] eqn:Ec.
    + pose proof (starts_with_length _ _ _ Ec) as Hr.
      pose proof (skip_ws_length r') as Hws'.
      destruct (IHe _ _ _ _ H) as [Hl2 Hk2]. split; [lia|].
      intros f Hf. spend f. cbn [parse_elements].
      rewrite (Hk1 f ltac:(lia)), Ec. apply Hk2. lia.
    + destruct (starts_with "]" (skip_ws r1)) as [r'|] eqn:Eb; [|discriminate].
      pose proof (starts_with_length _ _ _ Eb) as Hr.
      injection H as <- <-. split; [lia|].
      intros f Hf. spend f. cbn [parse_elements].
      rewrite (Hk1 f ltac:(lia)), Ec, Eb. reflexivity.
  - (* the members of an object *)
    intros acc s v rest H. cbn [parse_members] in H.
    destruct (starts_with dquote s) as [s1|] eqn:Eq; [|discriminate].
    pose proof (starts_with_length _ _ _ Eq) as Hq.
    destruct (parse_string s1) as [[k s2]|] eqn:Ek; [|discriminate].
    pose proof (parse_string_length _ _ _ Ek) as Hk.
    pose proof (skip_ws_length s2) as Hws2.
    destruct (starts_with ":" (skip_ws s2)) as [s3|] eqn:Ecol; [|discriminate].
    pose proof (starts_with_length _ _ _ Ecol) as Hcol.
    pose proof (skip_ws_length s3) as Hws3.
    destruct (parse_value fuel (skip_ws s3)) as [[v1 r1]|] eqn:Ev; [|discriminate].
    destruct (IHv _ _ _ Ev) as [Hl1 Hk1].
    pose proof (skip_ws_length r1) as Hws.
    destruct (starts_with "," (skip_ws r1)) as [r'|] eqn:Ec.
    + pose proof (starts_with_length _ _ _ Ec) as Hr.
      pose proof (skip_ws_length r') as Hws'.
      destruct (IHm _ _ _ _ H) as [Hl2 Hk2]. split; [lia|].
      intros f Hf. spend f. cbn [parse_members].
      rewrite Eq, Ek, Ecol, (Hk1 f ltac:(lia)), Ec. apply Hk2. lia.
    + destruct (starts_with "}" (skip_ws r1)) as [r'|] eqn:Eb; [|discriminate].
      pose proof (starts_with_length _ _ _ Eb) as Hr.
      injection H as <- <-. split; [lia|].
      intros f Hf. spend f. cbn [parse_members].
      rewrite Eq, Ek, Ecol, (Hk1 f ltac:(lia)), Ec, Eb. reflexivity.
Qed.

(** Whatever some budget parses, the budget of [JSON_parse] parses. *)
Lemma JSON_parse_budget (text : string) (fuel : nat) (v : value) (rest : string) :
  parse_value fuel (skip_ws text) = Some (v, rest) ->
  parse_value (2 * String.length text + 2) (skip_ws text) = Some (v, rest).
Proof.
  intros H. destruct (parse_budget fuel) as (Hv & _ & _).
  destruct (Hv _ _ _ H) as [_ Hk]. apply Hk.
  pose proof (skip_ws_length text). lia.
Qed.

End Budget.

(** ** Numerals: what Number::toString writes, JSON.parse reads back *)

Lemma string_app_nil_r (s : string) : s ++ "" = s.
Proof. induction s as [|c s IH]; simpl; [reflexivity | rewrite IH; reflexivity]. Qed.

Lemma all_digits_string_of_uint (u : uint) :
  all_digits (NilEmpty.string_of_uint u) = true.
Proof. induction u; simpl; auto. Qed.

Lemma span_digits_all (s : string) :
  all_digits s = true -> span_digits s = (s, "").
Proof.
  induction s as [|c s IH]; simpl; [reflexivity|].
  intros H. apply andb_prop in H. destruct H as [Hc Hs].
  rewrite Hc, (IH Hs). reflexivity.
Qed.

Lemma to_uint_head (p : positive) :
  Pos.to_uint p <> Nil /\ forall d, Pos.to_uint p <> D0 d.
Proof.
  split; [apply DecimalPos.Unsigned.to_uint_nonnil|].
  intros d Hd.
  assert (Hn : unorm (Pos.to_uint p) = Pos.to_uint p).
  { rewrite <- DecimalPos.Unsigned.to_of, DecimalPos.Unsigned.of_to. reflexivity. }
  rewrite Hd in Hn. unfold unorm in Hn.
  destruct (nzhead (D0 d)) eqn:E;
    try (apply (DecimalFacts.nzhead_nonzero (D0 d) d); congruence).
  inversion Hn; subst d. apply (DecimalPos.Unsigned.to_uint_nonzero p). exact Hd.
Qed.

Lemma digits_value_to_uint (p : positive) :
  digits_value (NilEmpty.string_of_uint (Pos.to_uint p)) = Z.pos p.
Proof.
  unfold digits_value. rewrite NilEmpty.usu.
  unfold Z.of_uint. rewrite DecimalPos.Unsigned.of_to. reflexivity.
Qed.

(** A numeral written without sign, leading zero, fraction or exponent. *)
Lemma parse_number_to_uint (neg : bool) (p : positive) :
  parse_number ((if neg then "-" else "") ++ NilEmpty.string_of_uint (Pos.to_uint p))
  = Some (NInt (if neg then Z.neg p else Z.pos p), "").
Proof.
  pose proof (digits_value_to_uint p) as Hv.
  pose proof (all_digits_string_of_uint (Pos.to_uint p)) as Hd.
  destruct (to_uint_head p) as [Hnil H0].
  assert (Hspan := span_digits_all _ Hd).
  destruct (Pos.to_uint p) as [|u|u|u|u|u|u|u|u|u|u];
    [congruence | exfalso; apply (H0 u); reflexivity | ..].
  all: cbn [NilEmpty.string_of_uint] in *.
  all: destruct neg; cbn [append parse_number starts_with Ascii.eqb Bool.eqb].
  all: unfold parse_int_part; cbn [Ascii.eqb Bool.eqb is_digit N_of_ascii].
  all: match goal with
       | |- context [is_digit ?c] => change (is_digit c) with true
       end; cbv iota.
  all: rewrite Hspan; cbn [parse_frac_part parse_exp_part starts_with].
  all: unfold make_number; rewrite string_app_nil_r, Hv.
  all: change (0 - Z.of_nat (String.length "")) with 0.
  all: change (Z.pos p =? 0) with false; change (0 <=? 0) with true; cbv iota.
  all: change (10 ^ 0) with 1.
  all: do 3 f_equal; lia.
Qed.

Lemma numeral_head_code (c : ascii) :
  is_digit c = true \/ c = "-"%char -> (45 <= N_of_ascii c <= 57)%N.
Proof.
  intros [H | ->]; [|cbn; lia].
  unfold is_digit in H. apply andb_prop in H. destruct H as [H1 H2].
  apply N.leb_le in H1, H2. lia.
Qed.

Lemma skip_ws_numeral (c : ascii) (rest : string) :
  (45 <= N_of_ascii c <= 57)%N -> skip_ws (String c rest) = String c rest.
Proof.
  intros H. cbn [skip_ws]. unfold is_ws.
  repeat match goal with
         | |- context [(N_of_ascii c =? ?k)%N] =>
             replace (N_of_ascii c =? k)%N with false
               by (symmetry; apply N.eqb_neq; lia)
         end.
  reflexivity.
Qed.

Lemma parse_value_numeral (fuel : nat) (c : ascii) (rest : string) :
  (45 <= N_of_ascii c <= 57)%N ->
  parse_value (S fuel) (String c rest)
  = match parse_number (String c rest) with
    | Some (num, rest') => Some (VNum num, rest')
    | None => None
    end.
Proof.
  intros H. cbn [parse_value].
  repeat match goal with
         | |- context [(N_of_ascii c =? ?k)%N] =>
             replace (N_of_ascii c =? k)%N with false
               by (symmetry; apply N.eqb_neq; lia)
         end.
  reflexivity.
Qed.

(** An integer's rendering parses back to the integer. *)
Lemma JSON_parse_string_of_Z (z : Z) :
  JSON_parse (string_of_Z z) = Some (VNum (NInt z)).
Proof.
  unfold JSON_parse.
  replace (2 * String.length (string_of_Z z) + 2)%nat
    with (S (2 * String.length (string_of_Z z) + 1)) by lia.
  generalize (2 * String.length (string_of_Z z) + 1)%nat. intros fuel.
  unfold string_of_Z.
  destruct z as [|p|p]; [reflexivity | |].
  - cbn [Z.to_int NilZero.string_of_int].
    pose proof (parse_number_to_uint false p) as Hp. cbn [append] in Hp.
    destruct (to_uint_head p) as [Hnil H0].
    pose proof (all_digits_string_of_uint (Pos.to_uint p)) as Hd.
    unfold NilZero.string_of_uint.
    destruct (Pos.to_uint p) as [|u|u|u|u|u|u|u|u|u|u] eqn:E;
      [congruence | exfalso; apply (H0 u); reflexivity | ..].
    all: rewrite <- E in *; destruct (NilEmpty.string_of_uint (Pos.to_uint p))
           as [|c rest] eqn:Es; [rewrite E in Es; discriminate Es|].
    all: assert (Hc : (45 <= N_of_ascii c <= 57)%N)
           by (apply numeral_head_code; left; cbn [all_digits] in Hd;
               apply andb_prop in Hd; tauto).
    all: rewrite (skip_ws_numeral c rest Hc), (parse_value_numeral fuel c rest Hc), Hp.
    all: reflexivity.
  - cbn [Z.to_int NilZero.string_of_int].
    pose proof (parse_number_to_uint true p) as Hp. cbn [append] in Hp.
    destruct (to_uint_head p) as [Hnil H0].
    replace (NilZero.string_of_uint (Pos.to_uint p))
      with (NilEmpty.string_of_uint (Pos.to_uint p))
      by (unfold NilZero.string_of_uint; destruct (Pos.to_uint p); congruence).
    assert (Hc : (45 <= N_of_ascii "-" <= 57)%N) by (cbn; lia).
    rewrite (skip_ws_numeral _ _ Hc), (parse_value_numeral fuel _ _ Hc), Hp.
    reflexivity.
Qed.

(** ** Response normalisation *)

Lemma getObject_stable (d : value) : is_stable d = true -> getObject d = d.
Proof.
  unfold getObject.
  destruct d as [| |b|n|s|l|f|nm msg]; cbn [is_stable]; intros H;
    try discriminate H; try reflexivity.
  - destruct b; reflexivity.
  - destruct n as [z|neg ds pt| |neg]; try discriminate H; try reflexivity.
    + cbn [to_string number_to_string]. rewrite JSON_parse_string_of_Z. reflexivity.
    + destruct neg; reflexivity.
Qed.

(** C8, amended.  [getObject] returns what [JSON.parse] makes of the string
    rendering of its argument, and the argument itself when that parse
    throws: a string of JSON text is decoded, any other string is returned
    as it is, and plain objects, [undefined], [null], booleans, integers,
    NaN and the infinities are returned unchanged.  Applying it again to an
    output of one of these kinds changes nothing. *)
Theorem getObject_normalises :
  (forall s v, JSON_parse s = Some v -> getObject (VStr s) = v)
  /\ (forall s, JSON_parse s = None -> getObject (VStr s) = VStr s)
  /\ (forall d, is_stable d = true -> getObject d = d)
  /\ (forall d, is_stable (getObject d) = true ->
        getObject (getObject d) = getObject d).
Proof.
  split; [|split; [|split]].
  - intros s v H. unfold getObject. cbn [to_string]. rewrite H. reflexivity.
  - intros s H. unfold getObject. cbn [to_string]. rewrite H. reflexivity.
  - exact getObject_stable.
  - intros d H. apply getObject_stable. exact H.
Qed.

(** C8 as stated fails: the JSON text of the string "5" decodes to the
    string 5, which a second application decodes to the number 5; and the
    array [5], which is no string, is not returned unchanged. *)
Lemma getObject_decodes_twice :
  getObject (getObject (VStr quoted_five)) <> getObject (VStr quoted_five)
  /\ getObject (VArr [VInt 5]) <> VArr [VInt 5].
Proof. split; vm_compute; discriminate. Qed.

(* ===================================================================== *)
(** * Further properties of the operations *)
(* ===================================================================== *)

Lemma env_sets_app (w1 w2 : world) :
  env_sets (w1 ++ w2)%list = (env_sets w1 ++ env_sets w2)%list.
Proof.
  induction w1 as [|e w1 IH]; simpl; [reflexivity|].
  destruct e; simpl; rewrite IH; reflexivity.
Qed.

Lemma escaped_app (w1 w2 : world) :
  escaped (w1 ++ w2)%list = (escaped w1 ++ escaped w2)%list.
Proof.
  induction w1 as [|e w1 IH]; simpl; [reflexivity|].
  destruct e; simpl; rewrite IH; reflexivity.
Qed.

Lemma quiet_env_sets (tail : world) : quiet tail -> env_sets tail = [].
Proof. intros [-> | ->]; reflexivity. Qed.

(** What the two checks on an id, on the action and on the mode accept. *)
Lemma simulation_check s :
  js_not s || negb (Number_isInteger s) = false <-> exists z, s = VInt z /\ z <> 0.
Proof.
  split.
  - destruct s as [| |b|[z| | |]|str|l|f|n m]; cbn; try discriminate;
      rewrite ?orb_true_r; try discriminate.
    unfold js_not. cbn. rewrite orb_false_r, negb_involutive.
    intros H. exists z. split; [reflexivity|]. apply Z.eqb_neq. exact H.
  - intros (z & -> & Hz). unfold js_not. cbn.
    apply Z.eqb_neq in Hz. rewrite Hz. reflexivity.
Qed.

Lemma agent_check a :
  loose_eq_undefined_word a || negb (Number_isInteger a) = false
  <-> exists k, a = VInt k.
Proof.
  split.
  - destruct a as [| |b|[z| | |]|str|l|f|n m]; cbn [Number_isInteger negb];
      rewrite ?orb_true_r; try discriminate.
    intros _. exists z. reflexivity.
  - intros (k & ->). reflexivity.
Qed.

Lemma action_check act :
  js_not act || negb (includes (Object_values AgentAction) act) = false
  <-> In act (Object_values AgentAction).
Proof.
  split.
  - intros H. apply orb_false_elim in H. destruct H as [_ H].
    apply negb_false_iff in H. apply includes_AgentAction. exact H.
  - intros H. pose proof H as Hi. apply includes_AgentAction in Hi. rewrite Hi.
    simpl in H.
    repeat (destruct H as [H|H]; [subst; reflexivity|]). contradiction.
Qed.

Lemma mode_check mode :
  loose_eq_null mode = false <-> mode <> VNull /\ mode <> VUndefined.
Proof.
  split.
  - intros H. split; intros ->; discriminate H.
  - intros [Hn Hu]. destruct mode; try reflexivity; congruence.
Qed.

Section Further.
Variable hostname : value.
Variable server : service.

(** *** The leaf operations, reply by reply *)

Lemma getAgentStatus_outcome simulation agent w :
  let rep := server (requests w) (status_request hostname simulation agent) in
  fst (getAgentStatus hostname server simulation agent w)
  = match response rep with
    | None => Pending
    | Some m => if statusCode m =? 200 then Fulfilled (rbody rep)
                else Rejected (js_or (error rep) (rbody rep))
    end.
Proof.
  intros rep.
  unfold getAgentStatus, tls_off, new_Promise, request_, exchange, emit, done.
  run_io. rewrite requests_entry_env. name_reply rep.
  destruct (response rep); [destruct (statusCode _ =? 200)|]; run_io; reflexivity.
Qed.

Lemma simulateStep_outcome_valid z w :
  z <> 0 ->
  let rep := server (requests w) (step_request hostname (VInt z)) in
  fst (simulateStep hostname server (VInt z) w)
  = match response rep with
    | None => Pending
    | Some m =>
        if statusCode m =? 200 then Fulfilled (rbody rep)
        else Rejected (VStr (string_of_Z (statusCode m) ++ " Error : "
                               ++ to_string (error rep)))
    end.
Proof.
  intros Hz rep.
  assert (Hc : js_not (VInt z) || negb (Number_isInteger (VInt z)) = false)
    by (apply simulation_check; eauto).
  unfold simulateStep. rewrite Hc.
  unfold new_Promise, request_, exchange, emit, when, done.
  run_io. rewrite requests_entry. name_reply rep.
  destruct (response rep) as [m|]; cbn.
  - destruct (statusCode m =? 200); run_io; [reflexivity|].
    unfold str_plus. rewrite string_app_assoc. reflexivity.
  - run_io. reflexivity.
Qed.

Lemma createSimulation_requests env w :
  requests (snd (createSimulation hostname server env w))
  = (requests w ++ [create_request hostname env])%list.
Proof.
  rewrite createSimulation_log, requests_app. reflexivity.
Qed.

Lemma startSimulation_requests simulation w :
  requests (snd (startSimulation hostname server simulation w))
  = (requests w ++ [start_request hostname simulation])%list.
Proof.
  destruct (startSimulation_log hostname server simulation w) as (tail & -> & Ht).
  rewrite !requests_app, (quiet_requests tail Ht). reflexivity.
Qed.

Lemma getAgentStatus_requests simulation agent w :
  requests (snd (getAgentStatus hostname server simulation agent w))
  = (requests w ++ [status_request hostname simulation agent])%list.
Proof.
  destruct (getAgentStatus_log hostname server simulation agent w)
    as (tail & -> & Ht).
  rewrite !requests_app, (quiet_requests tail Ht). reflexivity.
Qed.

Lemma simulateStep_requests simulation w :
  requests (snd (simulateStep hostname server simulation w))
  = (requests w ++ [step_request hostname simulation])%list.
Proof.
  destruct (simulateStep_log hostname server simulation w) as (tail & -> & Ht).
  rewrite !requests_app, (quiet_requests tail Ht). reflexivity.
Qed.


(** X2.  [getAgentStatus] is fulfilled with the body exactly on a response
    with status 200 (201 is refused), rejected on a response with any other
    status, with the transport error when there is one and the body
    otherwise, and stays pending exactly when no response arrives. *)
Theorem getAgentStatus_by_reply simulation agent w :
  let rep := server (requests w) (status_request hostname simulation agent) in
  let r := getAgentStatus hostname server simulation agent w in
  (forall v, fst r = Fulfilled v
             <-> (exists m, response rep = Some m /\ statusCode m = 200)
                 /\ v = rbody rep)
  /\ (forall e, fst r = Rejected e
                <-> (exists m, response rep = Some m /\ statusCode m <> 200)
                    /\ e = (if truthy (error rep) then error rep else rbody rep))
  /\ (fst r = Pending <-> response rep = None).
Proof.
  intros rep r. unfold r. rewrite getAgentStatus_outcome. fold rep.
  destruct (response rep) as [m|].
  - destruct (statusCode m =? 200) eqn:E.
    + apply Z.eqb_eq in E. split; [|split].
      * intros v. split.
        -- intros [= <-]. split; [eauto|reflexivity].
        -- intros [_ ->]. reflexivity.
      * intros e. split; [discriminate|].
        intros [(m' & [= <-] & Hm) _]. contradiction.
      * split; discriminate.
    + apply Z.eqb_neq in E. split; [|split].
      * intros v. split; [discriminate|].
        intros [(m' & [= <-] & Hm) _]. contradiction.
      * intros e. split.
        -- intros [= <-]. split; [eauto|reflexivity].
        -- intros [_ ->]. reflexivity.
      * split; discriminate.
  - split; [|split].
    + intros v. split; [discriminate|]. intros [(m & Hm & _) _]. discriminate.
    + intros e. split; [discriminate|]. intros [(m & Hm & _) _]. discriminate.
    + split; reflexivity.
Qed.

(** X3.  On a non-zero integer simulation id, [simulateStep] is fulfilled
    with the body exactly on a response with status 200 (201 is refused),
    rejected on a response with any other status with the string made of
    the status code and the transport error, and stays pending exactly when
    no response arrives. *)
Theorem simulateStep_by_reply z w :
  z <> 0 ->
  let rep := server (requests w) (step_request hostname (VInt z)) in
  let r := simulateStep hostname server (VInt z) w in
  (forall v, fst r = Fulfilled v
             <-> (exists m, response rep = Some m /\ statusCode m = 200)
                 /\ v = rbody rep)
  /\ (forall e, fst r = Rejected e
                <-> exists m, response rep = Some m /\ statusCode m <> 200
                              /\ e = VStr (string_of_Z (statusCode m) ++ " Error : "
                                             ++ to_string (error rep)))
  /\ (fst r = Pending <-> response rep = None).
Proof.
  intros Hz rep r. unfold r. rewrite (simulateStep_outcome_valid z w Hz). fold rep.
  destruct (response rep) as [m|].
  - destruct (statusCode m =? 200) eqn:E.
    + apply Z.eqb_eq in E. split; [|split].
      * intros v. split.
        -- intros [= <-]. split; [eauto|reflexivity].
        -- intros [_ ->]. reflexivity.
      * intros e. split; [discriminate|].
        intros (m' & [= <-] & Hm & _). contradiction.
      * split; discriminate.
    + apply Z.eqb_neq in E. split; [|split].
      * intros v. split; [discriminate|].
        intros [(m' & [= <-] & Hm) _]. contradiction.
      * intros e. split.
        -- intros [= <-]. exists m. auto.
        -- intros (m' & [= <-] & _ & ->). reflexivity.
      * split; discriminate.
  - split; [|split].
    + intros v. split; [discriminate|]. intros [(m & Hm & _) _]. discriminate.
    + intros e. split; [discriminate|]. intros (m & Hm & _). discriminate.
    + split; reflexivity.
Qed.

(** X4.  [simulateStep] rejects a simulation id that is not an integer, or
    is 0, with the message that names the id; its check does not return,
    so the PUT for that id is sent all the same. *)
Theorem simulateStep_invalid_rejects_yet_sends s w :
  Number_isInteger s = false \/ s = VInt 0 ->
  fst (simulateStep hostname server s w)
  = Rejected (VStr ("Invalid Simulation ID " ++ to_string s))
  /\ requests (snd (simulateStep hostname server s w))
     = (requests w ++ [step_request hostname s])%list.
Proof.
  intros H. split; [|apply simulateStep_requests].
  assert (Hc : js_not s || negb (Number_isInteger s) = true).
  { destruct H as [H | ->]; [rewrite H; apply orb_true_r | reflexivity]. }
  unfold simulateStep. rewrite Hc.
  unfold new_Promise, request_, exchange, emit, when, done, invalid, js_or.
  run_io.
  destruct (present_and _ _); run_io; try reflexivity.
  destruct (response _); run_io; reflexivity.
Qed.


(** *** The checks of [performAgentAction] *)

Lemma invalid_message what v :
  what <> "" -> invalid what v = VStr (what ++ to_string v).
Proof.
  intros H. destruct what as [|c what]; [congruence|]. reflexivity.
Qed.

Lemma performAgentAction_outcome_checks s a act mode w :
  let c1 := js_not s || negb (Number_isInteger s) in
  let c2 := loose_eq_undefined_word a || negb (Number_isInteger a) in
  let c3 := js_not act || negb (includes (Object_values AgentAction) act) in
  let c4 := loose_eq_null mode in
  c1 || c2 || c3 || c4 = true ->
  fst (performAgentAction hostname server s a act mode w)
  = Rejected (if c1 then invalid "Invalid Simulation ID " s
              else if c2 then invalid "Invalid Agent ID " a
              else if c3 then invalid "Invalid action " act
              else invalid "Invalid action " mode).
Proof.
  intros c1 c2 c3 c4 H.
  unfold performAgentAction. fold c1 c2 c3 c4.
  unfold new_Promise, request_, exchange, emit, when, done.
  destruct c1, c2, c3, c4; try discriminate H; run_io.
  all: destruct (present_and _ _); run_io; try reflexivity.
  all: destruct (response _); run_io; reflexivity.
Qed.

(** X5.  The first check of [performAgentAction] that fails decides the
    rejection, in the order simulation id, agent id, action, mode; a mode
    that is null or undefined is reported under the words of the action
    check. *)
Theorem performAgentAction_first_violation s a act mode w :
  let o := fst (performAgentAction hostname server s a act mode w) in
  (Number_isInteger s = false \/ s = VInt 0 ->
   o = Rejected (VStr ("Invalid Simulation ID " ++ to_string s)))
  /\ (forall z, s = VInt z -> z <> 0 -> Number_isInteger a = false ->
        o = Rejected (VStr ("Invalid Agent ID " ++ to_string a)))
  /\ (forall z k, s = VInt z -> z <> 0 -> a = VInt k ->
        ~ In act (Object_values AgentAction) ->
        o = Rejected (VStr ("Invalid action " ++ to_string act)))
  /\ (forall z k, s = VInt z -> z <> 0 -> a = VInt k ->
        In act (Object_values AgentAction) ->
        mode = VNull \/ mode = VUndefined ->
        o = Rejected (VStr ("Invalid action " ++ to_string mode))).
Proof.
  intros o. unfold o. split; [|split; [|split]].
  - intros H.
    assert (Hc : js_not s || negb (Number_isInteger s) = true).
    { destruct H as [H | ->]; [rewrite H; apply orb_true_r | reflexivity]. }
    rewrite performAgentAction_outcome_checks; rewrite Hc; [|reflexivity].
    rewrite invalid_message by discriminate. reflexivity.
  - intros z -> Hz Ha.
    assert (H1 : js_not (VInt z) || negb (Number_isInteger (VInt z)) = false)
      by (apply simulation_check; eauto).
    assert (H2 : loose_eq_undefined_word a || negb (Number_isInteger a) = true)
      by (rewrite Ha; apply orb_true_r).
    rewrite performAgentAction_outcome_checks; rewrite H1, H2; [|reflexivity].
    rewrite invalid_message by discriminate. reflexivity.
  - intros z k -> Hz -> Hact.
    assert (H1 : js_not (VInt z) || negb (Number_isInteger (VInt z)) = false)
      by (apply simulation_check; eauto).
    assert (H3 : js_not act || negb (includes (Object_values AgentAction) act)
                 = true).
    { destruct (js_not act || _) eqn:E; [reflexivity|].
      apply action_check in E. contradiction. }
    rewrite performAgentAction_outcome_checks; rewrite H1, H3;
      [|rewrite orb_true_r; reflexivity].
    rewrite invalid_message by discriminate. reflexivity.
  - intros z k -> Hz -> Hact Hmode.
    assert (H1 : js_not (VInt z) || negb (Number_isInteger (VInt z)) = false)
      by (apply simulation_check; eauto).
    assert (H3 : js_not act || negb (includes (Object_values AgentAction) act)
                 = false) by (apply action_check; exact Hact).
    assert (H4 : loose_eq_null mode = true)
      by (destruct Hmode as [-> | ->]; reflexivity).
    rewrite performAgentAction_outcome_checks; rewrite ?H1, ?H3, ?H4;
      [|reflexivity].
    rewrite invalid_message by discriminate. reflexivity.
Qed.

(** X6.  [performAgentAction] is fulfilled only through the front door: the
    simulation id is a non-zero integer, the agent id an integer, the
    action one of the six, the mode neither null nor undefined, a response
    arrived with status 200 or 201, and the value is its body; and in that
    case it is fulfilled. *)
Theorem performAgentAction_fulfilled_iff s a act mode w v :
  let rep := server (requests w) (action_request hostname s a act mode) in
  fst (performAgentAction hostname server s a act mode w) = Fulfilled v
  <-> (exists z, s = VInt z /\ z <> 0)
      /\ (exists k, a = VInt k)
      /\ In act (Object_values AgentAction)
      /\ mode <> VNull /\ mode <> VUndefined
      /\ (exists m, response rep = Some m
                    /\ (statusCode m = 200 \/ statusCode m = 201))
      /\ v = rbody rep.
Proof.
  intros rep.
  destruct (js_not s || negb (Number_isInteger s)) eqn:H1;
    [|destruct (loose_eq_undefined_word a || negb (Number_isInteger a)) eqn:H2;
      [|destruct (js_not act || negb (includes (Object_values AgentAction) act))
          eqn:H3;
        [|destruct (loose_eq_null mode) eqn:H4]]].
  1-4: rewrite performAgentAction_outcome_checks
         by (rewrite ?H1, ?H2, ?H3, ?H4, ?orb_true_r; reflexivity);
       split; [discriminate|].
  - intros (Hs & _). apply simulation_check in Hs. congruence.
  - intros (_ & Ha & _). apply agent_check in Ha. congruence.
  - intros (_ & _ & Hact & _). apply action_check in Hact. congruence.
  - intros (_ & _ & _ & Hn & Hu & _).
    assert (loose_eq_null mode = false) by (apply mode_check; auto). congruence.
  - rewrite (performAgentAction_outcome_valid _ _ _ _ _ _ w H1 H2 H3 H4).
    fold rep. split.
    + intros H. apply simulation_check in H1. apply agent_check in H2.
      apply action_check in H3. apply mode_check in H4. destruct H4 as [Hn Hu].
      repeat (split; [assumption|]).
      destruct (response rep) as [m|]; [|discriminate].
      destruct (statusCode m =? 201) eqn:E1; cbn in H.
      * injection H as <-. split; [|reflexivity]. exists m. split; [reflexivity|lia].
      * destruct (statusCode m =? 200) eqn:E2; [|discriminate].
        injection H as <-. split; [|reflexivity]. exists m. split; [reflexivity|lia].
    + intros (_ & _ & _ & _ & _ & (m & Hm & Hst) & ->). rewrite Hm.
      destruct Hst as [-> | ->]; reflexivity.
Qed.

(** X7.  For ids and an action that convert to a string, whatever they are
    otherwise and whatever the mode and the reply, a rejection of
    [performAgentAction] or of [simulateStep] carries a string: neither
    then rejects with an [Error] object or with the response body.  (An
    argument that cannot be converted makes the executor throw, which is
    outside this statement.) *)
Theorem rejections_are_strings s a act mode w :
  convertible s = true -> convertible a = true -> convertible act = true ->
  match fst (performAgentAction hostname server s a act mode w) with
  | Rejected e => exists msg, e = VStr msg
  | _ => True
  end
  /\ match fst (simulateStep hostname server s w) with
     | Rejected e => exists msg, e = VStr msg
     | _ => True
     end.
Proof.
  intros _ _ _. split.
  - unfold performAgentAction, new_Promise, request_, exchange, emit, when, done.
    rewrite !invalid_message by discriminate.
    run_io.
    destruct (js_not s || _), (loose_eq_undefined_word a || _),
      (js_not act || _), (loose_eq_null mode); run_io.
    all: destruct (present_and _ _); run_io; eauto.
    all: destruct (response _); run_io; eauto.
  - unfold simulateStep, new_Promise, request_, exchange, emit, when, done.
    rewrite !invalid_message by discriminate.
    run_io.
    destruct (js_not s || _); run_io.
    all: destruct (present_and _ _); run_io; eauto.
    all: destruct (response _); run_io; eauto.
Qed.

(** X8.  Each leaf operation sends exactly one request per call, whatever
    the service answers: nothing is retried and nothing is held back.  This
    holds for every environment name and every mode, and for ids and an
    action that convert to a string, whether or not they pass the
    checks. *)
Theorem one_request_per_call env x y act mode w :
  convertible x = true -> convertible y = true -> convertible act = true ->
  requests (snd (createSimulation hostname server env w))
  = (requests w ++ [create_request hostname env])%list
  /\ requests (snd (startSimulation hostname server x w))
     = (requests w ++ [start_request hostname x])%list
  /\ requests (snd (getAgentStatus hostname server x y w))
     = (requests w ++ [status_request hostname x y])%list
  /\ requests (snd (performAgentAction hostname server x y act mode w))
     = (requests w ++ [action_request hostname x y act mode])%list
  /\ requests (snd (simulateStep hostname server x w))
     = (requests w ++ [step_request hostname x])%list.
Proof.
  intros _ _ _. repeat split.
  - apply createSimulation_requests.
  - apply startSimulation_requests.
  - apply getAgentStatus_requests.
  - apply performAgentAction_requests.
  - apply simulateStep_requests.
Qed.

(** X9.  [createSimulation], [startSimulation] and [getAgentStatus] each
    switch certificate verification off for the whole process, by setting
    NODE_TLS_REJECT_UNAUTHORIZED to 0, on every call; [performAgentAction]
    and [simulateStep] set no environment variable. *)
Theorem tls_verification_switched_off x y act mode w :
  let off := ("NODE_TLS_REJECT_UNAUTHORIZED", "0") in
  env_sets (snd (createSimulation hostname server x w)) = (env_sets w ++ [off])%list
  /\ env_sets (snd (startSimulation hostname server x w))
     = (env_sets w ++ [off])%list
  /\ env_sets (snd (getAgentStatus hostname server x y w))
     = (env_sets w ++ [off])%list
  /\ env_sets (snd (performAgentAction hostname server x y act mode w))
     = env_sets w
  /\ env_sets (snd (simulateStep hostname server x w)) = env_sets w.
Proof.
  intros off. repeat split.
  - rewrite createSimulation_log, env_sets_app. reflexivity.
  - destruct (startSimulation_log hostname server x w) as (tail & -> & Ht).
    rewrite !env_sets_app, (quiet_env_sets tail Ht). reflexivity.
  - destruct (getAgentStatus_log hostname server x y w) as (tail & -> & Ht).
    rewrite !env_sets_app, (quiet_env_sets tail Ht). reflexivity.
  - destruct (performAgentAction_log hostname server x y act mode w)
      as (tail & -> & Ht).
    rewrite !env_sets_app, (quiet_env_sets tail Ht). cbn. rewrite app_nil_r.
    reflexivity.
  - destruct (simulateStep_log hostname server x w) as (tail & -> & Ht).
    rewrite !env_sets_app, (quiet_env_sets tail Ht). cbn. rewrite app_nil_r.
    reflexivity.
Qed.

End Further.

Section Composites.
Variable hostname : value.
Variable server : service.

(** *** The action cycle on the wire *)

Lemma simulateAgentAction_requests_run s a act m w :
  let w0 := (w ++ [Invoked SimulateAgentAction [s; a; act; m]])%list in
  let r1 := performAgentAction hostname server s a act m w0 in
  let r2 := simulateStep hostname server s (snd r1) in
  requests (snd (simulateAgentAction hostname server s a act m w))
  = (requests w
       ++ firstn (match fst r1 with
                  | Fulfilled _ =>
                      match fst r2 with
                      | Fulfilled _ => 3
                      | _ => 2
                      end
                  | _ => 1
                  end) (cycle_requests hostname s a act m))%list.
Proof.
  intros w0 r1 r2. rewrite simulateAgentAction_run. fold w0 r1 r2.
  assert (H1 : requests (snd r1)
               = (requests w ++ [action_request hostname s a act m])%list).
  { unfold r1. rewrite performAgentAction_requests. unfold w0.
    rewrite requests_entry. reflexivity. }
  assert (H2 : requests (snd r2)
               = (requests w ++ [action_request hostname s a act m;
                                 step_request hostname s])%list).
  { unfold r2. rewrite simulateStep_requests, H1, <- app_assoc. reflexivity. }
  destruct (fst r1); [destruct (fst r2)|..]; cbn [snd firstn cycle_requests];
    try assumption.
  rewrite getAgentStatus_requests, H2, <- app_assoc. reflexivity.
Qed.

Lemma simulateAgentAction_sent s a act m w :
  let r := simulateAgentAction hostname server s a act m w in
  exists k, (1 <= k <= 3)%nat
            /\ requests (snd r)
               = (requests w ++ firstn k (cycle_requests hostname s a act m))%list
            /\ (forall v, fst r = Fulfilled v -> k = 3%nat).
Proof.
  intros r. unfold r.
  rewrite simulateAgentAction_requests_run, simulateAgentAction_run.
  eexists. split; [|split; [reflexivity|]].
  - destruct (fst (performAgentAction _ _ _ _ _ _ _)); [|lia..].
    destruct (fst (simulateStep _ _ _ _)); lia.
  - intros v.
    destruct (fst (performAgentAction _ _ _ _ _ _ _)); cbn [fst];
      [|discriminate..].
    destruct (fst (simulateStep _ _ _ _)); cbn [fst]; [|discriminate..].
    reflexivity.
Qed.

(** X10.  One action cycle sends between one and three requests and always
    in the same order: the action, then the step, then the status read.  A
    cycle that is fulfilled has sent all three. *)
Theorem simulateAgentAction_request_order s a act m w :
  let r := simulateAgentAction hostname server s a act m w in
  (exists k, (1 <= k <= 3)%nat
             /\ requests (snd r)
                = (requests w ++ firstn k (cycle_requests hostname s a act m))%list)
  /\ match fst r with
     | Fulfilled _ =>
         requests (snd r) = (requests w ++ cycle_requests hostname s a act m)%list
     | _ => True
     end.
Proof.
  intros r.
  destruct (simulateAgentAction_sent s a act m w) as (k & Hk & Hr & Hf).
  fold r in Hr, Hf. split; [eauto|].
  destruct (fst r) as [v| |]; [|exact I..].
  rewrite Hr, (Hf v eq_refl). reflexivity.
Qed.

(** X11.  On valid input the outcome of a cycle is decided by three status
    codes: it is fulfilled, with the body of the status read, exactly when
    the action is answered 200 or 201, the step 200 and the status read
    200, each request being answered in the history the earlier ones
    made. *)
Theorem simulateAgentAction_fulfilled_iff z k name mode w v :
  z <> 0 -> In (VStr name) (Object_values AgentAction) ->
  mode <> VNull -> mode <> VUndefined ->
  let s := VInt z in
  let a := VInt k in
  let act := VStr name in
  let rep1 := server (requests w) (action_request hostname s a act mode) in
  let rep2 := server (requests w ++ [action_request hostname s a act mode])%list
                (step_request hostname s) in
  let rep3 := server (requests w ++ [action_request hostname s a act mode;
                                     step_request hostname s])%list
                (status_request hostname s a) in
  fst (simulateAgentAction hostname server s a act mode w) = Fulfilled v
  <-> (exists m1, response rep1 = Some m1
                  /\ (statusCode m1 = 200 \/ statusCode m1 = 201))
      /\ (exists m2, response rep2 = Some m2 /\ statusCode m2 = 200)
      /\ (exists m3, response rep3 = Some m3 /\ statusCode m3 = 200)
      /\ v = rbody rep3.
Proof.
  intros Hz Hact Hn Hu s a act rep1 rep2 rep3.
  rewrite simulateAgentAction_run.
  set (w0 := (w ++ [Invoked SimulateAgentAction [s; a; act; mode]])%list).
  set (r1 := performAgentAction hostname server s a act mode w0).
  set (r2 := simulateStep hostname server s (snd r1)).
  destruct (checks_pass z k name mode Hz Hact Hn Hu) as (C1 & C2 & C3 & C4).
  assert (E1 : fst r1 = match response rep1 with
                        | None => Pending
                        | Some m =>
                            if (statusCode m =? 201) || (statusCode m =? 200)
                            then Fulfilled (rbody rep1)
                            else Rejected
                                   (VStr (string_of_Z (statusCode m) ++ " Error : "
                                            ++ to_string (error rep1)))
                        end).
  { unfold r1. rewrite (performAgentAction_outcome_valid _ _ _ _ _ _ w0 C1 C2 C3 C4).
    unfold w0. rewrite requests_entry. reflexivity. }
  assert (Q1 : requests (snd r1)
               = (requests w ++ [action_request hostname s a act mode])%list).
  { unfold r1. rewrite performAgentAction_requests. unfold w0.
    rewrite requests_entry. reflexivity. }
  assert (E2 : fst r2 = match response rep2 with
                        | None => Pending
                        | Some m =>
                            if statusCode m =? 200 then Fulfilled (rbody rep2)
                            else Rejected
                                   (VStr (string_of_Z (statusCode m) ++ " Error : "
                                            ++ to_string (error rep2)))
                        end).
  { unfold r2, s. rewrite (simulateStep_outcome_valid _ _ z (snd r1) Hz), Q1.
    reflexivity. }
  assert (Q2 : requests (snd r2)
               = (requests w ++ [action_request hostname s a act mode;
                                 step_request hostname s])%list).
  { unfold r2. rewrite simulateStep_requests, Q1, <- app_assoc. reflexivity. }
  assert (E3 : fst (getAgentStatus hostname server s a (snd r2))
               = match response rep3 with
                 | None => Pending
                 | Some m => if statusCode m =? 200 then Fulfilled (rbody rep3)
                             else Rejected (js_or (error rep3) (rbody rep3))
                 end).
  { rewrite getAgentStatus_outcome, Q2. reflexivity. }
  rewrite E1, E2. split.
  - intros H.
    destruct (response rep1) as [m1|]; [|discriminate H].
    destruct ((statusCode m1 =? 201) || (statusCode m1 =? 200)) eqn:S1;
      [|discriminate H].
    destruct (response rep2) as [m2|]; [|discriminate H].
    destruct (statusCode m2 =? 200) eqn:S2; [|discriminate H].
    rewrite E3 in H.
    destruct (response rep3) as [m3|]; [|discriminate H].
    destruct (statusCode m3 =? 200) eqn:S3; [|discriminate H].
    injection H as <-.
    split; [exists m1; split; [reflexivity|lia]|].
    split; [exists m2; split; [reflexivity|lia]|].
    split; [exists m3; split; [reflexivity|lia]|]. reflexivity.
  - intros ((m1 & -> & S1) & (m2 & -> & S2) & (m3 & M3 & S3) & ->).
    replace ((statusCode m1 =? 201) || (statusCode m1 =? 200)) with true
      by (destruct S1 as [-> | ->]; reflexivity).
    rewrite S2. cbn. rewrite E3, M3, S3. reflexivity.
Qed.

Lemma simulateAgentAction_invalid_run s a act mode w :
  Number_isInteger s = false \/ s = VInt 0 \/ Number_isInteger a = false
  \/ ~ In act (Object_values AgentAction) \/ mode = VNull \/ mode = VUndefined ->
  let r := simulateAgentAction hostname server s a act mode w in
  (exists msg, fst r = Rejected (VStr msg))
  /\ requests (snd r) = (requests w ++ [action_request hostname s a act mode])%list
  /\ invocations SimulateStep (snd r) = invocations SimulateStep w
  /\ invocations GetAgentStatus (snd r) = invocations GetAgentStatus w.
Proof.
  intros H r.
  set (w0 := (w ++ [Invoked SimulateAgentAction [s; a; act; mode]])%list).
  assert (Hc : (js_not s || negb (Number_isInteger s))
               || (loose_eq_undefined_word a || negb (Number_isInteger a))
               || (js_not act || negb (includes (Object_values AgentAction) act))
               || loose_eq_null mode = true).
  { destruct H as [H|[H|[H|[H|[H|H]]]]].
    - rewrite H. cbn. rewrite orb_true_r. reflexivity.
    - subst s. reflexivity.
    - rewrite H. cbn. rewrite !orb_true_r. reflexivity.
    - destruct (js_not act || _) eqn:E; [rewrite !orb_true_r; reflexivity|].
      apply action_check in E. contradiction.
    - subst mode. apply orb_true_r.
    - subst mode. apply orb_true_r. }
  pose proof (performAgentAction_outcome_checks hostname server s a act mode w0 Hc)
    as Ho.
  cbv zeta in Ho. rewrite !invalid_message in Ho by discriminate.
  assert (Hm : exists msg, fst (performAgentAction hostname server s a act mode w0)
                           = Rejected (VStr msg)).
  { rewrite Ho. destruct (js_not s || _); [eauto|].
    destruct (loose_eq_undefined_word a || _); [eauto|].
    destruct (js_not act || _); eauto. }
  destruct Hm as [msg Hmsg].
  assert (Hr : r = (Rejected (VStr msg),
                    snd (performAgentAction hostname server s a act mode w0))).
  { unfold r. rewrite simulateAgentAction_run. fold w0. rewrite Hmsg. reflexivity. }
  rewrite Hr. cbn [fst snd]. split; [eauto|]. split; [|split].
  - rewrite performAgentAction_requests. unfold w0. rewrite requests_entry.
    reflexivity.
  - rewrite performAgentAction_calls. unfold w0. rewrite invocations_app.
    cbn. rewrite !app_nil_r. reflexivity.
  - rewrite performAgentAction_calls. unfold w0. rewrite invocations_app.
    cbn. rewrite !app_nil_r. reflexivity.
Qed.

(** X12.  A cycle on input that fails a check of [performAgentAction] is
    rejected with that check's message after sending the action request,
    and sends nothing else: the simulation is not stepped and no status is
    read. *)
Theorem simulateAgentAction_invalid_input s a act mode w :
  Number_isInteger s = false \/ s = VInt 0 \/ Number_isInteger a = false
  \/ ~ In act (Object_values AgentAction) \/ mode = VNull \/ mode = VUndefined ->
  let r := simulateAgentAction hostname server s a act mode w in
  (exists msg, fst r = Rejected (VStr msg))
  /\ requests (snd r) = (requests w ++ [action_request hostname s a act mode])%list
  /\ invocations SimulateStep (snd r) = invocations SimulateStep w
  /\ invocations GetAgentStatus (snd r) = invocations GetAgentStatus w.
Proof. exact (simulateAgentAction_invalid_run s a act mode w). Qed.

End Composites.

Section Sequences.
Variable hostname : value.
Variable server : service.

(** *** Under the API base *)

Lemma prefix_app (p s : string) : String.prefix p (p ++ s) = true.
Proof.
  induction p as [|c p IH]; cbn; [destruct s; reflexivity|].
  destruct (ascii_dec c c); [exact IH | congruence].
Qed.

Lemma prefix_app_l (p s t : string) :
  String.prefix p s = true -> String.prefix p (s ++ t) = true.
Proof.
  revert s. induction p as [|c p IH]; intros s H.
  - destruct (s ++ t); reflexivity.
  - destruct s as [|d s]; cbn in H; [discriminate|].
    cbn. destruct (ascii_dec c d); [apply IH; exact H | discriminate].
Qed.

Lemma under_api_leaves x y act mode :
  under_api hostname (create_request hostname x) = true
  /\ under_api hostname (start_request hostname x) = true
  /\ under_api hostname (status_request hostname x y) = true
  /\ under_api hostname (action_request hostname x y act mode) = true
  /\ under_api hostname (step_request hostname x) = true.
Proof.
  unfold under_api, create_request, start_request, status_request,
    action_request, step_request, str_plus; cbn [url].
  split.
  - change "simulations/create" with ("simulations/" ++ "create").
    rewrite <- string_app_assoc. apply prefix_app.
  - repeat split; repeat first [apply prefix_app | apply prefix_app_l].
Qed.

Lemma under_api_cycle s a act m (k : nat) :
  forallb (under_api hostname) (firstn k (cycle_requests hostname s a act m)) = true.
Proof.
  destruct (under_api_leaves s a act m) as (_ & _ & H3 & H4 & H5).
  unfold cycle_requests.
  destruct k as [|[|[|k]]]; cbn [firstn forallb];
    rewrite ?H3, ?H4, ?H5, ?firstn_nil; reflexivity.
Qed.

(** *** The action sequence on the wire *)

Lemma run_cycles_sent s a m actions :
  forall w,
    let r := run_cycles hostname server s a m actions w in
    exists k sent,
      (k <= List.length actions)%nat
      /\ invocations SimulateAgentAction (snd r)
         = (invocations SimulateAgentAction w
              ++ map (fun x => [s; a; x; m]) (firstn k actions))%list
      /\ requests (snd r) = (requests w ++ sent)%list
      /\ (List.length sent <= 3 * k)%nat
      /\ forallb (under_api hostname) sent = true
      /\ (forall v, fst r = Fulfilled v ->
            k = List.length actions
            /\ sent = flat_map (fun x => cycle_requests hostname s a x m) actions).
Proof.
  induction actions as [|x rest IH]; intros w r; subst r.
  - exists 0%nat, []. cbn. rewrite !app_nil_r. repeat split; lia.
  - cbn [run_cycles]. rewrite bind_run.
    destruct (simulateAgentAction_sent hostname server s a x m w)
      as (j & Hj & Hreq & Hful).
    pose proof (simulateAgentAction_calls hostname server s a x m w) as Hcall.
    pose proof (under_api_cycle s a x m j) as Hapi.
    destruct (simulateAgentAction hostname server s a x m w) as [o w1];
      cbn [fst snd] in *.
    assert (Hlen : (List.length (firstn j (cycle_requests hostname s a x m)) <= 3)%nat)
      by (rewrite length_firstn; cbn; lia).
    destruct o as [v|e|].
    + destruct (IH w1) as (k & sent & Hk & Hinv & Hsent & Hbound & Hunder & Hall).
      exists (S k), (firstn j (cycle_requests hostname s a x m) ++ sent)%list.
      split; [cbn; lia|]. split.
      { rewrite Hinv, Hcall. cbn [firstn map]. rewrite <- app_assoc. reflexivity. }
      split; [rewrite Hsent, Hreq, <- app_assoc; reflexivity|].
      split; [rewrite length_app; lia|].
      split; [rewrite forallb_app, Hapi, Hunder; reflexivity|].
      intros v' Hv'. destruct (Hall v' Hv') as [-> ->].
      rewrite (Hful v eq_refl). split; reflexivity.
    + exists 1%nat, (firstn j (cycle_requests hostname s a x m)).
      cbn [ret fst snd firstn map]. split; [cbn; lia|].
      split; [exact Hcall|]. split; [exact Hreq|]. split; [lia|].
      split; [exact Hapi|]. discriminate.
    + exists 1%nat, (firstn j (cycle_requests hostname s a x m)).
      cbn [ret fst snd firstn map]. split; [cbn; lia|].
      split; [exact Hcall|]. split; [exact Hreq|]. split; [lia|].
      split; [exact Hapi|]. discriminate.
Qed.

(** X13.  Whatever the service answers, [executeActionArray] attempts a
    prefix of the list and nothing else: it enters the cycle once for each
    of the first [k] elements, in order, for some [k] within the length of
    the list, and sends at most three requests per attempted element.  When
    it succeeds, it has attempted every element and sent exactly the three
    requests of each, in list order. *)
Theorem executeActionArray_attempts_prefix s a actions m w :
  let r := executeActionArray hostname server s a actions m w in
  exists k sent,
    (k <= List.length actions)%nat
    /\ invocations SimulateAgentAction (snd r)
       = (invocations SimulateAgentAction w
            ++ map (fun x => [s; a; x; m]) (firstn k actions))%list
    /\ requests (snd r) = (requests w ++ sent)%list
    /\ (List.length sent <= 3 * k)%nat
    /\ (forall v, settle (fst r) = Fulfilled v ->
          k = List.length actions
          /\ sent = flat_map (fun x => cycle_requests hostname s a x m) actions).
Proof.
  intros r.
  destruct (executeActionArray_run hostname server s a actions m w) as (Hrun & _).
  fold r in Hrun.
  set (w0 := (w ++ [Invoked ExecuteActionArray [s; a; VArr actions; m]])%list) in *.
  destruct (run_cycles_sent s a m actions w0)
    as (k & sent & Hk & Hinv & Hsent & Hbound & _ & Hall).
  rewrite <- Hrun in Hinv, Hsent, Hall. cbn [fst snd] in *.
  exists k, sent. split; [exact Hk|].
  split; [rewrite Hinv; unfold w0; rewrite invocations_app; cbn;
          rewrite app_nil_r; reflexivity|].
  split; [rewrite Hsent; unfold w0; rewrite requests_entry; reflexivity|].
  split; [exact Hbound | exact Hall].
Qed.

(** X14.  An element of the list that fails a check of
    [performAgentAction], met after the elements before it have succeeded,
    ends the run with that check's message: its own action request is the
    last request sent, and the elements after it are never attempted. *)
Theorem executeActionArray_invalid_element s a pre x post m w :
  let actions := (pre ++ x :: post)%list in
  let w0 := (w ++ [Invoked ExecuteActionArray [s; a; VArr actions; m]])%list in
  let r := executeActionArray hostname server s a actions m w in
  forall w1,
    all_succeed hostname server s a m pre w0 = Some w1 ->
    Number_isInteger s = false \/ s = VInt 0 \/ Number_isInteger a = false
    \/ ~ In x (Object_values AgentAction) \/ m = VNull \/ m = VUndefined ->
    (exists msg, fst r = ReturnPromise (Rejected (VStr msg)))
    /\ requests (snd r)
       = (requests w1 ++ [action_request hostname s a x m])%list
    /\ invocations SimulateAgentAction (snd r)
       = (invocations SimulateAgentAction w
            ++ map (fun y => [s; a; y; m]) (pre ++ [x]))%list.
Proof.
  intros actions w0 r w1 Hpre Hbad.
  destruct (simulateAgentAction_invalid_run hostname server s a x m w1 Hbad)
    as ((msg & Hmsg) & Hreq & _).
  destruct (executeActionArray_run hostname server s a actions m w)
    as (Hrun & Hprom & _).
  fold r w0 in Hrun, Hprom.
  assert (Hx : forall v, fst (simulateAgentAction hostname server s a x m w1)
                         <> Fulfilled v) by (intros v; rewrite Hmsg; discriminate).
  change (run_cycles hostname server s a m actions w0)
    with (run_cycles hostname server s a m (pre ++ x :: post)%list w0) in Hrun.
  rewrite (run_cycles_first_failure hostname server s a m pre x post w0 w1 Hpre Hx)
    in Hrun.
  assert (Hs : snd r = snd (simulateAgentAction hostname server s a x m w1))
    by (rewrite <- Hrun; reflexivity).
  assert (Hf : settle (fst r) = Rejected (VStr msg))
    by (rewrite <- Hmsg, <- Hrun; reflexivity).
  split; [|split].
  - exists msg.
    destruct (Hprom ltac:(unfold actions; destruct pre; discriminate)) as [o Ho].
    rewrite Ho in *. cbn [settle] in Hf. rewrite Hf. reflexivity.
  - rewrite Hs. exact Hreq.
  - rewrite Hs, simulateAgentAction_calls.
    destruct (run_cycles_all_succeed hostname server s a m pre w0 w1 Hpre)
      as (_ & Hi).
    rewrite Hi. unfold w0. rewrite invocations_app. cbn.
    rewrite app_nil_r, map_app, <- app_assoc. reflexivity.
Qed.

End Sequences.

Section Establishing.
Variable hostname : value.
Variable server : service.

(** *** Establishment: what [init] does not check *)

(** X16.  [init] reads the creation response unchecked.  When creation is
    fulfilled with [null] or [undefined], reading [simulationId] throws and
    [init] is rejected as a failure to create, after the one request that
    succeeded.  When the response has no [simulationData] (or a null one),
    the simulation is started first, then reading [NumAgents] throws and
    [init] is rejected as a failure to start, although the start
    succeeded; no status is read. *)
Theorem init_unreadable_response env w :
  let w0 := (w ++ [Invoked Init [env]])%list in
  let r1 := createSimulation hostname server (VStr "HW1") w0 in
  (forall created,
      fst r1 = Fulfilled created ->
      created = VNull \/ created = VUndefined ->
      fst (init hostname server env w)
      = Rejected (VStr "Error creating Simulation {}")
      /\ requests (snd (init hostname server env w))
         = (requests w ++ [create_request hostname (VStr "HW1")])%list)
  /\ (forall created sid started data,
         fst r1 = Fulfilled created ->
         get_field created "simulationId" = Some sid ->
         fst (startSimulation hostname server sid (snd r1)) = Fulfilled started ->
         get_field created "simulationData" = Some data ->
         data = VNull \/ data = VUndefined ->
         fst (init hostname server env w)
         = Rejected (VStr "Error starting agent {}")
         /\ requests (snd (init hostname server env w))
            = (requests w ++ [create_request hostname (VStr "HW1");
                              start_request hostname sid])%list).
Proof.
  intros w0 r1.
  assert (Q1 : requests (snd r1)
               = (requests w ++ [create_request hostname (VStr "HW1")])%list).
  { unfold r1. rewrite createSimulation_requests. unfold w0.
    rewrite requests_entry. reflexivity. }
  split.
  - intros created Hc Hnull. rewrite init_run. cbv zeta. fold w0 r1.
    rewrite Hc.
    replace (get_field created "simulationId") with (@None value)
      by (destruct Hnull as [-> | ->]; reflexivity).
    cbn [fst snd]. split; [reflexivity | exact Q1].
  - intros created sid started data Hc Hsid Hstart Hdata Hnull.
    rewrite init_run. cbv zeta. fold w0 r1.
    rewrite Hc, Hsid, Hstart, Hdata.
    replace (get_field data "NumAgents") with (@None value)
      by (destruct Hnull as [-> | ->]; reflexivity).
    cbn [fst snd]. split; [reflexivity|].
    rewrite startSimulation_requests, Q1, <- app_assoc. reflexivity.
Qed.

(** X17.  [init] does not check the agent count either.  When [NumAgents]
    does not start with a number, the count is NaN and the status request
    goes out all the same, for the agent called NaN. *)
Theorem init_unparsable_agent_count env w created sid started data numAgents :
  let w0 := (w ++ [Invoked Init [env]])%list in
  let r1 := createSimulation hostname server (VStr "HW1") w0 in
  fst r1 = Fulfilled created ->
  get_field created "simulationId" = Some sid ->
  fst (startSimulation hostname server sid (snd r1)) = Fulfilled started ->
  get_field created "simulationData" = Some data ->
  get_field data "NumAgents" = Some numAgents ->
  parseInt numAgents = None ->
  requests (snd (init hostname server env w))
  = (requests w ++ [ create_request hostname (VStr "HW1");
                     start_request hostname sid;
                     status_request hostname sid (VNum NNaN) ])%list
  /\ url (status_request hostname sid (VNum NNaN))
     = apiBase hostname ++ "simulations/" ++ to_string sid ++ "/agents/NaN/status".
Proof.
  intros w0 r1 Hc Hsid Hstart Hdata Hn Hparse.
  split.
  - rewrite init_run. cbv zeta. fold w0 r1.
    rewrite Hc, Hsid, Hstart, Hdata, Hn, Hparse. cbn [fst snd minus_one num_of].
    rewrite getAgentStatus_requests, startSimulation_requests.
    unfold r1. rewrite createSimulation_requests. unfold w0.
    rewrite requests_entry, <- !app_assoc. reflexivity.
  - unfold status_request, str_plus. cbn [url to_string number_to_string].
    rewrite !string_app_assoc. reflexivity.
Qed.

End Establishing.

Section Addresses.
Variable hostname : value.
Variable server : service.

Lemma init_sent env w :
  exists k sid agent,
    (1 <= k <= 3)%nat
    /\ requests (snd (init hostname server env w))
       = (requests w ++ firstn k [ create_request hostname (VStr "HW1");
                                   start_request hostname sid;
                                   status_request hostname sid agent ])%list.
Proof.
  rewrite init_run. cbv zeta.
  set (r1 := createSimulation hostname server (VStr "HW1")
               (w ++ [Invoked Init [env]])%list).
  assert (Q1 : requests (snd r1)
               = (requests w ++ [create_request hostname (VStr "HW1")])%list).
  { unfold r1. rewrite createSimulation_requests, requests_entry. reflexivity. }
  assert (Q2 : forall sid,
             requests (snd (startSimulation hostname server sid (snd r1)))
             = (requests w ++ [create_request hostname (VStr "HW1");
                               start_request hostname sid])%list).
  { intros sid. rewrite startSimulation_requests, Q1, <- app_assoc. reflexivity. }
  destruct (fst r1) as [created|e1|]; cbn [snd];
    [|exists 1%nat, VUndefined, VUndefined; split; [lia | exact Q1]..].
  destruct (get_field created "simulationId") as [sid|]; cbn [snd];
    [|exists 1%nat, VUndefined, VUndefined; split; [lia | exact Q1]].
  destruct (fst (startSimulation hostname server sid (snd r1))) as [started|e2|];
    cbn [snd];
    [|exists 2%nat, sid, VUndefined; split; [lia | apply Q2]..].
  destruct (get_field created "simulationData") as [data|]; cbn [snd];
    [|exists 2%nat, sid, VUndefined; split; [lia | apply Q2]].
  destruct (get_field data "NumAgents") as [n|]; cbn [snd];
    [|exists 2%nat, sid, VUndefined; split; [lia | apply Q2]].
  exists 3%nat, sid, (VNum (num_of (minus_one (parseInt n)))).
  split; [lia|].
  rewrite getAgentStatus_requests, Q2, <- app_assoc. reflexivity.
Qed.

(** X18.  Every request the wrapper sends addresses a resource under
    [simulations/] of the one API base, https://<host>/api/: this holds of
    the request of each leaf operation and of all the requests of a cycle,
    of an action sequence and of an establishment, whatever the arguments
    and the replies. *)
Theorem requests_stay_under_api x y act mode actions w :
  (under_api hostname (create_request hostname x) = true
   /\ under_api hostname (start_request hostname x) = true
   /\ under_api hostname (status_request hostname x y) = true
   /\ under_api hostname (action_request hostname x y act mode) = true
   /\ under_api hostname (step_request hostname x) = true)
  /\ (exists sent,
         requests (snd (simulateAgentAction hostname server x y act mode w))
         = (requests w ++ sent)%list
         /\ forallb (under_api hostname) sent = true)
  /\ (exists sent,
         requests (snd (executeActionArray hostname server x y actions mode w))
         = (requests w ++ sent)%list
         /\ forallb (under_api hostname) sent = true)
  /\ (exists sent,
         requests (snd (init hostname server x w)) = (requests w ++ sent)%list
         /\ forallb (under_api hostname) sent = true).
Proof.
  split; [apply under_api_leaves|]. split; [|split].
  - destruct (simulateAgentAction_sent hostname server x y act mode w)
      as (k & _ & Hr & _).
    eexists. split; [exact Hr | apply under_api_cycle].
  - destruct (executeActionArray_run hostname server x y actions mode w)
      as (Hrun & _).
    destruct (run_cycles_sent hostname server x y mode actions
                (w ++ [Invoked ExecuteActionArray [x; y; VArr actions; mode]])%list)
      as (k & sent & _ & _ & Hsent & _ & Hunder & _).
    rewrite <- Hrun in Hsent. cbn [snd] in Hsent.
    exists sent. split; [|exact Hunder].
    rewrite Hsent, requests_entry. reflexivity.
  - destruct (init_sent x w) as (k & sid & agent & _ & Hr).
    eexists. split; [exact Hr|].
    destruct (under_api_leaves hostname (VStr "HW1") y act mode) as (H1 & _).
    destruct (under_api_leaves hostname sid agent act mode) as (_ & H2 & H3 & _).
    destruct k as [|[|[|k]]]; cbn [firstn forallb];
      rewrite ?H1, ?H2, ?H3, ?firstn_nil; reflexivity.
Qed.

End Addresses.

(** *** Response normalisation on numerals *)

(** X19.  [getObject] turns the decimal text of a safe integer into the
    integer, and an array holding a single safe integer into that integer:
    in both cases what comes back is a number, not what went in. *)
Theorem getObject_numerals (z : Z) :
  Number_isSafeInteger (VInt z) = true ->
  getObject (VStr (string_of_Z z)) = VInt z
  /\ getObject (VArr [VInt z]) = VInt z.
Proof.
  intros _. unfold getObject. cbn [to_string number_to_string VInt].
  rewrite JSON_parse_string_of_Z. split; reflexivity.
Qed.

Section Failures.
Variable hostname : value.
Variable server : service.

(** *** When the transport fails *)

Lemma startSimulation_escaped x w :
  escaped (snd (startSimulation hostname server x w))
  = (escaped w ++ thrown (server (requests w) (start_request hostname x)))%list.
Proof.
  unfold startSimulation, tls_off, new_Promise, request_, exchange, emit, done, thrown.
  run_io. rewrite requests_entry_env.
  set (rep := server (requests w) _).
  change (server (requests w) (start_request hostname x)) with rep.
  destruct (response rep); [destruct (statusCode _ =? 200)|]; run_io;
    rewrite !escaped_app; cbn; rewrite ?app_nil_r; reflexivity.
Qed.

Lemma getAgentStatus_escaped x y w :
  escaped (snd (getAgentStatus hostname server x y w))
  = (escaped w ++ thrown (server (requests w) (status_request hostname x y)))%list.
Proof.
  unfold getAgentStatus, tls_off, new_Promise, request_, exchange, emit, done, thrown.
  run_io. rewrite requests_entry_env.
  set (rep := server (requests w) _).
  change (server (requests w) (status_request hostname x y)) with rep.
  destruct (response rep); [destruct (statusCode _ =? 200)|]; run_io;
    rewrite !escaped_app; cbn; rewrite ?app_nil_r; reflexivity.
Qed.

Lemma performAgentAction_escaped x y act mode w :
  escaped (snd (performAgentAction hostname server x y act mode w))
  = (escaped w
       ++ thrown (server (requests w) (action_request hostname x y act mode)))%list.
Proof.
  set (rep := server (requests w) (action_request hostname x y act mode)).
  unfold performAgentAction, new_Promise, request_, exchange, emit, when, done, thrown.
  destruct (js_not x || _), (loose_eq_undefined_word y || _),
    (js_not act || _), (loose_eq_null mode); run_io.
  all: rewrite requests_entry; name_reply rep.
  all: destruct (response rep) as [m|]; cbn [present_and response_loose_eq];
    [destruct ((statusCode m =? 201) || (statusCode m =? 200))|]; run_io;
    rewrite !escaped_app; cbn; rewrite ?app_nil_r; reflexivity.
Qed.

Lemma simulateStep_escaped x w :
  escaped (snd (simulateStep hostname server x w))
  = (escaped w ++ thrown (server (requests w) (step_request hostname x)))%list.
Proof.
  set (rep := server (requests w) (step_request hostname x)).
  unfold simulateStep, new_Promise, request_, exchange, emit, when, done, thrown.
  destruct (js_not x || _); run_io.
  all: rewrite requests_entry; name_reply rep.
  all: destruct (response rep) as [m|]; cbn [present_and];
    [destruct (statusCode m =? 200)|]; run_io;
    rewrite !escaped_app; cbn; rewrite ?app_nil_r; reflexivity.
Qed.

Lemma thrown_TypeError (rep : reply) :
  match response rep with
  | None => exists msg, thrown rep = [TypeError msg]
  | Some _ => thrown rep = []
  end.
Proof.
  unfold thrown, no_statusCode.
  destruct (response rep); [reflexivity | eexists; reflexivity].
Qed.

(** X20.  When the transport fails and no response arrives, the callbacks
    of [startSimulation], [getAgentStatus], [performAgentAction] and
    [simulateStep] read the status code of [undefined]: one TypeError
    escapes the callback, and nothing escapes when a response arrives.
    This holds for ids and an action that convert to a string, valid or
    not, and for every mode.  [createSimulation] alone guards the read and
    lets nothing escape, whatever it is given. *)
Theorem absent_response_throws env x y act mode w :
  convertible x = true -> convertible y = true -> convertible act = true ->
  let escapes (r : request) (after : world) : Prop :=
    exists tail,
      escaped after = (escaped w ++ tail)%list
      /\ match response (server (requests w) r) with
         | None => exists msg, tail = [TypeError msg]
         | Some _ => tail = []
         end in
  escaped (snd (createSimulation hostname server env w)) = escaped w
  /\ escapes (start_request hostname x)
       (snd (startSimulation hostname server x w))
  /\ escapes (status_request hostname x y)
       (snd (getAgentStatus hostname server x y w))
  /\ escapes (action_request hostname x y act mode)
       (snd (performAgentAction hostname server x y act mode w))
  /\ escapes (step_request hostname x)
       (snd (simulateStep hostname server x w)).
Proof.
  intros _ _ _ escapes. unfold escapes.
  split; [|split; [|split; [|split]]].
  - rewrite createSimulation_log, escaped_app. cbn. apply app_nil_r.
  - exists (thrown (server (requests w) (start_request hostname x))).
    split; [apply startSimulation_escaped | apply thrown_TypeError].
  - exists (thrown (server (requests w) (status_request hostname x y))).
    split; [apply getAgentStatus_escaped | apply thrown_TypeError].
  - exists (thrown (server (requests w) (action_request hostname x y act mode))).
    split; [apply performAgentAction_escaped | apply thrown_TypeError].
  - exists (thrown (server (requests w) (step_request hostname x))).
    split; [apply simulateStep_escaped | apply thrown_TypeError].
Qed.

(** The outcome of a cycle on valid input, reply by reply. *)
Lemma simulateAgentAction_valid_run z k name mode w :
  z <> 0 -> In (VStr name) (Object_values AgentAction) ->
  mode <> VNull -> mode <> VUndefined ->
  let s := VInt z in
  let a := VInt k in
  let act := VStr name in
  let rep1 := server (requests w) (action_request hostname s a act mode) in
  let rep2 := server (requests w ++ [action_request hostname s a act mode])%list
                (step_request hostname s) in
  let rep3 := server (requests w ++ [action_request hostname s a act mode;
                                     step_request hostname s])%list
                (status_request hostname s a) in
  fst (simulateAgentAction hostname server s a act mode w)
  = match response rep1 with
    | None => Pending
    | Some m1 =>
        if (statusCode m1 =? 201) || (statusCode m1 =? 200) then
          match response rep2 with
          | None => Pending
          | Some m2 =>
              if statusCode m2 =? 200 then
                match response rep3 with
                | None => Pending
                | Some m3 =>
                    if statusCode m3 =? 200 then Fulfilled (rbody rep3)
                    else Rejected (js_or (error rep3) (rbody rep3))
                end
              else Rejected (VStr (string_of_Z (statusCode m2) ++ " Error : "
                                     ++ to_string (error rep2)))
          end
        else Rejected (VStr (string_of_Z (statusCode m1) ++ " Error : "
                               ++ to_string (error rep1)))
    end.
Proof.
  intros Hz Hact Hn Hu s a act rep1 rep2 rep3.
  rewrite simulateAgentAction_run.
  set (w0 := (w ++ [Invoked SimulateAgentAction [s; a; act; mode]])%list).
  set (r1 := performAgentAction hostname server s a act mode w0).
  set (r2 := simulateStep hostname server s (snd r1)).
  destruct (checks_pass z k name mode Hz Hact Hn Hu) as (C1 & C2 & C3 & C4).
  assert (E1 : fst r1 = match response rep1 with
                        | None => Pending
                        | Some m =>
                            if (statusCode m =? 201) || (statusCode m =? 200)
                            then Fulfilled (rbody rep1)
                            else Rejected
                                   (VStr (string_of_Z (statusCode m) ++ " Error : "
                                            ++ to_string (error rep1)))
                        end).
  { unfold r1. rewrite (performAgentAction_outcome_valid _ _ _ _ _ _ w0 C1 C2 C3 C4).
    unfold w0. rewrite requests_entry. reflexivity. }
  assert (Q1 : requests (snd r1)
               = (requests w ++ [action_request hostname s a act mode])%list).
  { unfold r1. rewrite performAgentAction_requests. unfold w0.
    rewrite requests_entry. reflexivity. }
  assert (E2 : fst r2 = match response rep2 with
                        | None => Pending
                        | Some m =>
                            if statusCode m =? 200 then Fulfilled (rbody rep2)
                            else Rejected
                                   (VStr (string_of_Z (statusCode m) ++ " Error : "
                                            ++ to_string (error rep2)))
                        end).
  { unfold r2, s. rewrite (simulateStep_outcome_valid _ _ z (snd r1) Hz), Q1.
    reflexivity. }
  assert (Q2 : requests (snd r2)
               = (requests w ++ [action_request hostname s a act mode;
                                 step_request hostname s])%list).
  { unfold r2. rewrite simulateStep_requests, Q1, <- app_assoc. reflexivity. }
  rewrite E1.
  destruct (response rep1) as [m1|]; [|reflexivity].
  destruct ((statusCode m1 =? 201) || (statusCode m1 =? 200)); [|reflexivity].
  rewrite E2.
  destruct (response rep2) as [m2|]; [|reflexivity].
  destruct (statusCode m2 =? 200); [|reflexivity].
  assert (E3 : fst (getAgentStatus hostname server s a (snd r2))
               = match response rep3 with
                 | None => Pending
                 | Some m => if statusCode m =? 200 then Fulfilled (rbody rep3)
                             else Rejected (js_or (error rep3) (rbody rep3))
                 end).
  { rewrite getAgentStatus_outcome, Q2. reflexivity. }
  destruct (getAgentStatus hostname server s a (snd r2)) as [o3 w3].
  cbn [fst] in *. rewrite E3. destruct (response rep3) as [m3|]; [|reflexivity].
  destruct (statusCode m3 =? 200); reflexivity.
Qed.

(** X21.  On valid input a cycle never settles exactly when the transport
    fails at the stage it has reached: no response to the action, or the
    action accepted and no response to the step, or both accepted and no
    response to the status read.  A transport failure is never turned into
    a rejection of the cycle. *)
Theorem simulateAgentAction_pending_iff z k name mode w :
  z <> 0 -> In (VStr name) (Object_values AgentAction) ->
  mode <> VNull -> mode <> VUndefined ->
  let s := VInt z in
  let a := VInt k in
  let act := VStr name in
  let rep1 := server (requests w) (action_request hostname s a act mode) in
  let rep2 := server (requests w ++ [action_request hostname s a act mode])%list
                (step_request hostname s) in
  let rep3 := server (requests w ++ [action_request hostname s a act mode;
                                     step_request hostname s])%list
                (status_request hostname s a) in
  let accepted1 := exists m1, response rep1 = Some m1
                              /\ (statusCode m1 = 200 \/ statusCode m1 = 201) in
  let accepted2 := exists m2, response rep2 = Some m2 /\ statusCode m2 = 200 in
  fst (simulateAgentAction hostname server s a act mode w) = Pending
  <-> response rep1 = None
      \/ (accepted1 /\ response rep2 = None)
      \/ (accepted1 /\ accepted2 /\ response rep3 = None).
Proof.
  intros Hz Hact Hn Hu s a act rep1 rep2 rep3 accepted1 accepted2.
  unfold s, a, act.
  rewrite (simulateAgentAction_valid_run z k name mode w Hz Hact Hn Hu).
  fold s a act. fold rep1 rep2 rep3. unfold accepted1, accepted2.
  destruct (response rep1) as [m1|]; [|split; auto].
  destruct ((statusCode m1 =? 201) || (statusCode m1 =? 200)) eqn:S1.
  - assert (A1 : statusCode m1 = 200 \/ statusCode m1 = 201) by lia.
    destruct (response rep2) as [m2|]; [|split; eauto 6].
    destruct (statusCode m2 =? 200) eqn:S2.
    + apply Z.eqb_eq in S2.
      destruct (response rep3) as [m3|]; [|split; eauto 10].
      destruct (statusCode m3 =? 200); split; try discriminate;
        intros [H|[(_ & H)|(_ & _ & H)]]; discriminate.
    + apply Z.eqb_neq in S2. split; [discriminate|].
      intros [H|[(_ & H)|(_ & (m & [= <-] & Hm) & _)]];
        [discriminate | discriminate | contradiction].
  - split; [discriminate|].
    intros [H|[((m & [= <-] & Hm) & _)|((m & [= <-] & Hm) & _)]];
      [discriminate | lia | lia].
Qed.

End Failures.

Section Outage.
Variable hostname : value.
Variable server : service.

(** X22.  A transport failure is handled unevenly by [init].  When no
    response arrives to the creation, [init] is rejected as a failure to
    create, with the JSON text of the transport error.  When the creation
    succeeds and no response arrives to the start, or the start succeeds too
    and no response arrives to the status read, [init] never settles: the
    stage's promise stays pending and neither of its handlers runs. *)
Theorem init_transport_failure env w :
  let w0 := (w ++ [Invoked Init [env]])%list in
  let r := init hostname server env w in
  let create := create_request hostname (VStr "HW1") in
  let rep1 := server (requests w) create in
  let r1 := createSimulation hostname server (VStr "HW1") w0 in
  (response rep1 = None ->
   fst r = Rejected (VStr ("Error creating Simulation "
                             ++ to_string (JSON_stringify
                                             (js_or (error rep1) (rbody rep1)))))
   /\ requests (snd r) = (requests w ++ [create])%list)
  /\ (forall created sid,
         fst r1 = Fulfilled created ->
         get_field created "simulationId" = Some sid ->
         response (server (requests w ++ [create])%list
                     (start_request hostname sid)) = None ->
         fst r = Pending
         /\ requests (snd r)
            = (requests w ++ [create; start_request hostname sid])%list)
  /\ (forall created sid started data numAgents,
         fst r1 = Fulfilled created ->
         get_field created "simulationId" = Some sid ->
         fst (startSimulation hostname server sid (snd r1)) = Fulfilled started ->
         get_field created "simulationData" = Some data ->
         get_field data "NumAgents" = Some numAgents ->
         let last := VNum (num_of (minus_one (parseInt numAgents))) in
         response (server (requests w ++ [create; start_request hostname sid])%list
                     (status_request hostname sid last)) = None ->
         fst r = Pending
         /\ requests (snd r)
            = (requests w ++ [create; start_request hostname sid;
                              status_request hostname sid last])%list).
Proof.
  intros w0 r create rep1 r1.
  assert (Q1 : requests (snd r1) = (requests w ++ [create])%list).
  { unfold r1. rewrite createSimulation_requests. unfold w0.
    rewrite requests_entry. reflexivity. }
  split; [|split].
  - intros Hnone. unfold r. rewrite init_run. cbv zeta. fold w0 r1.
    assert (E1 : fst r1 = Rejected (js_or (error rep1) (rbody rep1))).
    { unfold r1. rewrite createSimulation_outcome. unfold w0.
      rewrite requests_entry. fold create rep1. rewrite Hnone. reflexivity. }
    rewrite E1. cbn [fst snd]. split; [reflexivity | exact Q1].
  - intros created sid Hc Hsid Hnone. unfold r. rewrite init_run. cbv zeta.
    fold w0 r1. rewrite Hc, Hsid.
    rewrite startSimulation_outcome, Q1, Hnone. cbn [fst snd].
    rewrite startSimulation_requests, Q1, <- app_assoc. split; reflexivity.
  - intros created sid started data numAgents Hc Hsid Hstart Hdata Hn last Hnone.
    unfold r. rewrite init_run. cbv zeta. fold w0 r1.
    rewrite Hc, Hsid, Hstart, Hdata, Hn. fold last. cbn [fst snd].
    rewrite getAgentStatus_outcome, getAgentStatus_requests,
      startSimulation_requests, Q1, <- !app_assoc.
    change ([create] ++ [start_request hostname sid])%list
      with [create; start_request hostname sid].
    rewrite Hnone. split; reflexivity.
Qed.

End Outage.

(* ===================================================================== *)
(** * The theorems at work on the scenarios *)
(* ===================================================================== *)

Import Scenario.

(** C5 on a service that answers 201: the request sent and the fulfilment. *)
Lemma performAgentAction_valid_request_witness :
  let r := performAgentAction host (answering 201 (VStr "done"))
             (VInt 7) (VInt 2) (VStr "pickUp") (VBool true) [] in
  In (VStr "pickUp") (Object_values AgentAction)
  /\ requests (snd r)
     = [ mkRequest POST "https://sim.example/api/simulations/7/agents/2/action"
           (Some (VObj [("action", VStr "pickUp"); ("mode", VBool true)])) true ]
  /\ fst r = Fulfilled (VStr "done").
Proof.
  assert (Hin : In (VStr "pickUp") (Object_values AgentAction))
    by (simpl; tauto).
  assert (Hn : VBool true <> VNull) by discriminate.
  assert (Hu : VBool true <> VUndefined) by discriminate.
  assert (H7 : 7 <> 0) by lia.
  destruct (performAgentAction_valid_request host (answering 201 (VStr "done"))
              7 2 "pickUp" (VBool true) [] eq_refl H7 eq_refl Hin Hn Hu)
    as [Hreq Hok].
  split; [exact Hin|]. split.
  - exact Hreq.
  - apply (Hok (mkIncoming 201)); [reflexivity | right; reflexivity].
Defined.

(** C5 as stated fails at the simulation id 0: an integer, with an integer
    agent id, one of the six actions and a mode that is not null, against a
    service that answers 200; the promise is rejected, not fulfilled with
    the body. *)
Lemma performAgentAction_refuses_integer_zero :
  let r := performAgentAction host (answering 200 (VStr "done"))
             (VInt 0) (VInt 2) (VStr "idle") (VInt 1) [] in
  Number_isInteger (VInt 0) = true
  /\ Number_isInteger (VInt 2) = true
  /\ In (VStr "idle") (Object_values AgentAction)
  /\ VInt 1 <> VNull
  /\ fst r = Rejected (VStr "Invalid Simulation ID 0")
  /\ fst r <> Fulfilled (VStr "done").
Proof.
  cbv zeta. split; [reflexivity|]. split; [reflexivity|].
  split; [simpl; tauto|]. split; [discriminate|].
  split; [reflexivity | vm_compute; discriminate].
Qed.

(** C3 on the simulation id given as the string 7: rejected, and the request
    for simulation 7 is on the wire all the same. *)
Lemma performAgentAction_invalid_rejects_yet_sends_witness :
  let r := performAgentAction host (answering 200 (VStr "ok"))
             (VStr "7") (VInt 0) (VStr "idle") (VInt 1) [] in
  Number_isInteger (VStr "7") = false
  /\ fst r = Rejected (VStr "Invalid Simulation ID 7")
  /\ requests (snd r)
     = [ mkRequest POST "https://sim.example/api/simulations/7/agents/0/action"
           (Some (VObj [("action", VStr "idle"); ("mode", VInt 1)])) true ].
Proof.
  assert (H : Number_isInteger (VStr "7") = false) by reflexivity.
  destruct (performAgentAction_invalid_rejects_yet_sends host
              (answering 200 (VStr "ok")) (VStr "7") (VInt 0) (VStr "idle")
              (VInt 1) [] (or_introl H)) as [_ Hreq].
  split; [exact H|]. split; [reflexivity | exact Hreq].
Defined.

(** C6 on a service that answers 400: the generic string, not the named
    error. *)
Lemma performAgentAction_failure_is_generic_witness :
  let r := performAgentAction host (answering 400 (VStr "bad request"))
             (VInt 7) (VInt 2) (VStr "idle") (VInt 1) [] in
  400 <> 200 /\ 400 <> 201
  /\ fst r = Rejected (VStr "400 Error : null").
Proof.
  assert (H7 : 7 <> 0) by lia.
  assert (Hin : In (VStr "idle") (Object_values AgentAction))
    by (simpl; tauto).
  assert (Hn : VInt 1 <> VNull) by discriminate.
  assert (Hu : VInt 1 <> VUndefined) by discriminate.
  assert (H200 : 400 <> 200) by lia.
  assert (H201 : 400 <> 201) by lia.
  split; [exact H200|]. split; [exact H201|].
  exact (performAgentAction_failure_is_generic host
           (answering 400 (VStr "bad request")) 7 2 "idle" (VInt 1) []
           (mkIncoming 400) H7 Hin Hn Hu eq_refl H200 H201).
Defined.

(** Evaluates the outcome a hypothesis branches on. *)
Ltac eval_outcome H :=
  match type of H with
  | context [match ?x with Fulfilled _ => _ | Rejected _ => _ | Pending => _ end] =>
      let v := eval vm_compute in x in
      change x with v in H; cbv beta iota in H
  end.

(** C4 on a service that answers 201: start fails where create succeeds. *)
Lemma startSimulation_resolves_only_on_200_witness :
  fst (startSimulation host (answering 201 (VStr "started")) (VInt 7) [])
  = Rejected (VStr "started")
  /\ fst (createSimulation host (answering 201 (VStr "started")) (VStr "HW1") [])
     = Fulfilled (VStr "started").
Proof.
  destruct (startSimulation_resolves_only_on_200 host
              (answering 201 (VStr "started")) (VInt 7) (VStr "HW1") [])
    as (_ & Hreject & Hcreate).
  split.
  - apply (Hreject (mkIncoming 201)); [reflexivity | cbn; lia].
  - apply (Hcreate (mkIncoming 201)); reflexivity.
Defined.

(** C7 on a service that creates simulation 7 with three agents: asked for
    HW2, [init] creates HW1, starts simulation 7 and reads agent 2. *)
Lemma init_three_stages_witness :
  let r := init host established (VStr "HW2") [] in
  invocations CreateSimulation (snd r) = [[VStr "HW1"]]
  /\ invocations StartSimulation (snd r) = [[VInt 7]]
  /\ invocations GetAgentStatus (snd r) = [[VInt 7; VInt 2]]
  /\ fst r
     = Fulfilled
         (VObj [ ("simulationId", VInt 7);
                 ("agents", VInt 3);
                 ("createResponse",
                  VObj [ ("simulationId", VInt 7);
                         ("simulationData", VObj [("NumAgents", VStr "3")]) ]);
                 ("startResponse", VObj []);
                 ("agentStatus", VObj []) ]).
Proof.
  pose proof (init_three_stages host established (VStr "HW2") []) as H.
  cbv zeta in H. destruct H as [Hcreate H].
  eval_outcome H.
  specialize (H (VInt 7) eq_refl). destruct H as [Hstart H].
  eval_outcome H.
  specialize (H (VObj [("NumAgents", VStr "3")]) (VStr "3") eq_refl eq_refl).
  destruct H as (Hstatus & _ & Hresult).
  eval_outcome Hresult.
  repeat split; assumption.
Defined.

(** C2 on a service that fails from its fifth request on: the second of
    three cycles fails at its step, and the third action is never tried. *)
Lemma executeActionArray_sequential_witness :
  let r := executeActionArray host (failing_after 4) (VInt 7) (VInt 2)
             [VStr "idle"; VStr "drop"; VStr "pickUp"] (VInt 1) [] in
  settle (fst r) = Rejected (VStr "500 Error : null")
  /\ invocations SimulateAgentAction (snd r)
     = [ [VInt 7; VInt 2; VStr "idle"; VInt 1];
         [VInt 7; VInt 2; VStr "drop"; VInt 1] ].
Proof.
  destruct (executeActionArray_sequential host (failing_after 4) (VInt 7) (VInt 2)
              [VStr "idle"; VStr "drop"; VStr "pickUp"] (VInt 1) [])
    as (_ & _ & Hfail & _).
  edestruct (Hfail [VStr "idle"] (VStr "drop") [VStr "pickUp"]) as [Hout Hcalls].
  - reflexivity.
  - vm_compute. reflexivity.
  - intros v. vm_compute. discriminate.
  - split; [|exact Hcalls].
    apply (f_equal fst) in Hout. cbn [fst] in Hout. rewrite Hout.
    vm_compute. reflexivity.
Defined.

(** C9 on a service that answers 200: the cycles yield the status, the
    sequence yields [undefined]. *)
Lemma executeActionArray_discards_status_witness :
  fst (executeActionArray host (answering 200 (VStr "status")) (VInt 7) (VInt 2)
         [] (VInt 1) [])
  = Return VUndefined
  /\ fst (executeActionArray host (answering 200 (VStr "status")) (VInt 7) (VInt 2)
            [VStr "idle"; VStr "drop"] (VInt 1) [])
     = ReturnPromise (Fulfilled VUndefined)
  /\ fst (simulateAgentAction host (answering 200 (VStr "status")) (VInt 7) (VInt 2)
            (VStr "drop") (VInt 1) [])
     = Fulfilled (VStr "status").
Proof.
  destruct (executeActionArray_discards_status host (answering 200 (VStr "status"))
              (VInt 7) (VInt 2) [VStr "idle"; VStr "drop"] (VInt 1) [])
    as [Hempty Hfull].
  split; [exact Hempty|]. split; [|vm_compute; reflexivity].
  eapply Hfull; [discriminate | vm_compute; reflexivity].
Defined.

(** C8, amended, on JSON text, on other text and on an object. *)
Lemma getObject_normalises_witness :
  getObject (VStr json_a1) = VObj [("a", VInt 1)]
  /\ getObject (VStr "HW1") = VStr "HW1"
  /\ getObject (VObj [("a", VInt 1)]) = VObj [("a", VInt 1)]
  /\ getObject (getObject (VStr json_a1)) = getObject (VStr json_a1).
Proof.
  destruct getObject_normalises as (Hdecode & Hkeep & Hstable & Hagain).
  split; [apply Hdecode; vm_compute; reflexivity|].
  split; [apply Hkeep; vm_compute; reflexivity|].
  split; [apply Hstable; reflexivity|].
  apply Hagain. vm_compute. reflexivity.
Defined.

(** A service that cannot be reached.  Input that fails the checks is
    rejected and the request still leaves; valid input leaves the promise
    pending; either way the callback's TypeError escapes. *)
Lemma performAgentAction_unreachable :
  performAgentAction host unreachable (VStr "7") (VInt 0) (VStr "idle") (VInt 1) []
  = (Rejected (VStr "Invalid Simulation ID 7"),
     [ Invoked PerformAgentAction [VStr "7"; VInt 0; VStr "idle"; VInt 1];
       Sent (action_request host (VStr "7") (VInt 0) (VStr "idle") (VInt 1));
       Uncaught no_statusCode ])
  /\ performAgentAction host unreachable (VInt 7) (VInt 0) (VStr "idle") (VInt 1) []
     = (Pending,
        [ Invoked PerformAgentAction [VInt 7; VInt 0; VStr "idle"; VInt 1];
          Sent (action_request host (VInt 7) (VInt 0) (VStr "idle") (VInt 1));
          Uncaught no_statusCode ]).
Proof. split; reflexivity. Qed.

(** One whole cycle against a service that answers 200: the three requests,
    in order, and the status as the outcome. *)
Lemma simulateAgentAction_cycle :
  let r := simulateAgentAction host (answering 200 (VStr "status"))
             (VInt 7) (VInt 2) (VStr "turnLeft") (VInt 1) [] in
  fst r = Fulfilled (VStr "status")
  /\ requests (snd r)
     = [ action_request host (VInt 7) (VInt 2) (VStr "turnLeft") (VInt 1);
         step_request host (VInt 7);
         status_request host (VInt 7) (VInt 2) ].
Proof. split; reflexivity. Qed.

(** X3 on a service that answers 503: the step is rejected with the status
    and the absent error in one string. *)
Lemma simulateStep_by_reply_witness :
  7 <> 0
  /\ fst (simulateStep host (answering 503 (VStr "busy")) (VInt 7) [])
     = Rejected (VStr "503 Error : null").
Proof.
  assert (H7 : 7 <> 0) by lia.
  destruct (simulateStep_by_reply host (answering 503 (VStr "busy")) 7 [] H7)
    as (_ & Hrej & _).
  split; [exact H7|].
  apply Hrej. exists (mkIncoming 503).
  split; [reflexivity|]. split; [cbn; lia | reflexivity].
Defined.

(** X4 on the simulation id 0: rejected, and the step of simulation 0 is
    requested all the same. *)
Lemma simulateStep_invalid_rejects_yet_sends_witness :
  let r := simulateStep host (answering 200 (VStr "ok")) (VInt 0) [] in
  fst r = Rejected (VStr "Invalid Simulation ID 0")
  /\ requests (snd r) = [step_request host (VInt 0)].
Proof.
  exact (simulateStep_invalid_rejects_yet_sends host (answering 200 (VStr "ok"))
           (VInt 0) [] (or_intror eq_refl)).
Defined.

(** X11 on a service that answers 200: the cycle is fulfilled with the
    status. *)
Lemma simulateAgentAction_fulfilled_iff_witness :
  In (VStr "turnRight") (Object_values AgentAction)
  /\ fst (simulateAgentAction host (answering 200 (VStr "status"))
            (VInt 7) (VInt 2) (VStr "turnRight") (VInt 1) [])
     = Fulfilled (VStr "status").
Proof.
  assert (H7 : 7 <> 0) by lia.
  assert (Hin : In (VStr "turnRight") (Object_values AgentAction))
    by (simpl; tauto).
  assert (Hn : VInt 1 <> VNull) by discriminate.
  assert (Hu : VInt 1 <> VUndefined) by discriminate.
  split; [exact Hin|].
  apply (simulateAgentAction_fulfilled_iff host (answering 200 (VStr "status"))
           7 2 "turnRight" (VInt 1) [] (VStr "status") H7 Hin Hn Hu).
  split; [exists (mkIncoming 200); split; [reflexivity | left; reflexivity]|].
  split; [exists (mkIncoming 200); split; reflexivity|].
  split; [exists (mkIncoming 200); split; reflexivity | reflexivity].
Defined.

(** X12 on an action that is none of the six: one request, no step and no
    status read. *)
Lemma simulateAgentAction_invalid_input_witness :
  let r := simulateAgentAction host (answering 200 (VStr "ok"))
             (VInt 7) (VInt 2) (VStr "jump") (VInt 1) [] in
  ~ In (VStr "jump") (Object_values AgentAction)
  /\ fst r = Rejected (VStr "Invalid action jump")
  /\ requests (snd r)
     = [action_request host (VInt 7) (VInt 2) (VStr "jump") (VInt 1)]
  /\ invocations SimulateStep (snd r) = []
  /\ invocations GetAgentStatus (snd r) = [].
Proof.
  assert (Hout : ~ In (VStr "jump") (Object_values AgentAction)).
  { simpl. intros H. repeat destruct H as [H|H]; try discriminate H. exact H. }
  destruct (simulateAgentAction_invalid_input host (answering 200 (VStr "ok"))
              (VInt 7) (VInt 2) (VStr "jump") (VInt 1) []
              (or_intror (or_intror (or_intror (or_introl Hout)))))
    as (_ & Hreq & Hstep & Hstatus).
  split; [exact Hout|]. split; [reflexivity|].
  split; [exact Hreq|]. split; [exact Hstep | exact Hstatus].
Defined.

(** X14 on three actions of which the second is none of the six: the
    sequence is rejected at the second, after the cycle of the first. *)
Lemma executeActionArray_invalid_element_witness :
  let r := executeActionArray host (answering 200 (VStr "ok")) (VInt 7) (VInt 2)
             [VStr "idle"; VStr "jump"; VStr "drop"] (VInt 1) [] in
  ~ In (VStr "jump") (Object_values AgentAction)
  /\ settle (fst r) = Rejected (VStr "Invalid action jump")
  /\ requests (snd r)
     = (cycle_requests host (VInt 7) (VInt 2) (VStr "idle") (VInt 1)
          ++ [action_request host (VInt 7) (VInt 2) (VStr "jump") (VInt 1)])%list
  /\ invocations SimulateAgentAction (snd r)
     = [ [VInt 7; VInt 2; VStr "idle"; VInt 1];
         [VInt 7; VInt 2; VStr "jump"; VInt 1] ].
Proof.
  assert (Hout : ~ In (VStr "jump") (Object_values AgentAction)).
  { simpl. intros H. repeat destruct H as [H|H]; try discriminate H. exact H. }
  edestruct (executeActionArray_invalid_element host (answering 200 (VStr "ok"))
               (VInt 7) (VInt 2) [VStr "idle"] (VStr "jump") [VStr "drop"]
               (VInt 1) []) as (_ & Hreq & Hcalls).
  - vm_compute. reflexivity.
  - right. right. right. left. exact Hout.
  - split; [exact Hout|]. split; [vm_compute; reflexivity|].
    split; [exact Hreq | exact Hcalls].
Defined.

(** X17 on a service that reports its agents as many: the status of agent
    NaN is requested. *)
Lemma init_unparsable_agent_count_witness :
  parseInt (VStr "many") = None
  /\ requests (snd (init host uncounted (VStr "HW1") []))
     = [ create_request host (VStr "HW1");
         start_request host (VInt 7);
         status_request host (VInt 7) (VNum NNaN) ]
  /\ url (status_request host (VInt 7) (VNum NNaN))
     = "https://sim.example/api/simulations/7/agents/NaN/status".
Proof.
  assert (Hparse : parseInt (VStr "many") = None) by (vm_compute; reflexivity).
  split; [exact Hparse|].
  exact (init_unparsable_agent_count host uncounted (VStr "HW1") []
           (VObj [ ("simulationId", VInt 7);
                   ("simulationData", VObj [("NumAgents", VStr "many")]) ])
           (VInt 7) (VStr "{}") (VObj [("NumAgents", VStr "many")]) (VStr "many")
           eq_refl eq_refl eq_refl eq_refl eq_refl Hparse).
Defined.

(** X21 on a service that cannot be reached: the cycle never settles. *)
Lemma simulateAgentAction_pending_iff_witness :
  In (VStr "idle") (Object_values AgentAction)
  /\ fst (simulateAgentAction host unreachable (VInt 7) (VInt 2) (VStr "idle")
            (VInt 1) [])
     = Pending.
Proof.
  assert (H7 : 7 <> 0) by lia.
  assert (Hin : In (VStr "idle") (Object_values AgentAction))
    by (simpl; tauto).
  assert (Hn : VInt 1 <> VNull) by discriminate.
  assert (Hu : VInt 1 <> VUndefined) by discriminate.
  split; [exact Hin|].
  apply (simulateAgentAction_pending_iff host unreachable 7 2 "idle" (VInt 1) []
           H7 Hin Hn Hu).
  left. reflexivity.
Defined.

(** X7 on a service that answers 400: the rejection is a string. *)
Lemma rejections_are_strings_witness :
  convertible (VInt 7) = true
  /\ convertible (VStr "idle") = true
  /\ exists msg,
       fst (performAgentAction host (answering 400 (VStr "bad request"))
              (VInt 7) (VInt 2) (VStr "idle") (VInt 1) [])
       = Rejected (VStr msg).
Proof.
  split; [reflexivity|]. split; [reflexivity|].
  destruct (rejections_are_strings host (answering 400 (VStr "bad request"))
              (VInt 7) (VInt 2) (VStr "idle") (VInt 1) []
              eq_refl eq_refl eq_refl) as [Hperform _].
  destruct (fst (performAgentAction host (answering 400 (VStr "bad request"))
                   (VInt 7) (VInt 2) (VStr "idle") (VInt 1) []))
    as [v|e|] eqn:Hout; try (vm_compute in Hout; discriminate Hout).
  destruct Hperform as [msg ->]. exists msg. reflexivity.
Defined.

(** X8 on an agent id given as text: the status request leaves, with the
    text in its address. *)
Lemma one_request_per_call_witness :
  convertible (VStr "two") = true
  /\ requests (snd (getAgentStatus host (answering 200 (VStr "ok"))
                      (VInt 7) (VStr "two") []))
     = [status_request host (VInt 7) (VStr "two")].
Proof.
  split; [reflexivity|].
  exact (proj1 (proj2 (proj2
           (one_request_per_call host (answering 200 (VStr "ok")) (VStr "HW1")
              (VInt 7) (VStr "two") (VStr "idle") (VInt 1) []
              eq_refl eq_refl eq_refl)))).
Defined.

(** X19 on the number 42. *)
Lemma getObject_numerals_witness :
  Number_isSafeInteger (VInt 42) = true
  /\ getObject (VStr "42") = VInt 42
  /\ getObject (VArr [VInt 42]) = VInt 42.
Proof.
  split; [reflexivity|]. exact (getObject_numerals 42 eq_refl).
Defined.

(** X20 on a service that cannot be reached: one TypeError escapes the
    callback of the step. *)
Lemma absent_response_throws_witness :
  convertible (VInt 7) = true
  /\ exists msg,
       escaped (snd (simulateStep host unreachable (VInt 7) []))
       = [TypeError msg].
Proof.
  split; [reflexivity|].
  destruct (absent_response_throws host unreachable (VStr "HW1") (VInt 7) (VInt 2)
              (VStr "idle") (VInt 1) [] eq_refl eq_refl eq_refl)
    as (_ & _ & _ & _ & tail & Hlog & Htail).
  cbn in Htail. destruct Htail as [msg ->]. exists msg. exact Hlog.
Defined.
